(* ===== verification/_CoqProject ===== *)
-Q . S2P
Prelude.v
Types.v
SeatMap.v
PaymentForm.v
PassengerForm.v
SearchForm.v
FlightCard.v
Api.v
SearchPage.v
Flow.v
PriceUpdates.v
Connection.v
Application.v
