(* ===== verification/Prelude.v ===== *)
(** * Verification of the SkyBook flight-booking wizard (frontend)

    The program is a React/TypeScript single-page application under
    [src/frontend/src]: a six-step booking wizard (search, flight list, seat
    map, passenger form, payment form, confirmation) driven by one controller
    component, with a WebSocket price feed that patches prices into the flight
    list.  All booking, seat and pricing logic of the server is behind an HTTP
    API that the program only calls.

    ** Parts of the program and the files that model them

    - [Prelude] (this file): the JavaScript primitives the sources rely on
      (truthiness and [x || d], [Array.prototype.sort] with a comparator,
      [join], [substring], [toUpperCase], template literals of integers,
      thrown errors as a completion monad, the result of [JSON.parse]),
      finite transition systems with reachability and invariants,
      refinement between two of them ([simulation], [refines]), the
      tactics and hint databases of the development.
    - [Types]: [types/index.ts].  One [Record] per interface, one [Inductive]
      per union of string literals, decidable equality for all of them.
      A projection is named [<Interface>_<field>].
    - [SeatMap]: [components/SeatMap.tsx].  The local selection
      ([useState]), [seatsByRow], [rows], the per-row sort by column,
      [handleSeatClick], [getSeatClass] and the rendered grid and summary.
    - [PaymentForm]: [components/PaymentForm.tsx].  The payment draft,
      [handleChange], [handleAddressChange], [formatCardNumber] (the two
      regular expressions and the [substring]), [handleCardNumberChange],
      [handleSubmit], the [required] and [maxLength] attributes of the
      inputs and what is rendered.
    - [PassengerForm]: [components/PassengerForm.tsx].  The initial
      passenger array, [handleChange], [isFormValid] (with the [TypeError]
      it raises on an empty array), [handleSubmit] and the rendered fields.
    - [SearchForm]: [components/SearchForm.tsx].  The search draft,
      [handleChange], [handleSubmit], the passenger options and the submit
      button.
    - [FlightCard]: [components/FlightCard.tsx].  [formatDuration], the
      airline logo or its initials, the stops badge, the price with its
      updating class, and [handleClick] of the card and of its button.
    - [Api]: [services/api.ts].  The request of each of the six functions
      (method, URL, body) and how the outcome of [fetch] becomes a resolved
      value or a thrown error ([Api.checked]).
    - [SearchPage]: [pages/SearchPage.tsx].  The controller state (the seven
      [useState] cells, the two mutations and the seat query of
      react-query), every handler, [calculateTotal], the price-update
      reducer passed to [usePriceUpdates], and which child is rendered with
      which props.
    - [Flow]: the wizard as one transition system: the controller state
      together with the local state of the child that is mounted
      ([Flow.App]), the events a user or the network can cause in a rendered
      state ([Flow.Event], [Flow.next]), the invariant of all reachable
      states ([Flow.consistent]) and worked runs.
    - [PriceUpdates]: [hooks/usePriceUpdates.ts].  The sockets the hook has
      created with their [readyState], the timers of [setTimeout], the two
      refs, and as events the mount, a render with a new [onUpdate], the
      unmount, the four handlers of a socket and a timer that fires
      ([PriceUpdates.next]).
    - [Connection]: the connection that the price feed is meant to be, a
      machine with the phases [Disconnected], [Connecting] and [Open]
      ([Connection.next]; a specification, it models no code), and how the
      hook stands for it ([Feed.phase_of], [Feed.abstraction],
      [Feed.label]).
    - [Application]: [SearchPage] together with the hook it calls
      ([pages/SearchPage.tsx], lines 24-31): the state of [Flow] and the
      state of [PriceUpdates] side by side, with the events of both
      ([Application.next]).

    ** How the parts interact

    The views and the controller meet in [Flow.next]: a view's event is
    enabled by what [SearchPage.render] and the view's own [render] show, the
    view's handler computes the new local state and what it passes to its
    callback prop, and the callback is the controller's handler.  The outcome
    of a request is an event that carries the response of [fetch];
    [Flow.searchOutcome], [Flow.seatsOutcome] and [Flow.bookingOutcome] pass
    it through the function of [Api] that the controller calls.

    The wizard and the price feed meet in [Application.next].  A message on
    an open socket is a step of the hook, which records the call of
    [onUpdate] ([PriceUpdates.delivered]), and a call of
    [Application.onUpdate]: a price update is the wizard's event
    [Flow.PriceUpdated]; for another value the updater of [setFlights]
    ([SearchPage.priceUpdater]) keeps the list or throws.  Either way a
    render of [SearchPage] is scheduled.  A render of [SearchPage] creates a
    new arrow function for [onUpdate] and so is the event
    [PriceUpdates.Rerender] of the hook.  When the updater throws, the
    render of [SearchPage] fails ([Application.failed]) and the model ends:
    what becomes of the page then is up to React.

    ** Correspondence of state and operations

    A [useState] cell is a record field; a handler is a function from state
    (and the event's payload) to state.  Several setter calls in one handler
    are one state update, as React batches them.  A child component's local
    state lives as long as the JSX condition that renders it holds, and is
    re-initialised from its [useState] initialiser when the child is mounted
    again; [Flow.mount] and [Flow.remount] model this.  A callback prop is the
    parent's handler applied to what the child emits.  An event is enabled
    when the element that triggers it is rendered and not [disabled]; the
    handlers themselves are modelled without that guard, as they are written.
    In [PriceUpdates] a closure is identified by the number of the render
    that created it ([socket_owner]): the handlers of a socket and the
    [connect] a timer calls belong to the render whose effect created them.

    The phase of the connection that the hook holds is the [readyState] of
    the socket that [ws.current] names ([Feed.phase_of]): [Connecting],
    [Open], and [Disconnected] for a socket that is closing or closed and
    for no socket.  A socket that opens, receives a message or closes and a
    timer that fires each stand for one step of the connection
    ([Feed.label]); an error event stands for none, since [onerror] only
    logs.

    ** Data

    - [string] is the Standard Library's [string]: sequences of code units
      below 256.  On these, the regular expression [\s] matches the code
      units 9-13, 32 and 160, and [.] everything but 10 and 13.
      [toUpperCase] is defined on code units below 128.
    - [number] is [Z].  The fields of the program are counts, rows and minutes;
      prices are amounts in minor units.  IEEE-754 doubles agree with [Z] on
      sums and products as long as all intermediate values have magnitude
      below 2^53; [SearchPage.calculateTotal_safe] bounds the total.
      Non-integral prices and NaN are not modelled.
    - An optional field ([f?: T]) and a nullable cell ([T | null]) are
      [option T]; [undefined] and [null] are [None].
    - An object used as a dictionary ([seatsByRow]) and the react-query cache
      are [gmap]s.
    - What [JSON.parse] returns for a message of the feed is a
      [Parsed PriceUpdate]: [null], a price update, or another value, none
      of whose fields the program can read.  An object with some fields of a
      price update and not the others is outside the model.

    ** What the theorems show

    - [SeatMap]: the selection never exceeds [maxSelections], holds no seat
      twice and no occupied seat; a click has exactly the four outcomes of the
      code; clicks on new seats append them in the order of the clicks; the
      grid shows every seat once, rows ascending and seats of a row in
      collation order.
    - [PassengerForm]: [isFormValid] holds exactly when the required fields
      are filled; only the first passenger carries contact fields.
    - [PaymentForm]: [formatCardNumber] equals a reference definition
      (group the first 16 non-blank characters by four); removing the
      blanks of its result gives back the first 16 non-blank characters of
      the input, digits or not, formatting twice is formatting once, and
      the result is never longer than 19 characters
      ([PaymentForm.formatCardNumber_keeps_characters]); the card number of
      the draft is always formatted and the fields with a [maxLength] stay
      within it.
    - [SearchForm]: the passenger count of the draft stays within 1 to 8.
    - [SearchPage]: the price reducer keeps order, length and every field
      but the price, ignores unknown flights, and the latest update wins;
      [calculateTotal] on every branch, and its bound.
    - [FlightCard]: [formatDuration] prints hours and minutes of a
      non-negative duration.
    - [Api]: a call resolves exactly when [fetch] resolved with an ok
      response whose body parsed, and which error it throws otherwise, with
      the message of each function.
    - [Flow]: every reachable state is well formed ([Flow.draft_invariant]);
      the step moves along the edges of the wizard only ([Flow.step_edge]);
      a booking request carries one seat and one valid passenger per
      searched passenger ([Flow.booking_request_complete]); the page never
      goes blank and the passenger form never throws ([Flow.views_render]);
      the guards of the seat step and of the passenger step, the search
      response, the price update, the restart and a failed booking request,
      each as the user sees it.  Two theorems state where the code departs
      from its description: selecting a flight keeps the seats chosen
      before, for whichever flight, under a seat map that shows none
      ([Flow.flight_select_keeps_seats]), and the seats are kept, and listed
      on the confirmation, in the order of the clicks
      ([Flow.seats_in_click_order]).  The worked runs [Flow.stale_seats_run]
      and [Flow.reversed_clicks_run] show both on a booking.
    - [PriceUpdates]: a hook mounted once and rendered with one [onUpdate]
      holds exactly one subscription, whatever sockets and timers do
      ([PriceUpdates.one_subscription]); a message that does not parse is
      dropped; and where the code departs from its description: the
      unmounted hook reconnects ([PriceUpdates.unmount_keeps_subscription])
      and every render with a new [onUpdate] adds a connection
      ([PriceUpdates.rerender_adds_subscription]).
    - [Connection]: mounted once and rendered with one [onUpdate], the hook
      implements the connection ([Feed.hook_refines_connection]): by a
      simulation under the invariant [Feed.single], each of its runs is a
      run of the connection, and each step of the connection is a step the
      hook can take.  After a render with a new [onUpdate] it does not
      ([Feed.rerender_breaks_connection]).
    - [Application]: the state of each part is a reachable state of that
      part, so the invariants of [Flow] and [PriceUpdates] hold in the
      application; the feed is never without a subscription
      ([Application.always_subscribed]); every delivered message costs a
      connection
      ([Application.delivery_adds_subscription]), so that the feed alone
      drives the number of connections beyond every bound
      ([Application.connections_unbounded]); the message [null] makes the
      render of [SearchPage] fail as soon as flights are listed
      ([Application.null_message_fails]); an update delivered twice shows
      the same prices as delivered once.

    ** Bounds

    No definition needs fuel: every recursion is structural on a list or a
    string.  Traces of the transition systems are finite lists of events.

    ** Approximations

    [Flow.next] enables a submit when the inputs marked [required] are
    non-empty and the button is not [disabled], and an input event of the
    payment form when the value is within the [maxLength] of its input.
    The browser also checks the syntax of [type="email"] and the [min] and
    [max] of date inputs; the model allows these submissions too, so its
    reachable states include those of the program and the invariants carry
    over.  The seat query is answered only while it is enabled; a response
    that arrives after the step has changed would fill the same cache entry.

    Which events of the user render [SearchPage] depends on React and
    react-query (a state update that changes a value, a change of a result
    the component reads).  [Application] has the render as an event of its
    own ([Application.Render]) that can occur at any time, and marks the one
    render the sources determine, the render after a delivered message
    ([Application.renderScheduled]); its reachable states include those of
    the program.  A timer fires at any time after it was set, whatever its
    delay (3000 ms).

    ** Not modelled

    [App.tsx]: the static shell and the react-query client; its [retry: 1]
    applies to the seat query, whose outcome [Flow] takes after the retry.
    What React does after a render has thrown.  Of the platform:
    [Intl.NumberFormat] and [Date] ([formatPrice] and [formatTime] are
    parameters of [FlightCard.render] and [PaymentForm.render]),
    [JSON.parse] (a parameter of [PriceUpdates] and [Application]) and
    [JSON.stringify], the network, CSS class names of static elements, SVG
    markup, [console], and the scheduling of React renders.
    [localeCompare] is a parameter of [SeatMap] ([Prelude.Collator]) with an
    instance for code-unit order, which agrees with the root collation on
    upper-case ASCII letters; the worked runs use that instance. *)

From Stdlib Require Export ZArith Lia Ascii String.
From stdpp Require Export base tactics option list strings gmap sorting relations pretty.

#[global] Open Scope Z_scope.

(** ** Scopes, hint databases and tactics *)

Declare Scope js_scope.
Delimit Scope js_scope with js.
#[global] Open Scope js_scope.

Create HintDb js discriminated.
Create Rewrite HintDb js_rw.

(** [case_js] destructs the first [decide], [bool_decide] or boolean
    [if] of the goal, keeping the equation. *)
Ltac case_js :=
  match goal with
  | |- context [decide ?P] => destruct (decide P)
  | |- context [bool_decide ?P] => destruct (bool_decide_reflect P)
  | |- context [if ?b then _ else _] => destruct b eqn:?
  | |- context [match ?o with Some _ => _ | None => _ end] => destruct o eqn:?
  end.

Ltac case_jss := repeat (case_js; simpl in *; simplify_eq; try done).

(** ** JavaScript truthiness and [||] *)

Class Truthy (A : Type) := truthy : A → bool.
#[global] Hint Mode Truthy ! : typeclass_instances.

#[global] Instance truthy_bool : Truthy bool := λ b, b.
#[global] Instance truthy_string : Truthy string := λ s, bool_decide (s ≠ "").
#[global] Instance truthy_Z : Truthy Z := λ z, bool_decide (z ≠ 0).
#[global] Instance truthy_option `{Truthy A} : Truthy (option A) :=
  λ o, match o with Some a => truthy a | None => false end.

(** [x || d] where [x] may be [undefined]: the value of [x] if it is truthy,
    else [d]. *)
Definition js_or `{Truthy A} (x : option A) (d : A) : A :=
  match x with
  | Some a => if truthy a then a else d
  | None => d
  end.
Infix "||?" := js_or (at level 50, left associativity) : js_scope.

(** ** Thrown errors *)

Inductive JsError : Type :=
| Error (message : string)
| TypeError.

Inductive Completion (A : Type) : Type :=
| Normal (a : A)
| Throw (e : JsError).
Arguments Normal {A} a.
Arguments Throw {A} e.

#[global] Instance completion_ret : MRet Completion := @Normal.
#[global] Instance completion_bind : MBind Completion := λ A B k c,
  match c with
  | Normal a => k a
  | Throw e => Throw e
  end.

(** ** [JSON.parse] *)

(** What [JSON.parse] returns, seen through a cast to an interface [A]:
    [null]; a value with the fields of [A]; or another value (a number, a
    string, a boolean, an array, an object without the fields of [A]), of
    which every field of [A] reads as [undefined]. *)
Inductive Parsed (A : Type) : Type :=
| ParsedNull
| ParsedAs (a : A)
| ParsedOther.
Arguments ParsedNull {A}.
Arguments ParsedAs {A} a.
Arguments ParsedOther {A}.

Definition completes {A} (c : Completion A) : bool :=
  match c with Normal _ => true | Throw _ => false end.

#[global] Instance JsError_eq_dec : EqDecision JsError.
Proof. solve_decision. Defined.
#[global] Instance Completion_eq_dec `{EqDecision A} : EqDecision (Completion A).
Proof. solve_decision. Defined.

(** ** Arrays *)

(** [arr.length] as a number. *)
Definition len {A} (l : list A) : Z := Z.of_nat (length l).

(** [arr.reduce((sum, x) => sum + f(x), 0)]. *)
Definition sum_with {A} (f : A → Z) (l : list A) : Z :=
  foldl (λ sum x, sum + f x) 0 l.

(** [Array.from({ length: n }, (_, i) => f(i))]: [ToLength] clamps a negative
    length to 0. *)
Definition array_from {A} (n : Z) (f : Z → A) : list A :=
  (λ i, f (Z.of_nat i)) <$> seq 0 (Z.to_nat n).

(** [arr.sort(cmp)]: the comparator returns a number, negative when its first
    argument sorts first.  The sort is stable (ECMAScript 2019), which
    insertion from the right is. *)
Section sort.
Context {A : Type} (cmp : A → A → Z).

Fixpoint js_insert (x : A) (l : list A) : list A :=
  match l with
  | [] => [x]
  | y :: l' => if decide (cmp x y ≤ 0) then x :: y :: l' else y :: js_insert x l'
  end.

Definition js_sort (l : list A) : list A := foldr js_insert [] l.

Definition cmp_le (x y : A) : Prop := cmp x y ≤ 0.
End sort.

(** A comparator is consistent when it orders the elements totally and
    transitively; [sort] promises a sorted result only then. *)
Class Consistent {A : Type} (cmp : A → A → Z) := {
  cmp_total x y : cmp x y ≤ 0 ∨ cmp y x ≤ 0;
  cmp_trans x y z : cmp x y ≤ 0 → cmp y z ≤ 0 → cmp x z ≤ 0;
}.

(** [(a, b) => a - b]. *)
Definition numeric_cmp (a b : Z) : Z := a - b.

(** ** Strings *)

(** [`${n}`] for an integer [n]. *)
Definition num_to_string (n : Z) : string := pretty n.

(** [arr.join(sep)]. *)
Definition js_join (sep : string) (l : list string) : string := String.concat sep l.

(** [s.substring(0, n)]. *)
Definition substring0 (n : nat) (s : string) : string := String.substring 0 n s.

(** A string as its code units, and back. *)
Definition chars (s : string) : list ascii := list_ascii_of_string s.
Definition of_chars (l : list ascii) : string := string_of_list_ascii l.

(** [toUpperCase] on strings of code units below 128.  The upper case of
    other code units need not be a code unit below 256: such strings are
    outside the model ([None]). *)
Definition upper_ascii (c : ascii) : option ascii :=
  let n := N_of_ascii c in
  if bool_decide (97 ≤ n ≤ 122)%N then Some (ascii_of_N (n - 32))
  else if bool_decide (n < 128)%N then Some c
  else None.

Definition toUpperCase (s : string) : option string :=
  of_chars <$> mapM upper_ascii (chars s).

(** [chunks.join(sep)] on code units. *)
Fixpoint join_chars (sep : list ascii) (l : list (list ascii)) : list ascii :=
  match l with
  | [] => []
  | [x] => x
  | x :: l' => x ++ sep ++ join_chars sep l'
  end.

(** The character class [\s] of a regular expression, on code units below
    256: tab, line feed, vertical tab, form feed, carriage return, space and
    no-break space. *)
Definition is_whitespace (c : ascii) : bool :=
  let n := N_of_ascii c in
  bool_decide (9 ≤ n ≤ 13)%N || bool_decide (n = 32)%N || bool_decide (n = 160)%N.

(** The characters [.] does not match: line feed and carriage return. *)
Definition is_line_terminator (c : ascii) : bool :=
  let n := N_of_ascii c in
  bool_decide (n = 10)%N || bool_decide (n = 13)%N.

(** [s.replace(/\s/g, '')] *)
Definition remove_whitespace (s : list ascii) : list ascii :=
  filter (λ c, is_whitespace c = false) s.

(** The interface [SeatMap] needs from the platform's collation:
    [a.localeCompare(b)] is a consistent comparator. *)
Class Collator := {
  localeCompare : string → string → Z;
  localeCompare_consistent :: Consistent localeCompare;
}.

(** Code-unit order, the collation of upper-case ASCII letters. *)
Definition code_unit_compare (a b : string) : Z :=
  match String.compare a b with
  | Lt => -1
  | Eq => 0
  | Gt => 1
  end.

(** ** Transition systems *)

Section transition_system.
Context {S E : Type}.
(** [next s e] is the state after event [e], or [None] when [e] cannot occur
    in [s]. *)
Context (initial : S) (next : S → E → option S).

Definition step (s : S) (e : E) (s' : S) : Prop := next s e = Some s'.

Fixpoint run (s : S) (trace : list E) : option S :=
  match trace with
  | [] => Some s
  | e :: trace' =>
      match next s e with
      | Some s' => run s' trace'
      | None => None
      end
  end.

Inductive reachable : S → Prop :=
| reachable_initial : reachable initial
| reachable_step s e s' : reachable s → step s e s' → reachable s'.

Definition invariant (P : S → Prop) : Prop := ∀ s, reachable s → P s.

(** The state after a trace; the initial state when the trace cannot occur. *)
Definition after (trace : list E) : S := default initial (run initial trace).

Definition inductive (P : S → Prop) : Prop :=
  P initial ∧ ∀ s e s', reachable s → P s → step s e s' → P s'.
End transition_system.

(** ** Refinement between transition systems *)

Section refinement.
Context {C E A L : Type}.
(** The implementation, on states [C] with events [E], and the
    specification, on states [A] with labels [L]. *)
Context (impl : C → E → option C) (spec : A → L → option A).
(** The state of the specification that a state of the implementation stands
    for, and the step of the specification that an event stands for: [None]
    for an event that the specification does not see. *)
Context (abstraction : C → A) (label : E → option L).

(** A step of the implementation is matched: the specification makes the
    step that the event stands for, or stays where it is. *)
Definition matched (c : C) (e : E) (c' : C) : Prop :=
  match label e with
  | Some l => spec (abstraction c) l = Some (abstraction c')
  | None => abstraction c' = abstraction c
  end.

(** Every step from a state reachable from [initial] is matched. *)
Definition simulation (initial : C) : Prop :=
  ∀ c e c', reachable initial impl c → impl c e = Some c' → matched c e c'.

(** Every run of the implementation from [initial] is, event by event, a run
    of the specification. *)
Definition refines (initial : C) : Prop :=
  ∀ trace c, run impl initial trace = Some c →
    run spec (abstraction initial) (omap label trace) = Some (abstraction c).
End refinement.

(** ** Lemmas *)

Lemma truthy_string_spec (s : string) : truthy s = true ↔ s ≠ "".
Proof. unfold truthy, truthy_string. by rewrite bool_decide_eq_true. Qed.

Lemma truthy_Z_spec (z : Z) : truthy z = true ↔ z ≠ 0.
Proof. unfold truthy, truthy_Z. by rewrite bool_decide_eq_true. Qed.

Lemma truthy_option_string (o : option string) :
  truthy o = true ↔ ∃ s, o = Some s ∧ s ≠ "".
Proof.
  destruct o as [s|].
  - change (truthy (Some s)) with (truthy s). rewrite truthy_string_spec.
    split; [eauto|]. by intros (? & [= <-] & ?).
  - split; [done|]. by intros (? & ? & ?).
Qed.

Lemma js_or_Z_nonzero (x : option Z) (d : Z) : d ≠ 0 → x ||? d ≠ 0.
Proof.
  intros Hd. destruct x as [z|]; simpl; [|done].
  destruct (truthy z) eqn:Hz; [by apply truthy_Z_spec|done].
Qed.

Lemma js_or_Z_zero (x : option Z) : x ||? 0 = default 0 x.
Proof.
  destruct x as [z|]; simpl; [|done].
  destruct (truthy z) eqn:Hz; [done|].
  apply not_true_iff_false in Hz. rewrite truthy_Z_spec in Hz.
  by destruct (decide (z = 0)) as [->|].
Qed.

Lemma js_or_Some_truthy `{Truthy A} (a d : A) : truthy a = true → Some a ||? d = a.
Proof. intros Ha. simpl. by rewrite Ha. Qed.

Lemma len_nil {A} : len (@nil A) = 0.
Proof. done. Qed.

Lemma len_app {A} (l k : list A) : len (l ++ k) = len l + len k.
Proof. unfold len. rewrite length_app. lia. Qed.

Lemma len_nonneg {A} (l : list A) : 0 ≤ len l.
Proof. unfold len. lia. Qed.

Lemma len_eq {A B} (l : list A) (k : list B) : len l = len k ↔ length l = length k.
Proof. unfold len. lia. Qed.

Lemma sum_with_foldl_shift {A} (f : A → Z) (l : list A) (a : Z) :
  foldl (λ sum x, sum + f x) a l = a + sum_with f l.
Proof.
  unfold sum_with. revert a. induction l as [|x l IH]; intros a; simpl; [lia|].
  rewrite IH, (IH (0 + f x)). lia.
Qed.

Lemma sum_with_cons {A} (f : A → Z) (x : A) (l : list A) :
  sum_with f (x :: l) = f x + sum_with f l.
Proof. unfold sum_with at 1. simpl. by rewrite sum_with_foldl_shift. Qed.

Lemma sum_with_app {A} (f : A → Z) (l k : list A) :
  sum_with f (l ++ k) = sum_with f l + sum_with f k.
Proof.
  induction l as [|x l IH]; simpl; [done|]. rewrite !sum_with_cons, IH. lia.
Qed.

Lemma sum_with_ext {A} (f g : A → Z) (l : list A) :
  (∀ x, f x = g x) → sum_with f l = sum_with g l.
Proof.
  intros Hfg. induction l as [|x l IH]; [done|]. by rewrite !sum_with_cons, Hfg, IH.
Qed.

Lemma sum_with_bounds {A} (f : A → Z) (lo hi : Z) (l : list A) :
  Forall (λ x, lo ≤ f x ≤ hi) l → lo * len l ≤ sum_with f l ≤ hi * len l.
Proof.
  unfold len. induction 1 as [|x l Hx _ IH]; [unfold sum_with; simpl; lia|].
  rewrite sum_with_cons. simpl length. lia.
Qed.

Lemma length_array_from {A} (n : Z) (f : Z → A) :
  length (array_from n f) = Z.to_nat n.
Proof. unfold array_from. by rewrite length_fmap, length_seq. Qed.

Lemma lookup_array_from {A} (n : Z) (f : Z → A) (i : nat) :
  (Z.of_nat i < n) → array_from n f !! i = Some (f (Z.of_nat i)).
Proof.
  intros Hi. unfold array_from.
  rewrite list_lookup_fmap, lookup_seq_lt; [done|lia].
Qed.

Section sort_lemmas.
Context {A : Type} (cmp : A → A → Z).

Lemma js_insert_perm (x : A) (l : list A) : js_insert cmp x l ≡ₚ x :: l.
Proof.
  induction l as [|y l IH]; simpl; [done|].
  case_decide; [done|]. by rewrite IH, Permutation_swap.
Qed.

Lemma js_sort_perm (l : list A) : js_sort cmp l ≡ₚ l.
Proof.
  induction l as [|x l IH]; simpl; [done|]. by rewrite js_insert_perm, IH.
Qed.

Lemma length_js_sort (l : list A) : length (js_sort cmp l) = length l.
Proof. by rewrite js_sort_perm. Qed.

Lemma elem_of_js_sort (x : A) (l : list A) : x ∈ js_sort cmp l ↔ x ∈ l.
Proof. by rewrite js_sort_perm. Qed.

Context `{!Consistent cmp}.

Lemma cmp_flip (x y : A) : ¬ cmp x y ≤ 0 → cmp y x ≤ 0.
Proof. destruct (cmp_total x y); tauto. Qed.

Lemma js_insert_sorted (x : A) (l : list A) :
  StronglySorted (cmp_le cmp) l → StronglySorted (cmp_le cmp) (js_insert cmp x l).
Proof.
  induction 1 as [|y l Hl IH Hy]; simpl; [by repeat constructor|].
  case_decide as Hxy.
  - constructor; [by constructor|]. constructor; [done|].
    eapply Forall_impl; [exact Hy|]. intros z Hz. by eapply cmp_trans.
  - constructor; [done|]. rewrite js_insert_perm. constructor; [|done].
    by apply cmp_flip.
Qed.

Lemma js_sort_sorted (l : list A) : StronglySorted (cmp_le cmp) (js_sort cmp l).
Proof.
  induction l as [|x l IH]; simpl; [constructor|]. by apply js_insert_sorted.
Qed.

(** A list that is already sorted is left as it is: the sort is stable. *)
Lemma js_sort_id (l : list A) : StronglySorted (cmp_le cmp) l → js_sort cmp l = l.
Proof.
  induction 1 as [|x l Hl IH Hx]; simpl; [done|]. rewrite IH.
  destruct Hx as [|y l' Hy _]; simpl; [done|]. by rewrite decide_True.
Qed.
End sort_lemmas.

(** Grouping a list by key and concatenating the groups, for a duplicate-free
    list of keys that covers the list, loses and repeats nothing. *)
Lemma concat_groups_perm {A K} `{EqDecision K} (key : A → K) (ks : list K) (l : list A) :
  NoDup ks → (∀ x, x ∈ l → key x ∈ ks) →
  concat ((λ k, filter (λ x, key x = k) l) <$> ks) ≡ₚ l.
Proof.
  intros Hks. revert l. induction Hks as [|k ks Hk _ IH]; intros l Hl; simpl.
  - destruct l as [|x l]; [done|]. destruct (not_elem_of_nil (key x)). apply Hl. by left.
  - etrans; [|apply (filter_app_complement (λ x, key x = k) l)].
    apply Permutation_app_head.
    rewrite <-(IH (filter (λ x, ¬ key x = k) l)).
    + f_equiv. apply reflexive_eq, list_fmap_ext.
      intros i k' Hk'%list_elem_of_lookup_2.
      rewrite list_filter_filter. apply list_filter_iff. intros x. split; [|tauto].
      intros ->. split; [done|]. by intros ->.
    + intros x [Hx1 Hx2]%list_elem_of_filter.
      by apply Hl, elem_of_cons in Hx2 as [?|?].
Qed.

Lemma StronglySorted_mono {A} (R1 R2 : relation A) (l : list A) :
  (∀ x y, R1 x y → R2 x y) → StronglySorted R1 l → StronglySorted R2 l.
Proof.
  intros HR. induction 1 as [|x l _ IH Hx]; constructor; [done|].
  eapply Forall_impl; [exact Hx|]. auto.
Qed.

Lemma StronglySorted_le_lt (l : list Z) :
  NoDup l → StronglySorted Z.le l → StronglySorted Z.lt l.
Proof.
  intros Hnd Hs. induction Hs as [|x l _ IH Hx]; [constructor|].
  apply NoDup_cons in Hnd as [Hxl Hnd]. constructor; [auto|].
  apply Forall_forall. intros y Hy. rewrite Forall_forall in Hx.
  specialize (Hx y Hy). assert (x ≠ y) by (by intros ->). lia.
Qed.

Lemma fmap_imap_cancel {A B} (f : nat → A → B) (g : B → A) (l : list A) :
  (∀ i x, g (f i x) = x) → g <$> imap f l = l.
Proof.
  intros Hgf. revert f Hgf. induction l as [|x l IH]; intros f Hgf; simpl; [done|].
  rewrite Hgf. f_equal. apply IH. intros i y. apply Hgf.
Qed.

(** ** Counting the elements that satisfy a predicate *)

Section count.
Context {A} (P : A → Prop) `{!∀ x, Decision (P x)}.

Lemma length_filter_insert (l : list A) (i : nat) (x y : A) :
  l !! i = Some x →
  (length (filter P (<[i := y]> l)) + (if decide (P x) then 1 else 0) =
   length (filter P l) + (if decide (P y) then 1 else 0))%nat.
Proof.
  revert i. induction l as [|a l IH]; intros [|i] Hi; simplify_eq/=.
  - rewrite !filter_cons. repeat case_decide; simpl; lia.
  - specialize (IH i Hi). rewrite !filter_cons. destruct (decide (P a)); simpl; lia.
Qed.

Lemma length_filter_alter (f : A → A) (l : list A) (i : nat) :
  (∀ x, P (f x) ↔ P x) → length (filter P (alter f i l)) = length (filter P l).
Proof.
  intros Hf. revert i. induction l as [|a l IH]; intros [|i]; simpl; [done..| |].
  - rewrite !filter_cons. destruct (decide (P a)) as [Ha|Ha], (decide (P (f a))) as [Hfa|Hfa];
      try done; exfalso; [apply Hfa, Hf, Ha|apply Ha, Hf, Hfa].
  - rewrite !filter_cons. destruct (decide (P a)); simpl; [f_equal|]; apply IH.
Qed.
End count.

#[global] Instance numeric_cmp_consistent : Consistent numeric_cmp.
Proof. split; unfold numeric_cmp; intros; lia. Qed.

Lemma numeric_cmp_le (a b : Z) : cmp_le numeric_cmp a b ↔ a ≤ b.
Proof. unfold cmp_le, numeric_cmp. lia. Qed.

Lemma of_chars_chars (s : string) : of_chars (chars s) = s.
Proof. apply string_of_list_ascii_of_string. Qed.

Lemma chars_of_chars (l : list ascii) : chars (of_chars l) = l.
Proof. apply list_ascii_of_string_of_list_ascii. Qed.

#[global] Instance chars_inj : Inj (=) (=) chars.
Proof. intros s1 s2 Hs. by rewrite <-(of_chars_chars s1), Hs, of_chars_chars. Qed.

Lemma length_of_chars (l : list ascii) : String.length (of_chars l) = length l.
Proof. induction l; simpl; congruence. Qed.

Lemma line_terminator_whitespace (c : ascii) :
  is_line_terminator c = true → is_whitespace c = true.
Proof.
  unfold is_line_terminator, is_whitespace. intros H. apply orb_true_iff in H.
  rewrite !bool_decide_eq_true in H. rewrite !orb_true_iff, !bool_decide_eq_true. lia.
Qed.

Lemma remove_whitespace_free (s : list ascii) :
  Forall (λ c, is_whitespace c = false) (remove_whitespace s).
Proof. apply Forall_forall. by intros c [? _]%list_elem_of_filter. Qed.

Lemma remove_whitespace_id (s : list ascii) :
  Forall (λ c, is_whitespace c = false) s → remove_whitespace s = s.
Proof.
  unfold remove_whitespace. induction 1 as [|c s Hc _ IH]; [done|].
  by rewrite filter_cons_True, IH.
Qed.

Lemma remove_whitespace_app (s t : list ascii) :
  remove_whitespace (s ++ t) = remove_whitespace s ++ remove_whitespace t.
Proof. apply filter_app. Qed.

Lemma code_unit_compare_le (a b : string) : code_unit_compare a b ≤ 0 ↔ (a ≤ b)%string.
Proof.
  unfold code_unit_compare, String.le, String.leb.
  destruct (a ?= b)%string; simpl; intuition (done || lia).
Qed.

#[global] Instance code_unit_compare_consistent : Consistent code_unit_compare.
Proof.
  split; setoid_rewrite code_unit_compare_le.
  - apply (total (≤)%string).
  - intros x y z. apply (transitivity (R:=(≤)%string)).
Qed.

(** The collation used for the worked examples. *)
#[export] Instance code_unit_collator : Collator :=
  {| localeCompare := code_unit_compare |}.

Section transition_lemmas.
Context {S E : Type} (initial : S) (next : S → E → option S).

Lemma inductive_invariant (P : S → Prop) :
  inductive initial next P → invariant initial next P.
Proof. intros [H0 Hstep] s Hs. induction Hs; eauto. Qed.

Lemma run_app (s : S) (t1 t2 : list E) :
  run next s (t1 ++ t2) = run next s t1 ≫= λ s', run next s' t2.
Proof.
  revert s. induction t1 as [|e t1 IH]; intros s; simpl; [done|].
  destruct (next s e); simpl; auto.
Qed.

Lemma run_reachable (s s' : S) (trace : list E) :
  reachable initial next s → run next s trace = Some s' → reachable initial next s'.
Proof.
  revert s. induction trace as [|e trace IH]; intros s Hs Hrun; simpl in *.
  - by simplify_eq.
  - destruct (next s e) as [s1|] eqn:He; [|done].
    eapply IH; [|done]. by eapply reachable_step.
Qed.

Lemma reachable_run (s : S) :
  reachable initial next s ↔ ∃ trace, run next initial trace = Some s.
Proof.
  split.
  - induction 1 as [|s e s' _ [trace Htrace] Hstep]; [by exists []|].
    exists (trace ++ [e]). rewrite run_app, Htrace. simpl. by rewrite Hstep.
  - intros [trace Htrace]. eapply run_reachable; [constructor|done].
Qed.
Lemma after_reachable (trace : list E) :
  is_Some (run next initial trace) → reachable initial next (after initial next trace).
Proof.
  unfold after. intros [s Hs]. rewrite Hs. simpl.
  eapply run_reachable; [constructor|done].
Qed.
End transition_lemmas.

Section refinement_lemmas.
Context {C E A L : Type}.
Context (impl : C → E → option C) (spec : A → L → option A).
Context (abstraction : C → A) (label : E → option L).

Lemma simulation_run (initial c0 : C) (trace : list E) (c : C) :
  simulation impl spec abstraction label initial →
  reachable initial impl c0 → run impl c0 trace = Some c →
  run spec (abstraction c0) (omap label trace) = Some (abstraction c).
Proof.
  intros Hsim. revert c0. induction trace as [|e trace IH]; intros c0 Hc0 Hrun; simpl in *.
  { by simplify_eq. }
  destruct (impl c0 e) as [c1|] eqn:He; [|done].
  pose proof (Hsim c0 e c1 Hc0 He) as Hm. unfold matched in Hm.
  assert (reachable initial impl c1) as Hc1 by by apply (reachable_step _ _ c0 e).
  destruct (label e) as [l|]; simpl; [rewrite Hm|rewrite <-Hm]; by apply IH.
Qed.

(** A simulation gives the refinement of runs. *)
Lemma simulation_refines (initial : C) :
  simulation impl spec abstraction label initial →
  refines impl spec abstraction label initial.
Proof. intros Hsim trace c. apply (simulation_run initial); [done|constructor]. Qed.
End refinement_lemmas.

#[export] Hint Rewrite @len_nil @len_app @sum_with_cons @sum_with_app : js_rw.
#[export] Hint Resolve len_nonneg : js.
