(* ===== verification/Types.v ===== *)
(** * The data model of [types/index.ts]

    One [Record] per interface and one [Inductive] per union of string
    literals, in the order of the source.  A projection is named
    [<Interface>_<field>]; the [_to_string] functions give the literal a
    constructor stands for, which is what a template literal or JSON shows.
    Every type has decidable equality. *)

From S2P Require Import Prelude.

(** ** Unions of string literals *)

(** ['economy' | 'business' | 'first'] *)
Inductive CabinClass : Type := Economy | Business | First.

(** ['Mr' | 'Mrs' | 'Ms' | 'Dr'] *)
Inductive Title : Type := Mr | Mrs | Ms | Dr.

(** ['window' | 'middle' | 'aisle'] *)
Inductive SeatType : Type := Window | Middle | Aisle.

(** ['available' | 'occupied' | 'selected'] *)
Inductive SeatStatus : Type := Available | Occupied | Selected.

(** ['pending' | 'confirmed' | 'cancelled'] *)
Inductive BookingStatus : Type := Pending | Confirmed | Cancelled.

Definition CabinClass_to_string (c : CabinClass) : string :=
  match c with Economy => "economy" | Business => "business" | First => "first" end.

Definition Title_to_string (t : Title) : string :=
  match t with Mr => "Mr" | Mrs => "Mrs" | Ms => "Ms" | Dr => "Dr" end.

Definition SeatType_to_string (t : SeatType) : string :=
  match t with Window => "window" | Middle => "middle" | Aisle => "aisle" end.

Definition SeatStatus_to_string (s : SeatStatus) : string :=
  match s with Available => "available" | Occupied => "occupied" | Selected => "selected" end.

Definition BookingStatus_to_string (s : BookingStatus) : string :=
  match s with Pending => "pending" | Confirmed => "confirmed" | Cancelled => "cancelled" end.

(** ** Interfaces *)

Record Airport : Type := {
  Airport_code : string;
  Airport_name : string;
  Airport_city : string;
  Airport_country : string;
}.

Record Flight : Type := {
  Flight_id : string;
  Flight_flightNumber : string;
  Flight_airline : string;
  Flight_airlineLogo : string;
  Flight_origin : Airport;
  Flight_destination : Airport;
  Flight_departureTime : string;
  Flight_arrivalTime : string;
  Flight_duration : Z;
  Flight_price : Z;
  Flight_currency : string;
  Flight_stops : Z;
  Flight_layovers : option (list Airport);
  Flight_availableSeats : Z;
  Flight_class : CabinClass;
}.

Record SearchParams : Type := {
  SearchParams_origin : string;
  SearchParams_destination : string;
  SearchParams_departureDate : string;
  SearchParams_returnDate : option string;
  SearchParams_passengers : Z;
  SearchParams_class : CabinClass;
}.

Record Passenger : Type := {
  Passenger_id : string;
  Passenger_title : Title;
  Passenger_firstName : string;
  Passenger_lastName : string;
  Passenger_dateOfBirth : string;
  Passenger_email : option string;
  Passenger_phone : option string;
  Passenger_passportNumber : option string;
  Passenger_nationality : option string;
}.

Record Seat : Type := {
  Seat_id : string;
  Seat_row : Z;
  Seat_column : string;
  Seat_type : SeatType;
  Seat_status : SeatStatus;
  Seat_price : option Z;
}.

Record Booking : Type := {
  Booking_id : string;
  Booking_flightId : string;
  Booking_passengers : list Passenger;
  Booking_seats : list Seat;
  Booking_totalPrice : Z;
  Booking_currency : string;
  Booking_status : BookingStatus;
  Booking_bookingReference : string;
  Booking_createdAt : string;
}.

Record BillingAddress : Type := {
  BillingAddress_street : string;
  BillingAddress_city : string;
  BillingAddress_state : string;
  BillingAddress_zipCode : string;
  BillingAddress_country : string;
}.

Record PaymentInfo : Type := {
  PaymentInfo_cardNumber : string;
  PaymentInfo_cardHolder : string;
  PaymentInfo_expiryDate : string;
  PaymentInfo_cvv : string;
  PaymentInfo_billingAddress : BillingAddress;
}.

Record PriceUpdate : Type := {
  PriceUpdate_flightId : string;
  PriceUpdate_newPrice : Z;
  PriceUpdate_timestamp : string;
}.

(** ** Decidable equality *)

#[global] Instance CabinClass_eq_dec : EqDecision CabinClass.
Proof. solve_decision. Defined.
#[global] Instance Title_eq_dec : EqDecision Title.
Proof. solve_decision. Defined.
#[global] Instance SeatType_eq_dec : EqDecision SeatType.
Proof. solve_decision. Defined.
#[global] Instance SeatStatus_eq_dec : EqDecision SeatStatus.
Proof. solve_decision. Defined.
#[global] Instance BookingStatus_eq_dec : EqDecision BookingStatus.
Proof. solve_decision. Defined.
#[global] Instance Airport_eq_dec : EqDecision Airport.
Proof. solve_decision. Defined.
#[global] Instance Flight_eq_dec : EqDecision Flight.
Proof. solve_decision. Defined.
#[global] Instance SearchParams_eq_dec : EqDecision SearchParams.
Proof. solve_decision. Defined.
#[global] Instance Passenger_eq_dec : EqDecision Passenger.
Proof. solve_decision. Defined.
#[global] Instance Seat_eq_dec : EqDecision Seat.
Proof. solve_decision. Defined.
#[global] Instance Booking_eq_dec : EqDecision Booking.
Proof. solve_decision. Defined.
#[global] Instance BillingAddress_eq_dec : EqDecision BillingAddress.
Proof. solve_decision. Defined.
#[global] Instance PaymentInfo_eq_dec : EqDecision PaymentInfo.
Proof. solve_decision. Defined.
#[global] Instance PriceUpdate_eq_dec : EqDecision PriceUpdate.
Proof. solve_decision. Defined.

(** ** The literals are distinct *)

#[global] Instance CabinClass_to_string_inj : Inj (=) (=) CabinClass_to_string.
Proof. by intros [] [] ?. Qed.
#[global] Instance Title_to_string_inj : Inj (=) (=) Title_to_string.
Proof. by intros [] [] ?. Qed.
#[global] Instance SeatType_to_string_inj : Inj (=) (=) SeatType_to_string.
Proof. by intros [] [] ?. Qed.
#[global] Instance SeatStatus_to_string_inj : Inj (=) (=) SeatStatus_to_string.
Proof. by intros [] [] ?. Qed.
#[global] Instance BookingStatus_to_string_inj : Inj (=) (=) BookingStatus_to_string.
Proof. by intros [] [] ?. Qed.
