(* ===== verification/SeatMap.v ===== *)
(** * The seat map: [components/SeatMap.tsx]

    The component keeps the list of selected seats ([useState], initially
    empty), groups the [seats] prop by row, renders one button per seat and
    a summary, and on a click toggles the seat in the selection, subject to
    [maxSelections].  [handleSeatClick] returns the three effects the handler
    can have: the next local state, the text passed to [alert], and the
    argument passed to the [onSelectionChange] prop.

    [localeCompare] comes from the platform: the definitions that sort by
    column are in a section over [Collator].  [sort] reorders the array
    [seatsByRow[rowNum]] in place; [seatsByRow] is built anew by the
    [reduce] of every render and is read nowhere else, so [sortedRow] is
    the sorted row and the grouping keeps the order of the prop. *)

From S2P Require Import Prelude Types.

Module SeatMap.

(** ** State and effects *)

(** [useState<Seat[]>([])] *)
Definition initialSelectedSeats : list Seat := [].

Record ClickEffect : Type := {
  (** the local state after the handler: [setSelectedSeats], or the old state *)
  next_selectedSeats : list Seat;
  (** the argument of [alert], if it is called *)
  alert : option string;
  (** the argument of [onSelectionChange], if it is called *)
  onSelectionChange : option (list Seat);
}.

(** ** Grouping by row *)

(** The reducer of [seats.reduce(..., {})]: create the row's array if it is
    missing, then push the seat. *)
Definition seatsByRow_step (acc : gmap Z (list Seat)) (seat : Seat) : gmap Z (list Seat) :=
  let acc1 :=
    match acc !! Seat_row seat with
    | None => <[Seat_row seat := []]> acc
    | Some _ => acc
    end in
  alter (λ l, l ++ [seat]) (Seat_row seat) acc1.

Definition seatsByRow (seats : list Seat) : gmap Z (list Seat) :=
  foldl seatsByRow_step ∅ seats.

(** [Object.keys(seatsByRow).map(Number).sort((a, b) => a - b)] *)
Definition rows (seats : list Seat) : list Z :=
  js_sort numeric_cmp (fst <$> map_to_list (seatsByRow seats)).

(** ** The click handler *)

(** [selectedSeats.some(s => s.id === seat.id)] *)
Definition isSelected (selectedSeats : list Seat) (seat : Seat) : bool :=
  bool_decide (Exists (λ s, Seat_id s = Seat_id seat) selectedSeats).

Definition handleSeatClick (maxSelections : Z) (selectedSeats : list Seat) (seat : Seat)
    : ClickEffect :=
  let unchanged :=
    {| next_selectedSeats := selectedSeats; alert := None; onSelectionChange := None |} in
  let commit newSelection :=
    {| next_selectedSeats := newSelection; alert := None;
       onSelectionChange := Some newSelection |} in
  if decide (Seat_status seat = Occupied) then unchanged
  else if isSelected selectedSeats seat then
    commit (filter (λ s, Seat_id s ≠ Seat_id seat) selectedSeats)
  else if decide (maxSelections ≤ len selectedSeats) then
    {| next_selectedSeats := selectedSeats;
       alert := Some ("You can only select " +:+ num_to_string maxSelections +:+ " seat(s)");
       onSelectionChange := None |}
  else commit (selectedSeats ++ [seat]).

(** [`seat seat-${seat.type} seat-${isSelected ? 'selected' : seat.status}`] *)
Definition getSeatClass (selectedSeats : list Seat) (seat : Seat) : string :=
  "seat seat-" +:+ SeatType_to_string (Seat_type seat) +:+ " seat-" +:+
  (if isSelected selectedSeats seat then "selected"
   else SeatStatus_to_string (Seat_status seat)).

(** [`${s.row}${s.column}`] *)
Definition seatLabel (s : Seat) : string := num_to_string (Seat_row s) +:+ Seat_column s.

(** ** What is rendered *)

Record SeatButton : Type := {
  button_seat : Seat;          (** [key] and the argument of [onClick] *)
  button_className : string;
  button_disabled : bool;
  button_title : string;
  button_text : string;
  button_aisle : bool;         (** an aisle spacer follows the button *)
}.

Record SeatRow : Type := {
  row_number : Z;
  row_seats : list SeatButton;
}.

Record View : Type := {
  view_grid : list SeatRow;
  view_count : string;             (** [{selectedSeats.length} / {maxSelections}] *)
  view_selected : option string;   (** the list of labels, when there is a selection *)
}.

Section render.
Context `{!Collator}.

(** [(a, b) => a.column.localeCompare(b.column)] *)
Definition byColumn (a b : Seat) : Z := localeCompare (Seat_column a) (Seat_column b).

(** [seatsByRow[rowNum].sort(...)] *)
Definition sortedRow (seats : list Seat) (rowNum : Z) : list Seat :=
  js_sort byColumn (seatsByRow seats !!! rowNum).

Definition renderButton (selectedSeats : list Seat) (rowNum : Z) (rowLength : Z)
    (index : nat) (seat : Seat) : SeatButton :=
  {| button_seat := seat;
     button_className := getSeatClass selectedSeats seat;
     button_disabled := bool_decide (Seat_status seat = Occupied);
     button_title := "Seat " +:+ num_to_string rowNum +:+ Seat_column seat +:+ " - " +:+
                     SeatType_to_string (Seat_type seat);
     button_text := Seat_column seat;
     button_aisle := bool_decide (Seat_column seat = "C") &&
                     bool_decide (Z.of_nat index < rowLength - 1) |}.

Definition renderRow (seats selectedSeats : list Seat) (rowNum : Z) : SeatRow :=
  let sorted := sortedRow seats rowNum in
  {| row_number := rowNum;
     row_seats := imap (renderButton selectedSeats rowNum (len sorted)) sorted |}.

Definition render (seats : list Seat) (maxSelections : Z) (selectedSeats : list Seat) : View :=
  {| view_grid := renderRow seats selectedSeats <$> rows seats;
     view_count := num_to_string (len selectedSeats) +:+ " / " +:+ num_to_string maxSelections;
     view_selected :=
       if decide (0 < len selectedSeats)
       then Some (js_join ", " (seatLabel <$> selectedSeats))
       else None |}.

(** The seats a user can click: the buttons that are rendered and enabled. *)
Definition clickable (seats : list Seat) (maxSelections : Z) (selectedSeats : list Seat)
    : list Seat :=
  button_seat <$>
    filter (λ b, button_disabled b = false)
      (view_grid (render seats maxSelections selectedSeats) ≫= row_seats).
End render.

(** ** The component as a transition system: one event per click *)

Definition click (maxSelections : Z) (selectedSeats : list Seat) (seat : Seat)
    : option (list Seat) :=
  Some (next_selectedSeats (handleSeatClick maxSelections selectedSeats seat)).

(** ** The invariant of the selection *)

Record selection_ok (maxSelections : Z) (selectedSeats : list Seat) : Prop := {
  selection_bounded : len selectedSeats ≤ maxSelections;
  selection_NoDup : NoDup (Seat_id <$> selectedSeats);
  selection_free : Forall (λ s, Seat_status s ≠ Occupied) selectedSeats;
}.

(** The seats of a row, in the order of the [seats] prop. *)
Definition row_of (seats : list Seat) (rowNum : Z) : list Seat :=
  filter (λ s, Seat_row s = rowNum) seats.

(** A seat for the worked examples. *)
Definition sample_seat (id : string) (row : Z) (column : string) (status : SeatStatus)
    (price : option Z) : Seat :=
  {| Seat_id := id; Seat_row := row; Seat_column := column; Seat_type := Window;
     Seat_status := status; Seat_price := price |}.

(** ** The click handler, branch by branch *)

Lemma isSelected_spec (selectedSeats : list Seat) (seat : Seat) :
  isSelected selectedSeats seat = true ↔ Seat_id seat ∈ Seat_id <$> selectedSeats.
Proof.
  unfold isSelected. rewrite bool_decide_eq_true, Exists_exists, list_elem_of_fmap.
  split; intros (s & ? & ?); eauto.
Qed.

Lemma isSelected_false (selectedSeats : list Seat) (seat : Seat) :
  isSelected selectedSeats seat = false ↔ Seat_id seat ∉ Seat_id <$> selectedSeats.
Proof. by rewrite <-isSelected_spec, not_true_iff_false. Qed.

Lemma handleSeatClick_occupied maxSelections selectedSeats seat :
  Seat_status seat = Occupied →
  handleSeatClick maxSelections selectedSeats seat =
    {| next_selectedSeats := selectedSeats; alert := None; onSelectionChange := None |}.
Proof. intros Hocc. unfold handleSeatClick. by rewrite decide_True. Qed.

Lemma handleSeatClick_deselect maxSelections selectedSeats seat :
  Seat_status seat ≠ Occupied → isSelected selectedSeats seat = true →
  let newSelection := filter (λ s, Seat_id s ≠ Seat_id seat) selectedSeats in
  handleSeatClick maxSelections selectedSeats seat =
    {| next_selectedSeats := newSelection; alert := None;
       onSelectionChange := Some newSelection |}.
Proof. intros Hocc Hsel. unfold handleSeatClick. by rewrite decide_False, Hsel. Qed.

Lemma handleSeatClick_full maxSelections selectedSeats seat :
  Seat_status seat ≠ Occupied → isSelected selectedSeats seat = false →
  maxSelections ≤ len selectedSeats →
  handleSeatClick maxSelections selectedSeats seat =
    {| next_selectedSeats := selectedSeats;
       alert := Some ("You can only select " +:+ num_to_string maxSelections +:+ " seat(s)");
       onSelectionChange := None |}.
Proof.
  intros Hocc Hsel Hfull. unfold handleSeatClick.
  by rewrite decide_False, Hsel, decide_True.
Qed.

Lemma handleSeatClick_select maxSelections selectedSeats seat :
  Seat_status seat ≠ Occupied → isSelected selectedSeats seat = false →
  len selectedSeats < maxSelections →
  handleSeatClick maxSelections selectedSeats seat =
    {| next_selectedSeats := selectedSeats ++ [seat]; alert := None;
       onSelectionChange := Some (selectedSeats ++ [seat]) |}.
Proof.
  intros Hocc Hsel Hroom. unfold handleSeatClick.
  rewrite decide_False, Hsel by done. by rewrite decide_False by lia.
Qed.

(** The four branches cover every click. *)
Lemma handleSeatClick_cases maxSelections selectedSeats seat :
  let eff := handleSeatClick maxSelections selectedSeats seat in
  (Seat_status seat = Occupied ∧ next_selectedSeats eff = selectedSeats
    ∧ alert eff = None ∧ onSelectionChange eff = None)
  ∨ (Seat_status seat ≠ Occupied ∧ isSelected selectedSeats seat = true
    ∧ next_selectedSeats eff = filter (λ s, Seat_id s ≠ Seat_id seat) selectedSeats
    ∧ alert eff = None ∧ onSelectionChange eff = Some (next_selectedSeats eff))
  ∨ (Seat_status seat ≠ Occupied ∧ isSelected selectedSeats seat = false
    ∧ maxSelections ≤ len selectedSeats ∧ next_selectedSeats eff = selectedSeats
    ∧ is_Some (alert eff) ∧ onSelectionChange eff = None)
  ∨ (Seat_status seat ≠ Occupied ∧ isSelected selectedSeats seat = false
    ∧ len selectedSeats < maxSelections ∧ next_selectedSeats eff = selectedSeats ++ [seat]
    ∧ alert eff = None ∧ onSelectionChange eff = Some (next_selectedSeats eff)).
Proof.
  intros eff. subst eff.
  destruct (decide (Seat_status seat = Occupied)) as [Hocc|Hocc].
  { left. by rewrite handleSeatClick_occupied. }
  destruct (isSelected selectedSeats seat) eqn:Hsel.
  { right; left. by rewrite handleSeatClick_deselect. }
  destruct (decide (maxSelections ≤ len selectedSeats)) as [Hfull|Hroom].
  { right; right; left. by rewrite handleSeatClick_full. }
  right; right; right. rewrite handleSeatClick_select by (done || lia).
  repeat split; (done || lia).
Qed.

(** ** The selection *)

Lemma filter_other_ids (selectedSeats : list Seat) (seat : Seat) :
  Seat_id seat ∉ Seat_id <$> selectedSeats →
  filter (λ s, Seat_id s ≠ Seat_id seat) selectedSeats = selectedSeats.
Proof.
  intros Hnew. induction selectedSeats as [|s l IH]; [done|].
  rewrite fmap_cons, not_elem_of_cons in Hnew. destruct Hnew as [Hs Hl].
  rewrite filter_cons_True by done. by rewrite IH.
Qed.

Lemma selection_ok_filter maxSelections selectedSeats (P : Seat → Prop) `{∀ s, Decision (P s)} :
  selection_ok maxSelections selectedSeats → selection_ok maxSelections (filter P selectedSeats).
Proof.
  intros [Hb Hnd Hfree]. split.
  - pose proof (length_filter P selectedSeats). unfold len in *. lia.
  - eapply sublist_NoDup; [done|]. apply fmap_sublist, sublist_filter.
  - rewrite Forall_forall in *. intros s [_ Hs]%list_elem_of_filter. auto.
Qed.

Lemma selection_ok_snoc maxSelections selectedSeats seat :
  selection_ok maxSelections selectedSeats →
  Seat_status seat ≠ Occupied → Seat_id seat ∉ Seat_id <$> selectedSeats →
  len selectedSeats < maxSelections →
  selection_ok maxSelections (selectedSeats ++ [seat]).
Proof.
  intros [Hb Hnd Hfree] Hocc Hnew Hroom. split.
  - rewrite len_app. unfold len in *. simpl. lia.
  - rewrite fmap_app. apply NoDup_app. split_and!; [done| |apply NoDup_singleton].
    intros x Hx ->%list_elem_of_singleton. done.
  - apply Forall_app. by split; [|apply Forall_singleton].
Qed.

(** Every click keeps the selection within [maxSelections], free of duplicate
    seat ids and free of occupied seats. *)
Lemma handleSeatClick_preserves_ok maxSelections selectedSeats seat :
  selection_ok maxSelections selectedSeats →
  selection_ok maxSelections
    (next_selectedSeats (handleSeatClick maxSelections selectedSeats seat)).
Proof.
  intros Hok.
  destruct (handleSeatClick_cases maxSelections selectedSeats seat)
    as [(_ & -> & _)|[(_ & _ & -> & _)|[(_ & _ & _ & -> & _)|(? & ?%isSelected_false & ? & -> & _)]]];
    auto using selection_ok_filter, selection_ok_snoc.
Qed.

Lemma selection_ok_initial maxSelections :
  0 ≤ maxSelections → selection_ok maxSelections initialSelectedSeats.
Proof. intros Hmax. split; [done|constructor|constructor]. Qed.

(** C5. Whatever sequence of clicks a mounted seat map receives, starting from
    the empty selection, the selection holds at most [maxSelections] seats,
    no seat id twice and no occupied seat. *)
Theorem selection_invariant maxSelections :
  0 ≤ maxSelections →
  invariant initialSelectedSeats (click maxSelections) (selection_ok maxSelections).
Proof.
  intros Hmax. apply inductive_invariant. split; [by apply selection_ok_initial|].
  intros s seat s' _ Hs [= <-]. by apply handleSeatClick_preserves_ok.
Qed.

Lemma selection_invariant_witness :
  selection_ok 1 [sample_seat "12A" 12 "A" Available None].
Proof.
  apply (selection_invariant 1); [lia|].
  eapply (run_reachable _ _ [] _
    [sample_seat "12A" 12 "A" Available None; sample_seat "12B" 12 "B" Available None]);
    [constructor|reflexivity].
Defined.

(** C31. Clicking a free, unselected seat while there is room selects it: the
    seat is added at the end of the selection and the parent is told.
    Clicking it again restores the selection, and the parent is told
    again. *)
Theorem handleSeatClick_toggle maxSelections selectedSeats seat :
  Seat_status seat ≠ Occupied → Seat_id seat ∉ Seat_id <$> selectedSeats →
  len selectedSeats < maxSelections →
  let selected := handleSeatClick maxSelections selectedSeats seat in
  let restored := handleSeatClick maxSelections (next_selectedSeats selected) seat in
  next_selectedSeats selected = selectedSeats ++ [seat] ∧
  onSelectionChange selected = Some (selectedSeats ++ [seat]) ∧
  next_selectedSeats restored = selectedSeats ∧
  onSelectionChange restored = Some selectedSeats.
Proof.
  intros Hocc Hnew Hroom selected restored. subst selected restored.
  rewrite (handleSeatClick_select _ selectedSeats);
    [|done|by apply isSelected_false|done]. simpl.
  rewrite handleSeatClick_deselect; simpl; [|done|].
  - rewrite filter_app, filter_other_ids by done.
    rewrite filter_cons_False by (by intros []). by rewrite filter_nil, app_nil_r.
  - apply isSelected_spec. rewrite fmap_app, elem_of_app. right. by left.
Qed.

Lemma handleSeatClick_toggle_witness :
  let a := sample_seat "12A" 12 "A" Available None in
  let b := sample_seat "12B" 12 "B" Available None in
  let selected := handleSeatClick 2 [a] b in
  let restored := handleSeatClick 2 (next_selectedSeats selected) b in
  next_selectedSeats selected = [a] ++ [b] ∧ onSelectionChange selected = Some ([a] ++ [b]) ∧
  next_selectedSeats restored = [a] ∧ onSelectionChange restored = Some [a].
Proof.
  intros a b. apply (handleSeatClick_toggle 2 [a] b); [done| |done].
  subst a b. simpl. rewrite list_elem_of_singleton. discriminate.
Defined.

(** C11. A click on a free, unselected seat when the selection is full changes
    nothing, reports nothing to the parent, and raises the alert with the
    limit in its text. *)
Theorem handleSeatClick_rejects_when_full maxSelections selectedSeats seat :
  Seat_status seat ≠ Occupied → Seat_id seat ∉ Seat_id <$> selectedSeats →
  maxSelections ≤ len selectedSeats →
  let eff := handleSeatClick maxSelections selectedSeats seat in
  next_selectedSeats eff = selectedSeats ∧ onSelectionChange eff = None ∧
  alert eff = Some ("You can only select " +:+ num_to_string maxSelections +:+ " seat(s)").
Proof.
  intros Hocc Hnew%isSelected_false Hfull. simpl.
  by rewrite handleSeatClick_full.
Qed.

Lemma handleSeatClick_rejects_when_full_witness :
  let a := sample_seat "12A" 12 "A" Available None in
  let b := sample_seat "12B" 12 "B" Available None in
  let eff := handleSeatClick 1 [a] b in
  next_selectedSeats eff = [a] ∧ onSelectionChange eff = None ∧
  alert eff = Some "You can only select 1 seat(s)".
Proof.
  intros a b. apply (handleSeatClick_rejects_when_full 1 [a] b); [done| |done].
  subst a b. simpl. rewrite list_elem_of_singleton. discriminate.
Defined.

(** The parent is told of every change and of nothing else: when
    [onSelectionChange] is called its argument is the new local selection, and
    when it is not called the local selection is unchanged. *)
Theorem handleSeatClick_reports maxSelections selectedSeats seat :
  let eff := handleSeatClick maxSelections selectedSeats seat in
  match onSelectionChange eff with
  | Some reported => next_selectedSeats eff = reported
  | None => next_selectedSeats eff = selectedSeats
  end.
Proof.
  destruct (handleSeatClick_cases maxSelections selectedSeats seat)
    as [(_ & ? & _ & Hr)|[(_ & _ & _ & _ & Hr)|[(_ & _ & _ & ? & _ & Hr)|(_ & _ & _ & _ & _ & Hr)]]];
    simpl; by rewrite Hr.
Qed.

(** ** The order of the selection *)

(** The first of a series of clicks on new seats that fit is a click on a
    new seat, and there is room for it. *)
Lemma first_click_fits maxSelections (selectedSeats clicks : list Seat) (seat : Seat) :
  NoDup (Seat_id <$> selectedSeats ++ seat :: clicks) →
  len (selectedSeats ++ seat :: clicks) ≤ maxSelections →
  (Seat_id seat ∉ Seat_id <$> selectedSeats) ∧ len selectedSeats < maxSelections.
Proof.
  rewrite fmap_app, fmap_cons, !len_app. intros (_ & Hnew & _)%NoDup_app Hroom. split.
  - intros Hsel. apply (Hnew _ Hsel). by left.
  - pose proof (len_nonneg clicks). unfold len in *. simpl in *. lia.
Qed.

(** Clicks on free seats that are not selected yet, as long as there is
    room, add the seats at the end of the selection, in the order of the
    clicks: the selection is never sorted. *)
Lemma clicks_append maxSelections (selectedSeats clicks : list Seat) :
  NoDup (Seat_id <$> selectedSeats ++ clicks) →
  Forall (λ s, Seat_status s ≠ Occupied) clicks →
  len (selectedSeats ++ clicks) ≤ maxSelections →
  run (click maxSelections) selectedSeats clicks = Some (selectedSeats ++ clicks).
Proof.
  revert selectedSeats.
  induction clicks as [|seat clicks IH]; intros selectedSeats Hnd Hfree Hroom.
  { by rewrite app_nil_r. }
  apply Forall_cons in Hfree as [Hseat Hfree].
  destruct (first_click_fits _ _ _ _ Hnd Hroom) as [Hnew%isSelected_false Hlt].
  rewrite (cons_middle seat selectedSeats clicks), (assoc_L (++)) in Hnd, Hroom |- *.
  rewrite <-IH by done. simpl. by rewrite handleSeatClick_select.
Qed.

(** ** Rows and the grid *)

Lemma seatsByRow_step_lookup acc seat r :
  seatsByRow_step acc seat !! r =
    if decide (Seat_row seat = r) then Some (default [] (acc !! r) ++ [seat]) else acc !! r.
Proof.
  unfold seatsByRow_step. rewrite lookup_alter. case_decide as Hr; [subst r|].
  - destruct (acc !! Seat_row seat) eqn:E; simpl; [by rewrite E|].
    by rewrite lookup_insert_eq.
  - destruct (acc !! Seat_row seat); [done|]. by rewrite lookup_insert_ne.
Qed.

Lemma row_of_snoc seats seat r :
  row_of (seats ++ [seat]) r =
    row_of seats r ++ (if decide (Seat_row seat = r) then [seat] else []).
Proof.
  unfold row_of. by rewrite filter_app.
Qed.

Lemma seatsByRow_lookup seats r :
  seatsByRow seats !! r = if decide (row_of seats r = []) then None else Some (row_of seats r).
Proof.
  induction seats as [|seat seats IH] using rev_ind; [done|].
  unfold seatsByRow. rewrite foldl_snoc. fold (seatsByRow seats).
  rewrite seatsByRow_step_lookup, row_of_snoc, IH.
  destruct (decide (Seat_row seat = r)), (decide (row_of seats r = [])) as [->|];
    simpl; rewrite ?app_nil_r; try done.
  - rewrite decide_False; [done|]. by intros [? ?]%app_eq_nil.
  - by rewrite decide_False.
Qed.

Lemma seatsByRow_lookup_total seats r : seatsByRow seats !!! r = row_of seats r.
Proof.
  rewrite lookup_total_alt, seatsByRow_lookup. by case_decide as Hr; [rewrite Hr|].
Qed.

Lemma elem_of_row_of seats r s : s ∈ row_of seats r ↔ s ∈ seats ∧ Seat_row s = r.
Proof. unfold row_of. rewrite list_elem_of_filter. tauto. Qed.

Lemma elem_of_rows seats r : r ∈ rows seats ↔ ∃ s, s ∈ seats ∧ Seat_row s = r.
Proof.
  unfold rows. rewrite elem_of_js_sort, list_elem_of_fmap. split.
  - intros ([r' l] & -> & Hl%elem_of_map_to_list). simpl.
    rewrite seatsByRow_lookup in Hl. case_decide as Hne; [done|].
    destruct (row_of seats r') as [|s l'] eqn:Hrow; [done|].
    exists s. apply elem_of_row_of. rewrite Hrow. left.
  - intros (s & Hs & <-). exists (Seat_row s, row_of seats (Seat_row s)). split; [done|].
    apply elem_of_map_to_list. rewrite seatsByRow_lookup, decide_False; [done|].
    intros Hnil. apply (not_elem_of_nil s). rewrite <-Hnil. by apply elem_of_row_of.
Qed.

Lemma NoDup_rows seats : NoDup (rows seats).
Proof. unfold rows. rewrite js_sort_perm. apply NoDup_fst_map_to_list. Qed.

(** C33. The rows of the grid are the row numbers that occur among the seats,
    each once, in ascending order. *)
Theorem rows_ascending (seats : list Seat) :
  StronglySorted Z.lt (rows seats) ∧
  ∀ r, r ∈ rows seats ↔ ∃ s, s ∈ seats ∧ Seat_row s = r.
Proof.
  split; [|apply elem_of_rows].
  apply StronglySorted_le_lt; [apply NoDup_rows|].
  eapply StronglySorted_mono; [|apply (js_sort_sorted numeric_cmp)].
  intros a b. apply numeric_cmp_le.
Qed.

Section grid.
Context `{!Collator}.

#[local] Instance byColumn_consistent : Consistent byColumn.
Proof.
  split; unfold byColumn; intros.
  - apply cmp_total.
  - by eapply cmp_trans.
Qed.

Lemma sortedRow_perm (seats : list Seat) (rowNum : Z) :
  sortedRow seats rowNum ≡ₚ row_of seats rowNum.
Proof. unfold sortedRow. rewrite seatsByRow_lookup_total. apply js_sort_perm. Qed.

(** A row of the grid holds exactly the seats of that row, ordered by
    column under the collation. *)
Theorem sortedRow_spec (seats : list Seat) (rowNum : Z) :
  StronglySorted (cmp_le byColumn) (sortedRow seats rowNum) ∧
  sortedRow seats rowNum ≡ₚ row_of seats rowNum.
Proof.
  split; [|apply sortedRow_perm]. unfold sortedRow. apply js_sort_sorted, _.
Qed.

Lemma grid_seats seats maxSelections selectedSeats :
  button_seat <$> (view_grid (render seats maxSelections selectedSeats) ≫= row_seats)
  = concat (sortedRow seats <$> rows seats).
Proof.
  unfold render. cbn [view_grid].
  generalize (rows seats) as rs. induction rs as [|r rs IH]; [done|].
  rewrite !fmap_cons, bind_cons, fmap_app, IH. cbn [concat row_seats renderRow].
  f_equal. by apply fmap_imap_cancel.
Qed.

Lemma grid_perm seats maxSelections selectedSeats :
  button_seat <$> (view_grid (render seats maxSelections selectedSeats) ≫= row_seats)
  ≡ₚ seats.
Proof.
  rewrite grid_seats.
  etrans; [|apply (concat_groups_perm Seat_row (rows seats) seats)].
  - generalize (rows seats) as rs. induction rs as [|r rs IH]; simpl; [done|].
    f_equiv; [apply sortedRow_perm|done].
  - apply NoDup_rows.
  - intros s Hs. apply elem_of_rows. eauto.
Qed.

Lemma elem_of_grid seats maxSelections selectedSeats (b : SeatButton) :
  b ∈ view_grid (render seats maxSelections selectedSeats) ≫= row_seats →
  button_disabled b = bool_decide (Seat_status (button_seat b) = Occupied).
Proof.
  unfold render. cbn [view_grid].
  intros (row & Hb & (r & -> & _)%list_elem_of_fmap)%list_elem_of_bind.
  cbn [row_seats renderRow] in Hb.
  apply list_elem_of_lookup in Hb as [i Hb].
  rewrite list_lookup_imap in Hb.
  by destruct (sortedRow seats r !! i); simplify_eq/=.
Qed.

(** C32. The grid shows every seat of the [seats] prop exactly once, and the
    button of a seat is disabled exactly when the seat is occupied. *)
Theorem render_shows_every_seat seats maxSelections selectedSeats :
  let buttons := view_grid (render seats maxSelections selectedSeats) ≫= row_seats in
  button_seat <$> buttons ≡ₚ seats ∧
  Forall (λ b, button_disabled b = bool_decide (Seat_status (button_seat b) = Occupied))
    buttons.
Proof.
  split; [apply grid_perm|]. apply Forall_forall. intros b Hb. by eapply elem_of_grid.
Qed.

(** The seats a user can click are the seats of the prop that are not
    occupied. *)
Theorem clickable_spec seats maxSelections selectedSeats (seat : Seat) :
  seat ∈ clickable seats maxSelections selectedSeats ↔
  seat ∈ seats ∧ Seat_status seat ≠ Occupied.
Proof.
  unfold clickable. rewrite list_elem_of_fmap.
  setoid_rewrite list_elem_of_filter. split.
  - intros (b & -> & Hen & Hb). split.
    + rewrite <-(grid_perm seats maxSelections selectedSeats).
      by apply list_elem_of_fmap_2.
    + apply elem_of_grid in Hb. rewrite Hen in Hb. symmetry in Hb.
      by apply bool_decide_eq_false in Hb.
  - intros [Hs Hfree].
    rewrite <-(grid_perm seats maxSelections selectedSeats) in Hs.
    apply list_elem_of_fmap in Hs as (b & -> & Hb). exists b. split_and!; [done| |done].
    rewrite (elem_of_grid _ _ _ _ Hb). by apply bool_decide_eq_false.
Qed.
End grid.

End SeatMap.
