(* ===== verification/PaymentForm.v ===== *)
(** * The payment form: [components/PaymentForm.tsx]

    The component keeps a [PaymentInfo] draft ([useState]), updates one
    field per input event, formats the card number as it is typed, and on
    submit passes the draft to the [onSubmit] prop.  Both buttons are
    disabled while [isProcessing] holds.  Every input is [required], and
    three of them have a [maxLength], which bounds the value an input event
    can carry.

    [formatCardNumber] is modelled on code units, one definition per
    expression of the source: [replace(/\s/g, '')], [match(/.{1,4}/g) || []],
    [join(' ')] and [substring(0, 19)].  [formatCardNumber_reference] is the
    specification it is proved equal to. *)

From S2P Require Import Prelude Types.

Module PaymentForm.

(** ** State *)

(** [useState<PaymentInfo>({ cardNumber: '', ... })] *)
Definition initialPayment : PaymentInfo :=
  {| PaymentInfo_cardNumber := ""; PaymentInfo_cardHolder := "";
     PaymentInfo_expiryDate := ""; PaymentInfo_cvv := "";
     PaymentInfo_billingAddress :=
       {| BillingAddress_street := ""; BillingAddress_city := "";
          BillingAddress_state := ""; BillingAddress_zipCode := "";
          BillingAddress_country := "" |} |}.

(** The keys [handleChange] is called with. *)
Inductive PaymentField : Type := CardNumber | CardHolder | ExpiryDate | Cvv.

(** [keyof PaymentInfo['billingAddress']] *)
Inductive AddressField : Type := Street | City | State | ZipCode | Country.

#[global] Instance PaymentField_eq_dec : EqDecision PaymentField.
Proof. solve_decision. Defined.
#[global] Instance AddressField_eq_dec : EqDecision AddressField.
Proof. solve_decision. Defined.

(** [setPayment(prev => ({ ...prev, [field]: value }))] *)
Definition handleChange (field : PaymentField) (value : string) (prev : PaymentInfo)
    : PaymentInfo :=
  {| PaymentInfo_cardNumber :=
       if decide (field = CardNumber) then value else PaymentInfo_cardNumber prev;
     PaymentInfo_cardHolder :=
       if decide (field = CardHolder) then value else PaymentInfo_cardHolder prev;
     PaymentInfo_expiryDate :=
       if decide (field = ExpiryDate) then value else PaymentInfo_expiryDate prev;
     PaymentInfo_cvv := if decide (field = Cvv) then value else PaymentInfo_cvv prev;
     PaymentInfo_billingAddress := PaymentInfo_billingAddress prev |}.

(** [{ ...prev.billingAddress, [field]: value }] *)
Definition setAddressField (field : AddressField) (value : string) (a : BillingAddress)
    : BillingAddress :=
  {| BillingAddress_street :=
       if decide (field = Street) then value else BillingAddress_street a;
     BillingAddress_city := if decide (field = City) then value else BillingAddress_city a;
     BillingAddress_state :=
       if decide (field = State) then value else BillingAddress_state a;
     BillingAddress_zipCode :=
       if decide (field = ZipCode) then value else BillingAddress_zipCode a;
     BillingAddress_country :=
       if decide (field = Country) then value else BillingAddress_country a |}.

(** [setPayment(prev => ({ ...prev, billingAddress: { ... } }))] *)
Definition handleAddressChange (field : AddressField) (value : string) (prev : PaymentInfo)
    : PaymentInfo :=
  {| PaymentInfo_cardNumber := PaymentInfo_cardNumber prev;
     PaymentInfo_cardHolder := PaymentInfo_cardHolder prev;
     PaymentInfo_expiryDate := PaymentInfo_expiryDate prev;
     PaymentInfo_cvv := PaymentInfo_cvv prev;
     PaymentInfo_billingAddress :=
       setAddressField field value (PaymentInfo_billingAddress prev) |}.

(** ** Formatting the card number *)

(** The matches of the global regular expression [.{1,4}]: scanning from the
    left, a match takes up to four consecutive characters that are not line
    terminators; a line terminator ends the current match and is skipped.
    [cur] holds the characters of the match in progress (at most three). *)
Definition flush (cur : list ascii) : list (list ascii) :=
  match cur with [] => [] | _ => [cur] end.

Fixpoint match_chunks_go (cur : list ascii) (s : list ascii) : list (list ascii) :=
  match s with
  | [] => flush cur
  | c :: s' =>
      if is_line_terminator c then flush cur ++ match_chunks_go [] s'
      else if decide (length cur = 3%nat) then (cur ++ [c]) :: match_chunks_go [] s'
      else match_chunks_go (cur ++ [c]) s'
  end.

(** [cleaned.match(/.{1,4}/g) || []]: no match is [null], which [||] turns
    into the empty array. *)
Definition match_chunks (cleaned : list ascii) : list (list ascii) :=
  match_chunks_go [] cleaned.

Definition formatCardNumber (value : string) : string :=
  let cleaned := remove_whitespace (chars value) in
  let chunks := match_chunks cleaned in
  of_chars (take 19 (join_chars (chars " ") chunks)).

(** [handleChange('cardNumber', formatCardNumber(value))] *)
Definition handleCardNumberChange (value : string) (prev : PaymentInfo) : PaymentInfo :=
  let formatted := formatCardNumber value in
  handleChange CardNumber formatted prev.

(** [e.preventDefault(); onSubmit(payment)]: the argument of [onSubmit]. *)
Definition handleSubmit (payment : PaymentInfo) : PaymentInfo := payment.

(** ** What is rendered *)

Record View : Type := {
  view_total : string;            (** [formatPrice(totalAmount, currency)] *)
  (** the [value] of each input *)
  view_cardNumber : string;
  view_cardHolder : string;
  view_expiryDate : string;
  view_cvv : string;
  view_billingAddress : BillingAddress;
  view_backDisabled : bool;
  view_submitDisabled : bool;
  view_submitLabel : string;
}.

(** The content of the submit button. *)
Definition submitLabel (isProcessing : bool) : string :=
  if isProcessing then "Processing..." else "Complete Booking".

Section render.
(** [new Intl.NumberFormat('en-US', { style: 'currency', currency: curr }).format(price)] *)
Context (formatPrice : Z → string → string).

Definition render (totalAmount : Z) (currency : string) (isProcessing : bool)
    (payment : PaymentInfo) : View :=
  {| view_total := formatPrice totalAmount currency;
     view_cardNumber := PaymentInfo_cardNumber payment;
     view_cardHolder := PaymentInfo_cardHolder payment;
     view_expiryDate := PaymentInfo_expiryDate payment;
     view_cvv := PaymentInfo_cvv payment;
     view_billingAddress := PaymentInfo_billingAddress payment;
     view_backDisabled := isProcessing;
     view_submitDisabled := isProcessing;
     view_submitLabel := submitLabel isProcessing |}.
End render.

(** Every input of the form is [required]: the browser submits the form only
    when each holds a non-empty value. *)
Definition requiredFilled (payment : PaymentInfo) : bool :=
  let a := PaymentInfo_billingAddress payment in
  truthy (PaymentInfo_cardNumber payment) && truthy (PaymentInfo_cardHolder payment) &&
  truthy (PaymentInfo_expiryDate payment) && truthy (PaymentInfo_cvv payment) &&
  truthy (BillingAddress_street a) && truthy (BillingAddress_city a) &&
  truthy (BillingAddress_state a) && truthy (BillingAddress_zipCode a) &&
  truthy (BillingAddress_country a).

(** ** The form as a transition system: one event per input event *)

Inductive Input : Type :=
| CardNumberInput (value : string)
| FieldInput (field : PaymentField) (value : string)
| AddressInput (field : AddressField) (value : string).

(** [e.target.value] *)
Definition input_value (i : Input) : string :=
  match i with
  | CardNumberInput value | FieldInput _ value | AddressInput _ value => value
  end.

(** The [maxLength] attribute of the input an event comes from: 19 for the
    card number, 5 for the expiry date, 4 for the CVV. *)
Definition maxLength (i : Input) : option nat :=
  match i with
  | CardNumberInput _ => Some 19%nat
  | FieldInput ExpiryDate _ => Some 5%nat
  | FieldInput Cvv _ => Some 4%nat
  | FieldInput _ _ | AddressInput _ _ => None
  end.

(** The browser does not let the user enter more than [maxLength] code
    units. *)
Definition within_maxLength (i : Input) : bool :=
  match maxLength i with
  | Some n => bool_decide (String.length (input_value i) ≤ n)%nat
  | None => true
  end.

(** The [onChange] of each input.  The card number input calls
    [handleCardNumberChange]; [handleChange] is wired to the other three
    fields only. *)
Definition input (payment : PaymentInfo) (i : Input) : option PaymentInfo :=
  if within_maxLength i then
    match i with
    | CardNumberInput value => Some (handleCardNumberChange value payment)
    | FieldInput CardNumber _ => None
    | FieldInput field value => Some (handleChange field value payment)
    | AddressInput field value => Some (handleAddressChange field value payment)
    end
  else None.

(** ** Reference definition *)

(** Groups of four, the last one shorter when the length is no multiple of
    four. *)
Fixpoint group4 (s : list ascii) : list (list ascii) :=
  match s with
  | a :: b :: c :: d :: rest => [a; b; c; d] :: group4 rest
  | [] => []
  | _ => [s]
  end.

(** Drop the blanks, keep the first 16 characters, group them by four with a
    space between groups. *)
Definition formatCardNumber_reference (value : string) : string :=
  of_chars (join_chars (chars " ") (group4 (take 16 (remove_whitespace (chars value))))).

(** The card number of a draft is as [formatCardNumber] leaves it. *)
Definition formatted (payment : PaymentInfo) : Prop :=
  formatCardNumber (PaymentInfo_cardNumber payment) = PaymentInfo_cardNumber payment.

(** The three limited fields of a draft are within their limits. *)
Definition bounded (payment : PaymentInfo) : Prop :=
  (String.length (PaymentInfo_cardNumber payment) ≤ 19)%nat ∧
  (String.length (PaymentInfo_expiryDate payment) ≤ 5)%nat ∧
  (String.length (PaymentInfo_cvv payment) ≤ 4)%nat.

(** ** Lemmas on the grouping *)

Lemma list_ind4 {A} (P : list A → Prop) :
  P [] → (∀ a, P [a]) → (∀ a b, P [a; b]) → (∀ a b c, P [a; b; c]) →
  (∀ a b c d l, P l → P (a :: b :: c :: d :: l)) → ∀ l, P l.
Proof.
  intros H0 H1 H2 H3 H4. fix IH 1.
  intros [|a [|b [|c [|d l]]]]; [apply H0|apply H1|apply H2|apply H3|apply H4, IH].
Qed.

Lemma group4_cons4 (a b c d : ascii) (s : list ascii) :
  group4 (a :: b :: c :: d :: s) = [a; b; c; d] :: group4 s.
Proof. done. Qed.

Lemma concat_group4 (s : list ascii) : concat (group4 s) = s.
Proof. induction s using list_ind4; simpl; rewrite ?app_nil_r; congruence. Qed.

Lemma flush_group4 (cur : list ascii) : (length cur ≤ 3)%nat → flush cur = group4 cur.
Proof. destruct cur as [|a [|b [|c [|d l]]]]; simpl; (done || lia). Qed.

Lemma match_chunks_go_group4 (cur s : list ascii) :
  (length cur ≤ 3)%nat → Forall (λ c, is_line_terminator c = false) s →
  match_chunks_go cur s = group4 (cur ++ s).
Proof.
  intros Hcur Hs. revert cur Hcur.
  induction Hs as [|c s Hc _ IH]; intros cur Hcur; simpl.
  - rewrite app_nil_r. by apply flush_group4.
  - rewrite Hc. case_decide as Hlen.
    + rewrite (IH []) by (simpl; lia).
      by destruct cur as [|x [|y [|z [|w l]]]]; simplify_eq/=.
    + rewrite IH by (rewrite length_app; simpl; lia). by rewrite <-app_assoc.
Qed.

Lemma whitespace_free_line_terminator_free (s : list ascii) :
  Forall (λ c, is_whitespace c = false) s → Forall (λ c, is_line_terminator c = false) s.
Proof.
  intros Hs. eapply Forall_impl; [exact Hs|]. intros c Hc. apply not_true_iff_false.
  intros Hlt%line_terminator_whitespace. congruence.
Qed.

Lemma match_chunks_clean (s : list ascii) :
  Forall (λ c, is_whitespace c = false) s → match_chunks s = group4 s.
Proof.
  intros Hs. unfold match_chunks.
  by rewrite match_chunks_go_group4
    by (simpl; lia || by apply whitespace_free_line_terminator_free).
Qed.

(** Cutting the joined groups at 19 characters is the same as grouping the
    first 16 characters: the cut falls after the fourth group. *)
Lemma take_19_join_group4 (s : list ascii) :
  take 19 (join_chars (chars " ") (group4 s)) =
  join_chars (chars " ") (group4 (take 16 s)).
Proof.
  destruct s as
    [|c1 [|c2 [|c3 [|c4 [|c5 [|c6 [|c7 [|c8 [|c9 [|c10 [|c11 [|c12 [|c13 [|c14 [|c15 [|c16 [|c17 s]]]]]]]]]]]]]]]]];
    try reflexivity.
  rewrite 4!group4_cons4. by destruct (group4 (c17 :: s)).
Qed.

Lemma remove_whitespace_join (l : list (list ascii)) :
  remove_whitespace (join_chars (chars " ") l) = remove_whitespace (concat l).
Proof.
  induction l as [|x [|y l] IH]; [done|by simpl; rewrite app_nil_r|].
  change (join_chars (chars " ") (x :: y :: l))
    with (x ++ chars " " ++ join_chars (chars " ") (y :: l)).
  rewrite !remove_whitespace_app, IH. simpl concat. by rewrite !remove_whitespace_app.
Qed.

(** ** Theorems *)

(** The characters of the result, before they are made a string. *)
Lemma format_chunks (value : string) :
  take 19 (join_chars (chars " ") (match_chunks (remove_whitespace (chars value)))) =
  join_chars (chars " ") (group4 (take 16 (remove_whitespace (chars value)))).
Proof. by rewrite match_chunks_clean, take_19_join_group4 by apply remove_whitespace_free. Qed.

(** C6. [formatCardNumber] is the reference definition: the first 16
    non-blank characters of the input, in groups of four separated by one
    space. *)
Theorem formatCardNumber_correct (value : string) :
  formatCardNumber value = formatCardNumber_reference value.
Proof. unfold formatCardNumber, formatCardNumber_reference. by rewrite format_chunks. Qed.

(** The formatted card number is never longer than 19 characters. *)
Lemma formatCardNumber_length (value : string) :
  (String.length (formatCardNumber value) ≤ 19)%nat.
Proof. unfold formatCardNumber. rewrite length_of_chars, length_take. lia. Qed.

(** Formatting loses none of the first 16 non-blank characters and adds only
    blanks: removing the blanks of the result gives them back. *)
Lemma formatCardNumber_digits (value : string) :
  remove_whitespace (chars (formatCardNumber value)) =
  take 16 (remove_whitespace (chars value)).
Proof.
  unfold formatCardNumber.
  rewrite format_chunks, chars_of_chars, remove_whitespace_join, concat_group4.
  apply remove_whitespace_id, Forall_take, remove_whitespace_free.
Qed.

(** Formatting a formatted card number changes nothing. *)
Lemma formatCardNumber_idempotent (value : string) :
  formatCardNumber (formatCardNumber value) = formatCardNumber value.
Proof.
  unfold formatCardNumber at 1.
  rewrite format_chunks, formatCardNumber_digits, take_take, Nat.min_id.
  unfold formatCardNumber. by rewrite format_chunks.
Qed.

(** The card number 4111111111111111 is shown as 4111 1111 1111 1111,
    19 characters long. *)
Example formatCardNumber_visa :
  formatCardNumber "4111111111111111" = "4111 1111 1111 1111" ∧
  String.length (formatCardNumber "4111111111111111") = 19%nat.
Proof. by vm_compute. Qed.

(** Letters and punctuation are grouped like digits. *)
Example formatCardNumber_letters :
  formatCardNumber "abcd-efgh" = "abcd -efg h".
Proof. by vm_compute. Qed.

(** C35. Formatting and then removing the blanks gives back the first 16
    non-blank characters of the input, whatever they are: no character is
    rejected for not being a digit, none is lost or reordered and only
    blanks are added.  Formatting again changes nothing, and the result
    fits the 19 characters of the input field. *)
Theorem formatCardNumber_keeps_characters (value : string) :
  remove_whitespace (chars (formatCardNumber value)) =
    take 16 (remove_whitespace (chars value)) ∧
  formatCardNumber (formatCardNumber value) = formatCardNumber value ∧
  (String.length (formatCardNumber value) ≤ 19)%nat.
Proof.
  split_and!;
    [apply formatCardNumber_digits|apply formatCardNumber_idempotent|
     apply formatCardNumber_length].
Qed.

Lemma input_formatted (payment : PaymentInfo) (i : Input) (payment' : PaymentInfo) :
  formatted payment → input payment i = Some payment' → formatted payment'.
Proof.
  unfold formatted, input. intros IH Hstep. destruct (within_maxLength i); [|done].
  destruct i as [value|[] value|field value]; simplify_eq/=; try done.
  apply formatCardNumber_idempotent.
Qed.

Lemma input_within_limits (payment : PaymentInfo) (i : Input) (payment' : PaymentInfo) :
  bounded payment → input payment i = Some payment' → bounded payment'.
Proof.
  unfold bounded, input, within_maxLength. intros (Hnumber & Hexpiry & Hcvv) Hstep.
  destruct i as [value|[] value|field value]; simpl in Hstep;
    try case_bool_decide; simplify_eq/=; try done.
  split; [apply formatCardNumber_length|done].
Qed.

Lemma formatted_inductive :
  inductive initialPayment input (λ payment, formatted payment ∧ bounded payment).
Proof.
  split; [split; [by vm_compute|unfold bounded; simpl; lia]|].
  intros payment i payment' _ [Hf Hb] Hstep.
  split; [by eapply input_formatted|by eapply input_within_limits].
Qed.

(** C34. Whatever is typed into the form, the card number of the draft is a
    fixed point of [formatCardNumber], and the three fields with a
    [maxLength] stay within it: 19 characters for the card number, 5 for
    the expiry date and 4 for the CVV. *)
Theorem payment_draft_formatted :
  invariant initialPayment input (λ payment, formatted payment ∧ bounded payment).
Proof. apply inductive_invariant, formatted_inductive. Qed.

End PaymentForm.
