(* ===== verification/PassengerForm.v ===== *)
(** * The passenger form: [components/PassengerForm.tsx]

    The component keeps one [Passenger] draft per passenger ([useState],
    built once from [passengerCount]), updates one field of one draft per
    input event, and enables its submit button when [isFormValid] holds.

    [isFormValid] reads [passengers[0]]; on an empty array that is
    [undefined] and the property access throws, which the model returns as
    [Throw TypeError].  [handleChange] is modelled for the indices the form
    renders; outside them the source would store an object with a single
    field, which [Passenger] cannot hold, and the model returns [None]. *)

From S2P Require Import Prelude Types.

Module PassengerForm.

(** ** State *)

(** The element function of [Array.from({ length: passengerCount }, (_, i) => ...)] *)
Definition initialPassenger (i : Z) : Passenger :=
  {| Passenger_id := "passenger-" +:+ num_to_string (i + 1);
     Passenger_title := Mr;
     Passenger_firstName := "";
     Passenger_lastName := "";
     Passenger_dateOfBirth := "";
     Passenger_email := if decide (i = 0) then Some "" else None;
     Passenger_phone := if decide (i = 0) then Some "" else None;
     Passenger_passportNumber := Some "";
     Passenger_nationality := Some "" |}.

(** [useState<Passenger[]>(Array.from(...))] *)
Definition initialPassengers (passengerCount : Z) : list Passenger :=
  array_from passengerCount initialPassenger.

(** ** Input events *)

(** The field and value of a call [handleChange(index, field, value)].  The
    title comes from a [select] whose options are the four titles. *)
Inductive Change : Type :=
| ChangeTitle (value : Title)
| ChangeFirstName (value : string)
| ChangeLastName (value : string)
| ChangeDateOfBirth (value : string)
| ChangePassportNumber (value : string)
| ChangeNationality (value : string)
| ChangeEmail (value : string)
| ChangePhone (value : string).

(** [{ ...updated[index], [field]: value }] *)
Definition setField (c : Change) (p : Passenger) : Passenger :=
  {| Passenger_id := Passenger_id p;
     Passenger_title := match c with ChangeTitle v => v | _ => Passenger_title p end;
     Passenger_firstName :=
       match c with ChangeFirstName v => v | _ => Passenger_firstName p end;
     Passenger_lastName :=
       match c with ChangeLastName v => v | _ => Passenger_lastName p end;
     Passenger_dateOfBirth :=
       match c with ChangeDateOfBirth v => v | _ => Passenger_dateOfBirth p end;
     Passenger_email := match c with ChangeEmail v => Some v | _ => Passenger_email p end;
     Passenger_phone := match c with ChangePhone v => Some v | _ => Passenger_phone p end;
     Passenger_passportNumber :=
       match c with ChangePassportNumber v => Some v | _ => Passenger_passportNumber p end;
     Passenger_nationality :=
       match c with ChangeNationality v => Some v | _ => Passenger_nationality p end |}.

(** [const updated = [...passengers]; updated[index] = ...; setPassengers(updated)] *)
Definition handleChange (index : nat) (c : Change) (passengers : list Passenger)
    : option (list Passenger) :=
  p ← passengers !! index;
  Some (<[index := setField c p]> passengers).

(** ** Validation *)

(** [p.firstName && p.lastName && p.dateOfBirth && p.passportNumber] *)
Definition requiredFilled (p : Passenger) : bool :=
  truthy (Passenger_firstName p) && truthy (Passenger_lastName p) &&
  truthy (Passenger_dateOfBirth p) && truthy (Passenger_passportNumber p).

Definition isFormValid (passengers : list Passenger) : Completion bool :=
  if forallb requiredFilled passengers then
    match passengers !! 0%nat with
    | Some first => Normal (truthy (Passenger_email first) && truthy (Passenger_phone first))
    | None => Throw TypeError
    end
  else Normal false.

(** [e.preventDefault(); onSubmit(passengers)]: the argument of [onSubmit]. *)
Definition handleSubmit (passengers : list Passenger) : list Passenger := passengers.

(** ** What is rendered *)

Record Section_ : Type := {
  section_key : string;
  section_heading : string;        (** [Passenger {index + 1}] *)
  section_title : Title;
  section_firstName : string;
  section_lastName : string;
  section_dateOfBirth : string;
  section_passportNumber : string;
  section_nationality : string;
  (** the email and phone inputs, rendered for the first passenger only *)
  section_contact : option (string * string);
}.

Record View : Type := {
  view_sections : list Section_;
  view_submitDisabled : bool;
}.

Definition renderSection (index : nat) (passenger : Passenger) : Section_ :=
  {| section_key := Passenger_id passenger;
     section_heading := "Passenger " +:+ num_to_string (Z.of_nat index + 1);
     section_title := Passenger_title passenger;
     section_firstName := Passenger_firstName passenger;
     section_lastName := Passenger_lastName passenger;
     section_dateOfBirth := Passenger_dateOfBirth passenger;
     section_passportNumber := Passenger_passportNumber passenger ||? "";
     section_nationality := Passenger_nationality passenger ||? "";
     section_contact :=
       if decide (index = 0%nat)
       then Some (Passenger_email passenger ||? "", Passenger_phone passenger ||? "")
       else None |}.

(** The render throws when [isFormValid] does. *)
Definition render (passengers : list Passenger) : Completion View :=
  valid ← isFormValid passengers;
  Normal {| view_sections := imap renderSection passengers;
            view_submitDisabled := negb valid |}.

(** ** The form as a transition system *)

Definition is_contact (c : Change) : bool :=
  match c with ChangeEmail _ | ChangePhone _ => true | _ => false end.

(** An input event: the inputs of section [index] exist when [index] is
    within the array, and the contact inputs in the first section only. *)
Definition input (passengers : list Passenger) (e : nat * Change) : option (list Passenger) :=
  let '(index, c) := e in
  if is_contact c && negb (bool_decide (index = 0%nat)) then None
  else handleChange index c passengers.

#[global] Arguments input : simpl never.

(** ** Specification predicates *)

(** The fields the form marks with a star, for one passenger. *)
Definition complete (p : Passenger) : Prop :=
  Passenger_firstName p ≠ "" ∧ Passenger_lastName p ≠ "" ∧
  Passenger_dateOfBirth p ≠ "" ∧
  (∃ n, Passenger_passportNumber p = Some n ∧ n ≠ "").

Definition has_contact (p : Passenger) : Prop :=
  (∃ e, Passenger_email p = Some e ∧ e ≠ "") ∧ (∃ t, Passenger_phone p = Some t ∧ t ≠ "").

(** Only the first passenger carries contact fields, and the ids are those
    given at mount. *)
Definition well_formed (passengerCount : Z) (passengers : list Passenger) : Prop :=
  length passengers = Z.to_nat passengerCount ∧
  ∀ (i : nat) p, passengers !! i = Some p →
    Passenger_id p = "passenger-" +:+ num_to_string (Z.of_nat i + 1) ∧
    (is_Some (Passenger_email p) ↔ i = 0%nat) ∧
    (is_Some (Passenger_phone p) ↔ i = 0%nat).

(** ** Validation *)

Lemma requiredFilled_spec (p : Passenger) : requiredFilled p = true ↔ complete p.
Proof.
  unfold requiredFilled, complete.
  rewrite !andb_true_iff, !truthy_string_spec, truthy_option_string. tauto.
Qed.

Lemma forallb_requiredFilled (passengers : list Passenger) :
  forallb requiredFilled passengers = true ↔ Forall complete passengers.
Proof.
  rewrite forallb_forall, Forall_forall. setoid_rewrite <-list_elem_of_In.
  by setoid_rewrite requiredFilled_spec.
Qed.

Lemma contact_spec (p : Passenger) :
  truthy (Passenger_email p) && truthy (Passenger_phone p) = true ↔ has_contact p.
Proof. unfold has_contact. by rewrite andb_true_iff, !truthy_option_string. Qed.

(** C7. The submit button is enabled exactly when every passenger has a first
    name, a last name, a date of birth and a passport number, and the first
    passenger has an email address and a phone number. *)
Theorem isFormValid_spec (passengers : list Passenger) :
  isFormValid passengers = Normal true ↔
  Forall complete passengers ∧ ∃ first, passengers !! 0%nat = Some first ∧ has_contact first.
Proof.
  unfold isFormValid. destruct (forallb requiredFilled passengers) eqn:Hall.
  - apply forallb_requiredFilled in Hall. destruct (passengers !! 0%nat) as [first|].
    + split.
      * intros [= Hc]. split; [done|]. exists first. split; [done|]. by apply contact_spec.
      * intros [_ (p & [= <-] & Hc%contact_spec)]. by rewrite Hc.
    + split; [done|]. by intros [_ (? & ? & _)].
  - split; [done|]. intros [Hall'%forallb_requiredFilled _]. congruence.
Qed.

(** [isFormValid] throws exactly on the empty array, and then a
    [TypeError]. *)
Theorem isFormValid_throws (passengers : list Passenger) (e : JsError) :
  isFormValid passengers = Throw e ↔ passengers = [] ∧ e = TypeError.
Proof.
  unfold isFormValid. destruct passengers as [|first passengers].
  - simpl. split; [by intros [= <-]|by intros [_ ->]].
  - cbn [lookup list_lookup]. split; [by case_match|by intros [? _]].
Qed.

(** ** The drafts *)

Lemma initialPassengers_lookup (passengerCount : Z) (i : nat) (p : Passenger) :
  initialPassengers passengerCount !! i = Some p → p = initialPassenger (Z.of_nat i).
Proof.
  intros Hi. assert (i < Z.to_nat passengerCount)%nat as Hlt.
  { rewrite <-(length_array_from passengerCount initialPassenger). by eapply lookup_lt_Some. }
  unfold initialPassengers in Hi. rewrite lookup_array_from in Hi by lia. by simplify_eq.
Qed.

(** At mount the form holds [passengerCount] drafts (none when the count is
    negative), numbered from 1, and only the first has contact fields. *)
Lemma initialPassengers_well_formed (passengerCount : Z) :
  well_formed passengerCount (initialPassengers passengerCount).
Proof.
  split; [apply length_array_from|].
  intros i p ->%initialPassengers_lookup. simpl. split; [done|].
  destruct (decide (Z.of_nat i = 0)); (split; split; intros H; try (by inversion H); lia).
Qed.

Lemma setField_id (c : Change) (p : Passenger) : Passenger_id (setField c p) = Passenger_id p.
Proof. done. Qed.

Lemma setField_contact (c : Change) (p : Passenger) :
  is_contact c = false →
  Passenger_email (setField c p) = Passenger_email p ∧
  Passenger_phone (setField c p) = Passenger_phone p.
Proof. by destruct c. Qed.

Lemma input_well_formed passengerCount passengers e passengers' :
  well_formed passengerCount passengers → input passengers e = Some passengers' →
  well_formed passengerCount passengers'.
Proof.
  intros [Hlen Hwf] Hstep. destruct e as [index c]. unfold input, handleChange in Hstep.
  destruct (is_contact c && negb (bool_decide (index = 0%nat))) eqn:Hguard; [done|].
  destruct (passengers !! index) as [p|] eqn:Hp; simplify_eq/=.
  split; [by rewrite length_insert|]. intros i q Hq.
  destruct (decide (index = i)) as [->|Hne]; [|rewrite list_lookup_insert_ne in Hq by done; eauto].
  rewrite list_lookup_insert_eq in Hq by (by eapply lookup_lt_Some). simplify_eq.
  destruct (Hwf i p Hp) as (Hid & Hemail & Hphone). split; [done|].
  destruct (is_contact c) eqn:Hc.
  - apply andb_false_iff in Hguard as [?|Hi]; [done|].
    apply negb_false_iff, bool_decide_eq_true in Hi as ->.
    destruct c; simpl; try done; split; split; (done || eauto).
  - by destruct (setField_contact c p Hc) as [-> ->].
Qed.

Lemma well_formed_inductive (passengerCount : Z) :
  inductive (initialPassengers passengerCount) input (well_formed passengerCount).
Proof.
  split; [apply initialPassengers_well_formed|].
  intros passengers e passengers' _. apply input_well_formed.
Qed.

(** With at least one draft the render does not throw. *)
Lemma well_formed_render (passengerCount : Z) (passengers : list Passenger) :
  1 ≤ passengerCount → well_formed passengerCount passengers →
  ∃ view, render passengers = Normal view.
Proof.
  intros Hcount [Hlen _]. destruct passengers as [|first passengers]; [simpl in Hlen; lia|].
  unfold render, isFormValid. cbn [lookup list_lookup]. case_match; by eexists.
Qed.

(** The submit button is enabled only when the form is valid. *)
Lemma submit_enabled (passengers : list Passenger) (view : View) :
  render passengers = Normal view → view_submitDisabled view = false →
  isFormValid passengers = Normal true.
Proof.
  unfold render. destruct (isFormValid passengers) as [[]|]; simpl; [done| |done].
  by intros [= <-].
Qed.

(** C36. Whatever is typed into the form, the number of drafts and their ids
    stay as they were at mount, and only the first draft carries an email
    address and a phone number. *)
Theorem drafts_well_formed (passengerCount : Z) :
  invariant (initialPassengers passengerCount) input (well_formed passengerCount).
Proof. apply inductive_invariant, well_formed_inductive. Qed.

(** With at least one passenger the form never throws while rendering,
    whatever has been typed. *)
Theorem render_completes (passengerCount : Z) :
  1 ≤ passengerCount →
  invariant (initialPassengers passengerCount) input (λ passengers,
    ∃ view, render passengers = Normal view).
Proof.
  intros Hcount passengers Hwf%(inductive_invariant _ _ _ (well_formed_inductive _)).
  by eapply well_formed_render.
Qed.

Lemma render_completes_witness :
  ∃ view, render (initialPassengers 2) = Normal view.
Proof. apply (render_completes 2); [lia|constructor]. Defined.

(** C37. A form mounted for no passenger throws a [TypeError] on its first
    render. *)
Theorem render_throws_without_passengers (passengerCount : Z) :
  passengerCount ≤ 0 → render (initialPassengers passengerCount) = Throw TypeError.
Proof.
  intros Hcount. unfold initialPassengers, array_from.
  by replace (Z.to_nat passengerCount) with 0%nat by lia.
Qed.

Lemma render_throws_without_passengers_witness :
  render (initialPassengers 0) = Throw TypeError.
Proof. apply render_throws_without_passengers. lia. Defined.

(** A freshly mounted form is invalid: its submit button is disabled. *)
Theorem initial_form_invalid (passengerCount : Z) :
  1 ≤ passengerCount → isFormValid (initialPassengers passengerCount) = Normal false.
Proof.
  intros Hcount. unfold initialPassengers, array_from.
  destruct (Z.to_nat passengerCount) as [|n] eqn:Hn; [lia|]. done.
Qed.

Lemma initial_form_invalid_witness : isFormValid (initialPassengers 3) = Normal false.
Proof. apply initial_form_invalid. lia. Defined.

End PassengerForm.
