(* ===== verification/SearchForm.v ===== *)
(** * The search form: [components/SearchForm.tsx]

    The component keeps a [SearchParams] draft ([useState]), updates one field
    per input event and on submit passes the draft to the [onSearch] prop.
    The passenger count comes from a [select] with the options 1 to 8, whose
    value the handler reads with [parseInt]; the model takes the number.
    The [min] attributes of the date inputs depend on the clock and are not
    modelled. *)

From S2P Require Import Prelude Types.

Module SearchForm.

(** ** State *)

(** [useState<SearchParams>({ origin: '', ..., passengers: 1, class: 'economy' })] *)
Definition initialFormData : SearchParams :=
  {| SearchParams_origin := "";
     SearchParams_destination := "";
     SearchParams_departureDate := "";
     SearchParams_returnDate := Some "";
     SearchParams_passengers := 1;
     SearchParams_class := Economy |}.

(** The field and value of a call [handleChange(field, value)]. *)
Inductive Change : Type :=
| ChangeOrigin (value : string)
| ChangeDestination (value : string)
| ChangeDepartureDate (value : string)
| ChangeReturnDate (value : string)
| ChangePassengers (value : Z)
| ChangeClass (value : CabinClass).

(** [setFormData(prev => ({ ...prev, [field]: value }))] *)
Definition handleChange (c : Change) (prev : SearchParams) : SearchParams :=
  {| SearchParams_origin := match c with ChangeOrigin v => v | _ => SearchParams_origin prev end;
     SearchParams_destination :=
       match c with ChangeDestination v => v | _ => SearchParams_destination prev end;
     SearchParams_departureDate :=
       match c with ChangeDepartureDate v => v | _ => SearchParams_departureDate prev end;
     SearchParams_returnDate :=
       match c with ChangeReturnDate v => Some v | _ => SearchParams_returnDate prev end;
     SearchParams_passengers :=
       match c with ChangePassengers v => v | _ => SearchParams_passengers prev end;
     SearchParams_class := match c with ChangeClass v => v | _ => SearchParams_class prev end |}.

(** [e.preventDefault(); onSearch(formData)]: the argument of [onSearch]. *)
Definition handleSubmit (formData : SearchParams) : SearchParams := formData.

(** ** What is rendered *)

(** [[1, 2, 3, 4, 5, 6, 7, 8]] *)
Definition passengerOptions : list Z := [1; 2; 3; 4; 5; 6; 7; 8].

(** [{num} {num === 1 ? 'Passenger' : 'Passengers'}] *)
Definition optionLabel (num : Z) : string :=
  num_to_string num +:+ " " +:+ (if decide (num = 1) then "Passenger" else "Passengers").

Record View : Type := {
  view_formData : SearchParams;              (** the values of the inputs *)
  view_passengerOptions : list (Z * string); (** value and label of each option *)
  view_submitDisabled : bool;
  view_submitLabel : string;
}.

Definition render (isLoading : bool) (formData : SearchParams) : View :=
  {| view_formData := formData;
     view_passengerOptions := (λ num, (num, optionLabel num)) <$> passengerOptions;
     view_submitDisabled := isLoading;
     view_submitLabel := if isLoading then "Searching..." else "Search Flights" |}.

(** The inputs marked [required]: origin, destination and departure date. *)
Definition requiredFilled (formData : SearchParams) : bool :=
  truthy (SearchParams_origin formData) && truthy (SearchParams_destination formData) &&
  truthy (SearchParams_departureDate formData).

(** ** The form as a transition system *)

(** An input event.  The passenger count can only be set to one of the
    options. *)
Definition input (formData : SearchParams) (c : Change) : option SearchParams :=
  match c with
  | ChangePassengers v =>
      if decide (v ∈ passengerOptions) then Some (handleChange c formData) else None
  | _ => Some (handleChange c formData)
  end.

(** The passenger count of a draft is one of the options. *)
Definition bounded (formData : SearchParams) : Prop :=
  1 ≤ SearchParams_passengers formData ≤ 8.

(** ** Theorems *)

Lemma elem_of_passengerOptions (n : Z) : n ∈ passengerOptions ↔ 1 ≤ n ≤ 8.
Proof.
  unfold passengerOptions. rewrite !elem_of_cons, elem_of_nil. lia.
Qed.

Lemma input_bounded (formData : SearchParams) (c : Change) (formData' : SearchParams) :
  bounded formData → input formData c = Some formData' → bounded formData'.
Proof.
  unfold bounded, input. intros IH Hstep.
  destruct c; try case_decide; simplify_eq/=; try done.
  by apply elem_of_passengerOptions.
Qed.

(** C38. Whatever is entered into the search form, the passenger count of the
    draft is between 1 and 8. *)
Theorem formData_passengers_bounded : invariant initialFormData input bounded.
Proof.
  apply inductive_invariant. split; [unfold bounded; simpl; lia|].
  intros formData c formData' _. apply input_bounded.
Qed.

End SearchForm.
