(* ===== verification/FlightCard.v ===== *)
(** * A card of the flight list: [components/FlightCard.tsx]

    The card has no state.  It shows a flight and calls [onSelect] with it
    when the card or its button is clicked.  [toLocaleTimeString] and
    [Intl.NumberFormat] are parameters of the rendering. *)

From S2P Require Import Prelude Types.

Module FlightCard.

(** ** Formatting *)

(** [Math.floor(minutes / 60)], [minutes % 60] and the template literal.
    The remainder of JavaScript has the sign of the dividend. *)
Definition formatDuration (minutes : Z) : string :=
  let hours := minutes / 60 in
  let mins := Z.rem minutes 60 in
  num_to_string hours +:+ "h " +:+ num_to_string mins +:+ "m".

(** [flight.airline.substring(0, 2).toUpperCase()] *)
Definition initials (airline : string) : option string :=
  toUpperCase (substring0 2 airline).

(** The badge under the route line: its class and its text. *)
Definition stopsBadge (stops : Z) : string * string :=
  if decide (stops = 0) then ("badge badge-success", "Non-stop")
  else ("badge badge-warning",
        num_to_string stops +:+ " " +:+ (if decide (stops = 1) then "stop" else "stops")).

(** [`price ${isPriceUpdating ? 'price-updating' : ''}`] *)
Definition priceClass (isPriceUpdating : option bool) : string :=
  "price " +:+ (if truthy isPriceUpdating then "price-updating" else "").

(** ** What is rendered *)

(** The logo: the image, or the placeholder with the initials. *)
Inductive Logo : Type :=
| LogoImage (src alt : string)
| LogoPlaceholder (text : option string).

Record View : Type := {
  view_logo : Logo;
  view_airline : string;
  view_flightNumber : string;
  view_priceClass : string;
  view_price : string;
  view_departure : string * string * string;   (** time, code, city *)
  view_duration : string;
  view_stops : string * string;
  view_arrival : string * string * string;
  view_class : string;
  view_available : string;
}.

Section render.
(** [new Date(dateString).toLocaleTimeString('en-US', ...)] and
    [new Intl.NumberFormat('en-US', ...).format(price)] *)
Context (formatTime : string → string) (formatPrice : Z → string → string).

Definition render (flight : Flight) (isPriceUpdating : option bool) : View :=
  {| view_logo :=
       if truthy (Flight_airlineLogo flight)
       then LogoImage (Flight_airlineLogo flight) (Flight_airline flight)
       else LogoPlaceholder (initials (Flight_airline flight));
     view_airline := Flight_airline flight;
     view_flightNumber := Flight_flightNumber flight;
     view_priceClass := priceClass isPriceUpdating;
     view_price := formatPrice (Flight_price flight) (Flight_currency flight);
     view_departure := (formatTime (Flight_departureTime flight),
                        Airport_code (Flight_origin flight),
                        Airport_city (Flight_origin flight));
     view_duration := formatDuration (Flight_duration flight);
     view_stops := stopsBadge (Flight_stops flight);
     view_arrival := (formatTime (Flight_arrivalTime flight),
                      Airport_code (Flight_destination flight),
                      Airport_city (Flight_destination flight));
     view_class := CabinClass_to_string (Flight_class flight);
     view_available := num_to_string (Flight_availableSeats flight) +:+ " seats" |}.
End render.

(** ** Clicks *)

(** Where the user clicks: on the button, or elsewhere on the card. *)
Inductive Click : Type := ButtonClick | CardClick.

(** The calls of [onSelect] that a click causes.  The button's handler stops
    the propagation of the event, so the card's handler does not run after
    it. *)
Definition handleClick (click : Click) (flight : Flight) : list Flight :=
  match click with
  | ButtonClick => [flight]
  | CardClick => [flight]
  end.

(** ** Theorems *)

(** For a duration of [hours] hours and [mins] minutes, [mins] below 60,
    the card shows [<hours>h <mins>m]. *)
Theorem formatDuration_spec (hours mins : Z) :
  0 ≤ hours → 0 ≤ mins < 60 →
  formatDuration (60 * hours + mins) =
    num_to_string hours +:+ "h " +:+ num_to_string mins +:+ "m".
Proof.
  intros Hh Hm. unfold formatDuration.
  replace ((60 * hours + mins) / 60) with hours by (apply Z.div_unique with mins; lia).
  replace (Z.rem (60 * hours + mins) 60) with mins; [done|].
  rewrite Z.rem_mod_nonneg by lia. apply Z.mod_unique with hours; lia.
Qed.

Lemma formatDuration_spec_witness : formatDuration (60 * 5 + 30) = "5h 30m".
Proof. apply (formatDuration_spec 5 30); lia. Defined.

(** For a negative duration the two parts disagree: the hours are rounded
    down and the minutes keep the sign, so -90 minutes are shown as
    [-2h -30m]. *)
Example formatDuration_negative : formatDuration (-90) = "-2h -30m".
Proof. by vm_compute. Qed.

(** The placeholder of an airline without logo shows its first two letters
    in upper case. *)
Lemma initials_example : initials "SkyBook Air" = Some "SK".
Proof. by vm_compute. Qed.

End FlightCard.
