(* ===== verification/Api.v ===== *)
(** * The remote gateway: [services/api.ts]

    Each function of the module sends one request with [fetch], throws an
    [Error] with a fixed message when the response is not [ok], and otherwise
    resolves with the body parsed as JSON.  A request is a record of what is
    passed to [fetch]; the outcome of [fetch] and of [response.json()] are
    arguments of the model, as completions: [fetch] rejects on a network
    failure and [json] rejects on a malformed body. *)

From S2P Require Import Prelude Types.

Module Api.

(** ** Requests *)

Inductive Method : Type := GET | POST | DELETE.

#[global] Instance Method_eq_dec : EqDecision Method.
Proof. solve_decision. Defined.

(** The value passed to [JSON.stringify]. *)
Inductive Body : Type :=
| SearchBody (params : SearchParams)
| BookingBody (flightId : string) (passengers : list Passenger) (seats : list Seat)
    (payment : PaymentInfo).

Record Request : Type := {
  request_method : Method;
  request_url : string;
  request_headers : list (string * string);
  request_body : option Body;
}.

(** [const API_BASE_URL = '/api'] *)
Definition API_BASE_URL : string := "/api".

(** [fetch(url)]: a GET without headers and body. *)
Definition get (url : string) : Request :=
  {| request_method := GET; request_url := url; request_headers := [];
     request_body := None |}.

(** [fetch(url, { method: 'POST', headers: {...}, body: JSON.stringify(body) })] *)
Definition post (url : string) (body : Body) : Request :=
  {| request_method := POST; request_url := url;
     request_headers := [("Content-Type", "application/json")];
     request_body := Some body |}.

(** ** Responses *)

Record Response (A : Type) : Type := {
  response_ok : bool;
  (** the outcome of [response.json()] *)
  response_json : Completion A;
}.
Arguments response_ok {A} r.
Arguments response_json {A} r.

(** [if (!response.ok) throw new Error(message); return response.json()],
    after [await fetch(...)]. *)
Definition checked {A} (message : string) (fetched : Completion (Response A))
    : Completion A :=
  response ← fetched;
  if negb (response_ok response) then Throw (Error message)
  else response_json response.

(** As [checked], for a function that returns nothing. *)
Definition checked_void {A} (message : string) (fetched : Completion (Response A))
    : Completion () :=
  response ← fetched;
  if negb (response_ok response) then Throw (Error message)
  else Normal ().

(** ** [flightAPI] *)

Definition searchFlights_request (params : SearchParams) : Request :=
  post (API_BASE_URL +:+ "/flights/search") (SearchBody params).

Definition searchFlights (fetched : Completion (Response (list Flight)))
    : Completion (list Flight) :=
  checked "Failed to search flights" fetched.

Definition getFlightById_request (id : string) : Request :=
  get (API_BASE_URL +:+ "/flights/" +:+ id).

Definition getFlightById (fetched : Completion (Response Flight)) : Completion Flight :=
  checked "Failed to fetch flight" fetched.

(** ** [bookingAPI] *)

Definition createBooking_request (flightId : string) (passengers : list Passenger)
    (seats : list Seat) (payment : PaymentInfo) : Request :=
  post (API_BASE_URL +:+ "/bookings") (BookingBody flightId passengers seats payment).

Definition createBooking (fetched : Completion (Response Booking)) : Completion Booking :=
  checked "Failed to create booking" fetched.

Definition getBooking_request (id : string) : Request :=
  get (API_BASE_URL +:+ "/bookings/" +:+ id).

Definition getBooking (fetched : Completion (Response Booking)) : Completion Booking :=
  checked "Failed to fetch booking" fetched.

Definition cancelBooking_request (id : string) : Request :=
  {| request_method := DELETE; request_url := API_BASE_URL +:+ "/bookings/" +:+ id;
     request_headers := []; request_body := None |}.

Definition cancelBooking (fetched : Completion (Response ())) : Completion () :=
  checked_void "Failed to cancel booking" fetched.

(** ** [seatAPI] *)

Definition getAvailableSeats_request (flightId : string) : Request :=
  get (API_BASE_URL +:+ "/flights/" +:+ flightId +:+ "/seats").

Definition getAvailableSeats (fetched : Completion (Response (list Seat)))
    : Completion (list Seat) :=
  checked "Failed to fetch seats" fetched.

(** ** Theorems *)

(** A call resolves with [data] exactly when [fetch] resolved with a
    response that is [ok] and whose body parsed to [data]. *)
Lemma checked_resolves {A} (message : string) (fetched : Completion (Response A)) (data : A) :
  checked message fetched = Normal data ↔
  ∃ response, fetched = Normal response ∧ response_ok response = true ∧
    response_json response = Normal data.
Proof.
  unfold checked. destruct fetched as [[[] json]|e]; simpl.
  - split; [by eexists|]. by intros (? & [= <-] & _ & ?).
  - split; [done|]. by intros (? & [= <-] & ? & _).
  - split; [done|]. by intros (? & ? & _).
Qed.

(** A call throws in three cases: [fetch] rejected, with its error; the
    response is not [ok], with the function's own message; the body does not
    parse, with the error of [json]. *)
Lemma checked_throws {A} (message : string) (fetched : Completion (Response A))
    (e : JsError) :
  checked message fetched = Throw e ↔
  fetched = Throw e ∨
  ∃ response, fetched = Normal response ∧
    (response_ok response = false ∧ e = Error message ∨
     response_ok response = true ∧ response_json response = Throw e).
Proof.
  unfold checked. destruct fetched as [[[] json]|e']; simpl.
  - split; [intros ->; right; eexists; eauto|].
    by intros [|(? & [= <-] & [[? _]|[_ ?]])].
  - split; [intros [= <-]; right; eexists; eauto|].
    by intros [|(? & [= <-] & [[_ ->]|[? _]])].
  - split; [intros [= ->]; by left|]. by intros [[= ->]|(? & ? & _)].
Qed.

(** C29. The outcome of each function of the gateway, given the outcome of
    [fetch]: it resolves with the parsed body of a response that is [ok];
    it throws the error of [fetch], or its own message for a response that
    is not [ok], or the error of [json].  A response that is not [ok] is
    never parsed. *)
Theorem checked_spec {A} (message : string) (fetched : Completion (Response A)) :
  (∀ data, checked message fetched = Normal data ↔
     ∃ response, fetched = Normal response ∧ response_ok response = true ∧
       response_json response = Normal data) ∧
  (∀ e, checked message fetched = Throw e ↔
     fetched = Throw e ∨
     ∃ response, fetched = Normal response ∧
       (response_ok response = false ∧ e = Error message ∨
        response_ok response = true ∧ response_json response = Throw e)).
Proof. split; intros; [apply checked_resolves|apply checked_throws]. Qed.

(** Ids are put into the path as they are: the request for the flight
    ["<id>/seats"] is the request for the seats of the flight [id]. *)
Theorem flight_path_confusion (id : string) :
  getFlightById_request (id +:+ "/seats") = getAvailableSeats_request id.
Proof. done. Qed.

(** A non-2xx answer to a search fails with the message of [searchFlights]. *)
Lemma searchFlights_not_ok (json : Completion (list Flight)) :
  searchFlights (Normal {| response_ok := false; response_json := json |})
  = Throw (Error "Failed to search flights").
Proof. done. Qed.

(** The message of each of the other functions for a response that is not
    [ok], whatever its body. *)
Lemma not_ok_messages :
  (∀ json, getFlightById (Normal {| response_ok := false; response_json := json |})
           = Throw (Error "Failed to fetch flight")) ∧
  (∀ json, createBooking (Normal {| response_ok := false; response_json := json |})
           = Throw (Error "Failed to create booking")) ∧
  (∀ json, getBooking (Normal {| response_ok := false; response_json := json |})
           = Throw (Error "Failed to fetch booking")) ∧
  (∀ json, cancelBooking (Normal {| response_ok := false; response_json := json |})
           = Throw (Error "Failed to cancel booking")) ∧
  (∀ json, getAvailableSeats (Normal {| response_ok := false; response_json := json |})
           = Throw (Error "Failed to fetch seats")).
Proof. done. Qed.

End Api.
