(* ===== verification/SearchPage.v ===== *)
(** * The controller: [pages/SearchPage.tsx]

    [SearchPage] owns the wizard's state: the current step and the booking
    draft in seven [useState] cells, two react-query mutations (flight search
    and booking creation) and one query (the seats of the selected flight).
    It passes its handlers to the step views as callbacks and applies the
    price updates of [usePriceUpdates] to the flight list.

    The state of react-query that the component reads is part of [State]:
    whether a mutation is pending (with the variables of the call) and the
    cached data of the seat query per flight id.  [mutate] records the
    request; the request's outcome is an event of its own, handled by
    [onSuccess] or by [searchMutation_onError] / [bookingMutation_onError],
    which is what react-query does when no [onError] is given: it only leaves
    the pending state. *)

From S2P Require Import Prelude Types.

Module SearchPage.

(** ** State *)

(** ['search' | 'select-flight' | 'select-seats' | 'passenger-details' |
    'payment' | 'confirmation'] *)
Inductive BookingStep : Type :=
| StepSearch
| StepSelectFlight
| StepSelectSeats
| StepPassengerDetails
| StepPayment
| StepConfirmation.

#[global] Instance BookingStep_eq_dec : EqDecision BookingStep.
Proof. solve_decision. Defined.

(** The variables of [bookingMutation.mutate]. *)
Record BookingRequest : Type := {
  request_flightId : string;
  request_passengers : list Passenger;
  request_seats : list Seat;
  request_payment : PaymentInfo;
}.

#[global] Instance BookingRequest_eq_dec : EqDecision BookingRequest.
Proof. solve_decision. Defined.

Record State : Type := {
  currentStep : BookingStep;
  searchParams : option SearchParams;
  selectedFlight : option Flight;
  selectedSeats : list Seat;
  passengers : list Passenger;
  bookingId : string;
  flights : list Flight;
  (** the variables of the search request in flight, if any *)
  searchPending : option SearchParams;
  (** the variables of the booking request in flight, if any *)
  bookingPending : option BookingRequest;
  (** the data of the query [['seats', id]], per flight id *)
  seatsData : gmap string (list Seat);
}.

Definition initialState : State :=
  {| currentStep := StepSearch; searchParams := None; selectedFlight := None;
     selectedSeats := []; passengers := []; bookingId := ""; flights := [];
     searchPending := None; bookingPending := None; seatsData := ∅ |}.

(** ** Setters of the state cells *)

Definition setCurrentStep (v : BookingStep) (s : State) : State :=
  {| currentStep := v; searchParams := searchParams s; selectedFlight := selectedFlight s;
     selectedSeats := selectedSeats s; passengers := passengers s; bookingId := bookingId s;
     flights := flights s; searchPending := searchPending s;
     bookingPending := bookingPending s; seatsData := seatsData s |}.

Definition setSearchParams (v : option SearchParams) (s : State) : State :=
  {| currentStep := currentStep s; searchParams := v; selectedFlight := selectedFlight s;
     selectedSeats := selectedSeats s; passengers := passengers s; bookingId := bookingId s;
     flights := flights s; searchPending := searchPending s;
     bookingPending := bookingPending s; seatsData := seatsData s |}.

Definition setSelectedFlight (v : option Flight) (s : State) : State :=
  {| currentStep := currentStep s; searchParams := searchParams s; selectedFlight := v;
     selectedSeats := selectedSeats s; passengers := passengers s; bookingId := bookingId s;
     flights := flights s; searchPending := searchPending s;
     bookingPending := bookingPending s; seatsData := seatsData s |}.

Definition setSelectedSeats (v : list Seat) (s : State) : State :=
  {| currentStep := currentStep s; searchParams := searchParams s;
     selectedFlight := selectedFlight s; selectedSeats := v; passengers := passengers s;
     bookingId := bookingId s; flights := flights s; searchPending := searchPending s;
     bookingPending := bookingPending s; seatsData := seatsData s |}.

Definition setPassengers (v : list Passenger) (s : State) : State :=
  {| currentStep := currentStep s; searchParams := searchParams s;
     selectedFlight := selectedFlight s; selectedSeats := selectedSeats s; passengers := v;
     bookingId := bookingId s; flights := flights s; searchPending := searchPending s;
     bookingPending := bookingPending s; seatsData := seatsData s |}.

Definition setBookingId (v : string) (s : State) : State :=
  {| currentStep := currentStep s; searchParams := searchParams s;
     selectedFlight := selectedFlight s; selectedSeats := selectedSeats s;
     passengers := passengers s; bookingId := v; flights := flights s;
     searchPending := searchPending s; bookingPending := bookingPending s;
     seatsData := seatsData s |}.

Definition setFlights (v : list Flight) (s : State) : State :=
  {| currentStep := currentStep s; searchParams := searchParams s;
     selectedFlight := selectedFlight s; selectedSeats := selectedSeats s;
     passengers := passengers s; bookingId := bookingId s; flights := v;
     searchPending := searchPending s; bookingPending := bookingPending s;
     seatsData := seatsData s |}.

Definition setSearchPending (v : option SearchParams) (s : State) : State :=
  {| currentStep := currentStep s; searchParams := searchParams s;
     selectedFlight := selectedFlight s; selectedSeats := selectedSeats s;
     passengers := passengers s; bookingId := bookingId s; flights := flights s;
     searchPending := v; bookingPending := bookingPending s; seatsData := seatsData s |}.

Definition setBookingPending (v : option BookingRequest) (s : State) : State :=
  {| currentStep := currentStep s; searchParams := searchParams s;
     selectedFlight := selectedFlight s; selectedSeats := selectedSeats s;
     passengers := passengers s; bookingId := bookingId s; flights := flights s;
     searchPending := searchPending s; bookingPending := v; seatsData := seatsData s |}.

Definition setSeatsData (v : gmap string (list Seat)) (s : State) : State :=
  {| currentStep := currentStep s; searchParams := searchParams s;
     selectedFlight := selectedFlight s; selectedSeats := selectedSeats s;
     passengers := passengers s; bookingId := bookingId s; flights := flights s;
     searchPending := searchPending s; bookingPending := bookingPending s; seatsData := v |}.

(** ** Price updates *)

(** [{ ...flight, price: update.newPrice }] *)
Definition withPrice (newPrice : Z) (flight : Flight) : Flight :=
  {| Flight_id := Flight_id flight; Flight_flightNumber := Flight_flightNumber flight;
     Flight_airline := Flight_airline flight; Flight_airlineLogo := Flight_airlineLogo flight;
     Flight_origin := Flight_origin flight; Flight_destination := Flight_destination flight;
     Flight_departureTime := Flight_departureTime flight;
     Flight_arrivalTime := Flight_arrivalTime flight;
     Flight_duration := Flight_duration flight; Flight_price := newPrice;
     Flight_currency := Flight_currency flight; Flight_stops := Flight_stops flight;
     Flight_layovers := Flight_layovers flight;
     Flight_availableSeats := Flight_availableSeats flight;
     Flight_class := Flight_class flight |}.

(** [prev.map(flight => flight.id === update.flightId ? {...} : flight)] *)
Definition applyPriceUpdate (update : PriceUpdate) (prev : list Flight) : list Flight :=
  (λ flight,
     if decide (Flight_id flight = PriceUpdate_flightId update)
     then withPrice (PriceUpdate_newPrice update) flight
     else flight) <$> prev.

(** The callback passed to [usePriceUpdates]. *)
Definition onPriceUpdate (update : PriceUpdate) (s : State) : State :=
  setFlights (applyPriceUpdate update (flights s)) s.

(** The updater of the callback, applied to what [JSON.parse] returned
    without any check.  The callback of [map] reads [update.flightId] once
    per flight: on [null] the read throws a [TypeError], unless there is no
    flight; on a value without a [flightId] it gives [undefined], which no
    flight id equals, and the list keeps its content. *)
Definition priceUpdater (parsed : Parsed PriceUpdate) (prev : list Flight)
    : Completion (list Flight) :=
  match parsed with
  | ParsedAs update => Normal (applyPriceUpdate update prev)
  | ParsedOther => Normal prev
  | ParsedNull =>
      match prev with
      | [] => Normal []
      | _ :: _ => Throw TypeError
      end
  end.

(** ** The search mutation *)

(** [searchMutation.mutate(params)] *)
Definition searchMutation_mutate (params : SearchParams) (s : State) : State :=
  setSearchPending (Some params) s.

(** [onSuccess: (data) => { setFlights(data); setCurrentStep('select-flight') }] *)
Definition searchMutation_onSuccess (data : list Flight) (s : State) : State :=
  setSearchPending None (setCurrentStep StepSelectFlight (setFlights data s)).

(** The request failed ([!response.ok] or a network error): no [onError] is
    given, the mutation leaves the pending state. *)
Definition searchMutation_onError (s : State) : State := setSearchPending None s.

(** [searchMutation.isPending] *)
Definition searchMutation_isPending (s : State) : bool := bool_decide (is_Some (searchPending s)).

(** ** The seat query *)

(** [enabled: !!selectedFlight && currentStep === 'select-seats'] *)
Definition seatsQuery_enabled (s : State) : bool :=
  bool_decide (is_Some (selectedFlight s)) && bool_decide (currentStep s = StepSelectSeats).

(** [const { data: availableSeats = [] } = useQuery({ queryKey: ['seats', selectedFlight?.id], ... })] *)
Definition availableSeats (s : State) : list Seat :=
  match selectedFlight s with
  | Some flight => default [] (seatsData s !! Flight_id flight)
  | None => []
  end.

(** [queryFn] resolved with [data] for the selected flight. *)
Definition seatsQuery_onData (data : list Seat) (s : State) : State :=
  match selectedFlight s with
  | Some flight => setSeatsData (<[Flight_id flight := data]> (seatsData s)) s
  | None => s
  end.

(** ** The booking mutation *)

(** [bookingMutation.mutate({ flightId, passengers, seats, payment })] *)
Definition bookingMutation_mutate (request : BookingRequest) (s : State) : State :=
  setBookingPending (Some request) s.

(** [onSuccess: (data) => { setBookingId(data.id); setCurrentStep('confirmation') }] *)
Definition bookingMutation_onSuccess (data : Booking) (s : State) : State :=
  setBookingPending None (setCurrentStep StepConfirmation (setBookingId (Booking_id data) s)).

Definition bookingMutation_onError (s : State) : State := setBookingPending None s.

(** [bookingMutation.isPending] *)
Definition bookingMutation_isPending (s : State) : bool :=
  bool_decide (is_Some (bookingPending s)).

(** ** Handlers *)

Definition handleSearch (params : SearchParams) (s : State) : State :=
  searchMutation_mutate params (setSearchParams (Some params) s).

Definition handleFlightSelect (flight : Flight) (s : State) : State :=
  setCurrentStep StepSelectSeats (setSelectedFlight (Some flight) s).

(** [searchParams?.passengers] *)
Definition passengerCount (s : State) : option Z := SearchParams_passengers <$> searchParams s.

(** [`${searchParams?.passengers}`]: [undefined] prints as its name. *)
Definition passengerCount_text (s : State) : string :=
  match passengerCount s with
  | Some n => num_to_string n
  | None => "undefined"
  end.

(** [selectedSeats.length === searchParams?.passengers] *)
Definition seatsComplete (s : State) : bool :=
  bool_decide (passengerCount s = Some (len (selectedSeats s))).

(** Returns the next state and the argument of [alert], if it is called. *)
Definition handleSeatsConfirm (s : State) : State * option string :=
  if seatsComplete s then (setCurrentStep StepPassengerDetails s, None)
  else (s, Some ("Please select " +:+ passengerCount_text s +:+ " seat(s)")).

Definition handlePassengersSubmit (passengerData : list Passenger) (s : State) : State :=
  setCurrentStep StepPayment (setPassengers passengerData s).

Definition handlePaymentSubmit (payment : PaymentInfo) (s : State) : State :=
  match selectedFlight s with
  | Some flight =>
      if bool_decide (0 < len (passengers s)) && bool_decide (0 < len (selectedSeats s))
      then bookingMutation_mutate
             {| request_flightId := Flight_id flight;
                request_passengers := passengers s;
                request_seats := selectedSeats s;
                request_payment := payment |} s
      else s
  | None => s
  end.

Definition calculateTotal (s : State) : Z :=
  match selectedFlight s with
  | None => 0
  | Some flight =>
      let flightTotal := Flight_price flight * (passengerCount s ||? 1) in
      let seatTotal := sum_with (λ seat, Seat_price seat ||? 0) (selectedSeats s) in
      flightTotal + seatTotal
  end.

(** The [onClick] of "Back to Flights". *)
Definition backToFlights (s : State) : State := setCurrentStep StepSelectFlight s.

(** The [onBack] passed to the passenger form. *)
Definition backToSeats (s : State) : State := setCurrentStep StepSelectSeats s.

(** The [onBack] passed to the payment form. *)
Definition backToPassengers (s : State) : State := setCurrentStep StepPassengerDetails s.

(** The [onClick] of "Book Another Flight". *)
Definition bookAnother (s : State) : State :=
  setFlights [] (setPassengers [] (setSelectedSeats [] (setSelectedFlight None
    (setCurrentStep StepSearch s)))).

(** ** What is rendered *)

(** [`${s.row}${s.column}`] *)
Definition seatLabel (seat : Seat) : string := num_to_string (Seat_row seat) +:+ Seat_column seat.

(** The block of the JSX that is rendered, with the props of its child and
    the state of its own buttons. *)
Inductive Rendered : Type :=
| RenderSearch (isLoading : bool)
| RenderFlights (found : string) (cards : list Flight)
| RenderSeats (heading : string) (seats : list Seat) (maxSelections : Z)
    (continueDisabled : bool)
| RenderPassengers (passengerCount : Z)
| RenderPayment (totalAmount : Z) (currency : string) (isProcessing : bool)
| RenderConfirmation (reference : string) (flight : string) (route : string)
    (passengers : string) (seats : string)
| RenderNothing.

(** The confirmation card: the booking id, the flight, the route, the
    number of passengers and the seats. *)
Definition confirmation (flight : Flight) (s : State) : Rendered :=
  RenderConfirmation (bookingId s)
    (Flight_airline flight +:+ " " +:+ Flight_flightNumber flight)
    (Airport_city (Flight_origin flight) +:+ " → " +:+
     Airport_city (Flight_destination flight))
    (num_to_string (len (passengers s)))
    (js_join ", " (seatLabel <$> selectedSeats s)).

Definition render (s : State) : Rendered :=
  match currentStep s, selectedFlight s with
  | StepSearch, _ => RenderSearch (searchMutation_isPending s)
  | StepSelectFlight, _ =>
      RenderFlights (num_to_string (len (flights s)) +:+ " flights found") (flights s)
  | StepSelectSeats, Some flight =>
      RenderSeats
        (Flight_airline flight +:+ " " +:+ Flight_flightNumber flight +:+ " -" +:+
         Airport_code (Flight_origin flight) +:+ " → " +:+
         Airport_code (Flight_destination flight))
        (availableSeats s) (passengerCount s ||? 1) (negb (seatsComplete s))
  | StepPassengerDetails, _ => RenderPassengers (passengerCount s ||? 1)
  | StepPayment, Some flight =>
      RenderPayment (calculateTotal s) (Flight_currency flight) (bookingMutation_isPending s)
  | StepConfirmation, Some flight => confirmation flight s
  | _, None => RenderNothing
  end.

(** A state for the worked examples: one flight selected, [n] passengers. *)
Definition sample_airport (code : string) : Airport :=
  {| Airport_code := code; Airport_name := code; Airport_city := code; Airport_country := "US" |}.

Definition sample_flight (id : string) (price : Z) : Flight :=
  {| Flight_id := id; Flight_flightNumber := id; Flight_airline := "SkyBook Air";
     Flight_airlineLogo := ""; Flight_origin := sample_airport "JFK";
     Flight_destination := sample_airport "LAX"; Flight_departureTime := "";
     Flight_arrivalTime := ""; Flight_duration := 330; Flight_price := price;
     Flight_currency := "USD"; Flight_stops := 0; Flight_layovers := None;
     Flight_availableSeats := 10; Flight_class := Economy |}.

Definition sample_params (n : Z) : SearchParams :=
  {| SearchParams_origin := "JFK"; SearchParams_destination := "LAX";
     SearchParams_departureDate := "2026-12-24"; SearchParams_returnDate := Some "";
     SearchParams_passengers := n; SearchParams_class := Economy |}.

Definition sample_seat (id : string) (row : Z) (column : string) (price : option Z) : Seat :=
  {| Seat_id := id; Seat_row := row; Seat_column := column; Seat_type := Window;
     Seat_status := Available; Seat_price := price |}.

(** The bound below which sums and products of integers are exact in
    double precision. *)
Definition safe_integer (n : Z) : Prop := - 2 ^ 53 < n < 2 ^ 53.

(** ** Price updates: theorems *)

Lemma applyPriceUpdate_lookup (update : PriceUpdate) (prev : list Flight) (i : nat) :
  applyPriceUpdate update prev !! i =
    (λ flight, if decide (Flight_id flight = PriceUpdate_flightId update)
               then withPrice (PriceUpdate_newPrice update) flight else flight) <$> prev !! i.
Proof. apply list_lookup_fmap. Qed.

(** An update for a flight that is not in the list changes nothing. *)
Lemma applyPriceUpdate_unknown (update : PriceUpdate) (prev : list Flight) :
  PriceUpdate_flightId update ∉ Flight_id <$> prev → applyPriceUpdate update prev = prev.
Proof.
  intros Hnew. unfold applyPriceUpdate. rewrite <-(list_fmap_id prev) at 2.
  apply list_fmap_ext. intros i flight Hi. rewrite decide_False; [done|].
  intros Hid. apply Hnew. rewrite <-Hid. apply list_elem_of_fmap_2.
  by eapply list_elem_of_lookup_2.
Qed.

(** C9. A price update keeps the flights, their order and every field but
    the price: the flights with the update's id get the new price, the
    others are unchanged; an update for a flight that is not in the list
    leaves the list as it is. *)
Theorem applyPriceUpdate_spec (update : PriceUpdate) (prev : list Flight) :
  length (applyPriceUpdate update prev) = length prev ∧
  (∀ i flight, prev !! i = Some flight →
    ∃ flight', applyPriceUpdate update prev !! i = Some flight' ∧
      withPrice 0 flight' = withPrice 0 flight ∧
      Flight_price flight' =
        if decide (Flight_id flight = PriceUpdate_flightId update)
        then PriceUpdate_newPrice update else Flight_price flight) ∧
  (PriceUpdate_flightId update ∉ Flight_id <$> prev → applyPriceUpdate update prev = prev).
Proof.
  split_and!; [apply length_fmap| |apply applyPriceUpdate_unknown]. intros i flight Hi.
  rewrite applyPriceUpdate_lookup, Hi. simpl. eexists. split; [done|].
  by case_decide; destruct flight.
Qed.

Lemma applyPriceUpdate_unknown_witness :
  applyPriceUpdate {| PriceUpdate_flightId := "ZZ9"; PriceUpdate_newPrice := 1;
                      PriceUpdate_timestamp := "" |}
    [sample_flight "SB1" 30000; sample_flight "SB2" 45000]
  = [sample_flight "SB1" 30000; sample_flight "SB2" 45000].
Proof. apply applyPriceUpdate_unknown. by vm_compute; intros [|[|[]%elem_of_nil]%elem_of_cons]%elem_of_cons. Defined.

(** C40. Of two updates for the same flight the later one wins; in particular
    delivering an update twice is the same as delivering it once. *)
Theorem applyPriceUpdate_latest (u1 u2 : PriceUpdate) (prev : list Flight) :
  PriceUpdate_flightId u1 = PriceUpdate_flightId u2 →
  applyPriceUpdate u2 (applyPriceUpdate u1 prev) = applyPriceUpdate u2 prev.
Proof.
  intros Hid. unfold applyPriceUpdate. rewrite <-list_fmap_compose.
  apply list_fmap_ext. intros i flight _. simpl. rewrite Hid.
  by destruct (decide (Flight_id flight = PriceUpdate_flightId u2)); simpl;
    [rewrite decide_True by done|rewrite decide_False by done].
Qed.

Lemma applyPriceUpdate_latest_witness :
  let u price := {| PriceUpdate_flightId := "SB1"; PriceUpdate_newPrice := price;
                    PriceUpdate_timestamp := "" |} in
  applyPriceUpdate (u 2) (applyPriceUpdate (u 1) [sample_flight "SB1" 30000])
  = applyPriceUpdate (u 2) [sample_flight "SB1" 30000].
Proof. intros u. by apply applyPriceUpdate_latest. Defined.

(** Delivering an update twice is the same as delivering it once. *)
Lemma onPriceUpdate_idempotent (update : PriceUpdate) (s : State) :
  onPriceUpdate update (onPriceUpdate update s) = onPriceUpdate update s.
Proof.
  unfold onPriceUpdate, setFlights. cbn [flights]. f_equal; try done.
  unfold applyPriceUpdate. rewrite <-list_fmap_compose.
  apply list_fmap_ext. intros i flight _. simpl.
  by destruct (decide (Flight_id flight = PriceUpdate_flightId update)); simpl;
    [rewrite decide_True by done|rewrite decide_False by done].
Qed.

(** Updates for different flights commute. *)
Lemma applyPriceUpdate_comm (u1 u2 : PriceUpdate) (prev : list Flight) :
  PriceUpdate_flightId u1 ≠ PriceUpdate_flightId u2 →
  applyPriceUpdate u2 (applyPriceUpdate u1 prev) = applyPriceUpdate u1 (applyPriceUpdate u2 prev).
Proof.
  intros Hid. unfold applyPriceUpdate. rewrite <-!list_fmap_compose.
  apply list_fmap_ext. intros i flight _. simpl.
  repeat (case_decide; simpl in *); congruence.
Qed.

(** ** The total *)

Lemma calculateTotal_eq (s : State) (flight : Flight) (params : SearchParams) :
  selectedFlight s = Some flight → searchParams s = Some params →
  SearchParams_passengers params ≠ 0 →
  calculateTotal s =
    Flight_price flight * SearchParams_passengers params +
    sum_with (λ seat, default 0 (Seat_price seat)) (selectedSeats s).
Proof.
  intros Hf Hp Hn. unfold calculateTotal, passengerCount. rewrite Hf, Hp. simpl.
  rewrite (proj2 (truthy_Z_spec _) Hn). f_equal.
  apply sum_with_ext. intros seat. apply js_or_Z_zero.
Qed.

(** C8. The total is zero when no flight is selected; otherwise it is the
    flight's price times the searched passenger count, taken as 1 when there
    is no search or the count is zero, plus the surcharges of the selected
    seats, a seat without surcharge counting as zero. *)
Theorem calculateTotal_spec (s : State) :
  calculateTotal s =
    match selectedFlight s with
    | None => 0
    | Some flight =>
        Flight_price flight *
          match searchParams s with
          | Some params =>
              if decide (SearchParams_passengers params = 0) then 1
              else SearchParams_passengers params
          | None => 1
          end +
        sum_with (λ seat, default 0 (Seat_price seat)) (selectedSeats s)
    end.
Proof.
  unfold calculateTotal, passengerCount. destruct (selectedFlight s) as [flight|]; [|done].
  rewrite (sum_with_ext _ (λ seat, default 0 (Seat_price seat))) by (intros; apply js_or_Z_zero).
  destruct (searchParams s) as [params|]; simpl; [|done].
  case_decide as Hn; [by rewrite Hn|]. by rewrite (proj2 (truthy_Z_spec _) Hn).
Qed.

(** C39. For 1 to 8 passengers, as many seats at most, and a fare and
    surcharges below 2^49, the total and both of its summands are
    non-negative and below 2^53, where integer arithmetic on doubles is
    exact. *)
Theorem calculateTotal_safe (s : State) (flight : Flight) (params : SearchParams) :
  selectedFlight s = Some flight → searchParams s = Some params →
  1 ≤ SearchParams_passengers params ≤ 8 →
  0 ≤ Flight_price flight < 2 ^ 49 →
  Forall (λ seat, 0 ≤ default 0 (Seat_price seat) ≤ 2 ^ 49 - 1) (selectedSeats s) →
  len (selectedSeats s) ≤ 8 →
  0 ≤ calculateTotal s ∧ safe_integer (calculateTotal s) ∧
  safe_integer (Flight_price flight * SearchParams_passengers params).
Proof.
  intros Hf Hp Hn Hprice Hseats Hlen.
  rewrite (calculateTotal_eq s flight params) by (done || lia).
  apply sum_with_bounds in Hseats. pose proof (len_nonneg (selectedSeats s)).
  unfold safe_integer. nia.
Qed.

Lemma calculateTotal_safe_witness :
  let s := setSelectedSeats [sample_seat "12A" 12 "A" (Some 2500)]
             (setSearchParams (Some (sample_params 1))
               (setSelectedFlight (Some (sample_flight "SB1" 30000)) initialState)) in
  0 ≤ calculateTotal s ∧ safe_integer (calculateTotal s) ∧ safe_integer (30000 * 1).
Proof.
  intros s. apply (calculateTotal_safe s (sample_flight "SB1" 30000) (sample_params 1));
    try done; simpl; try lia.
  repeat constructor; simpl; lia.
Defined.

(** ** Handlers *)

(** The step after a handler of the controller. *)
Lemma handleSeatsConfirm_step (s : State) :
  currentStep (handleSeatsConfirm s).1 =
    if seatsComplete s then StepPassengerDetails else currentStep s.
Proof. unfold handleSeatsConfirm. by case_match. Qed.

Lemma handlePaymentSubmit_step (payment : PaymentInfo) (s : State) :
  currentStep (handlePaymentSubmit payment s) = currentStep s.
Proof. unfold handlePaymentSubmit. by repeat case_match. Qed.

Lemma seatsQuery_onData_step (data : list Seat) (s : State) :
  currentStep (seatsQuery_onData data s) = currentStep s.
Proof. unfold seatsQuery_onData. by case_match. Qed.

(** With a flight, a passenger and a seat the request is sent. *)
Lemma handlePaymentSubmit_sends (payment : PaymentInfo) (s : State) (flight : Flight) :
  selectedFlight s = Some flight → 0 < len (passengers s) → 0 < len (selectedSeats s) →
  handlePaymentSubmit payment s =
    bookingMutation_mutate
      {| request_flightId := Flight_id flight; request_passengers := passengers s;
         request_seats := selectedSeats s; request_payment := payment |} s.
Proof.
  intros Hflight Hp Hs. unfold handlePaymentSubmit.
  by rewrite Hflight, !bool_decide_eq_true_2.
Qed.

(** A booking that fails leaves the controller as it was before the submit. *)
Lemma handlePaymentSubmit_undone (payment : PaymentInfo) (s : State) :
  bookingPending s = None → bookingMutation_onError (handlePaymentSubmit payment s) = s.
Proof.
  intros Hnone. unfold handlePaymentSubmit. destruct s. simpl in *. subst.
  by repeat case_match.
Qed.

End SearchPage.
