(* ===== verification/Flow.v ===== *)
(** * The wizard as one transition system

    [SearchPage] renders one step view at a time; that view has local state
    of its own.  The state of the application is the controller's state
    together with the local state of the mounted view ([Child]).  An event is
    something a user or the network can cause in a rendered state: an input
    or a click on an element that is rendered and enabled, the outcome of a
    request in flight, or a price update.  [next] gives the state after an
    event, or [None] when the event cannot occur.

    A step view is unmounted when its JSX condition stops to hold and is
    mounted afresh, from its [useState] initialisers, when the condition holds
    again ([mount], [remount]). *)

From S2P Require Import Prelude Types SeatMap PaymentForm PassengerForm SearchForm FlightCard Api SearchPage.

Module Flow.
Import SearchPage.

(** ** State *)

(** The local state of the step view that is mounted. *)
Inductive Child : Type :=
| SearchFormState (formData : SearchParams)
| FlightList
| SeatMapState (selectedSeats : list Seat)
| PassengerFormState (passengers : list Passenger)
| PaymentFormState (payment : PaymentInfo)
| Confirmation
| Blank.

Record App : Type := {
  page : SearchPage.State;
  child : Child;
}.

(** ** Mounting *)

(** The view rendered for a controller state, with its initial local state. *)
Definition mount (s : SearchPage.State) : Child :=
  match SearchPage.render s with
  | SearchPage.RenderSearch _ => SearchFormState SearchForm.initialFormData
  | SearchPage.RenderFlights _ _ => FlightList
  | SearchPage.RenderSeats _ _ _ _ => SeatMapState SeatMap.initialSelectedSeats
  | SearchPage.RenderPassengers passengerCount =>
      PassengerFormState (PassengerForm.initialPassengers passengerCount)
  | SearchPage.RenderPayment _ _ _ => PaymentFormState PaymentForm.initialPayment
  | SearchPage.RenderConfirmation _ _ _ _ _ => Confirmation
  | SearchPage.RenderNothing => Blank
  end.

(** Whether a child is the view that a controller state renders. *)
Definition mounted (s : SearchPage.State) (c : Child) : bool :=
  match SearchPage.render s, c with
  | SearchPage.RenderSearch _, SearchFormState _
  | SearchPage.RenderFlights _ _, FlightList
  | SearchPage.RenderSeats _ _ _ _, SeatMapState _
  | SearchPage.RenderPassengers _, PassengerFormState _
  | SearchPage.RenderPayment _ _ _, PaymentFormState _
  | SearchPage.RenderConfirmation _ _ _ _ _, Confirmation
  | SearchPage.RenderNothing, Blank => true
  | _, _ => false
  end.

(** Whether two children are the same view, whatever their local state. *)
Definition same_view (c c' : Child) : bool :=
  match c, c' with
  | SearchFormState _, SearchFormState _ | FlightList, FlightList
  | SeatMapState _, SeatMapState _ | PassengerFormState _, PassengerFormState _
  | PaymentFormState _, PaymentFormState _ | Confirmation, Confirmation
  | Blank, Blank => true
  | _, _ => false
  end.

(** After the controller's state has changed: the child keeps its local state
    if it is still the rendered view, else the new view is mounted. *)
Definition remount (s : SearchPage.State) (c : Child) : App :=
  {| page := s; child := if mounted s c then c else mount s |}.

Definition initialApp : App := remount SearchPage.initialState Blank.

(** ** Events *)

Inductive Event : Type :=
| SearchInput (c : SearchForm.Change)
| SearchSubmit
| SearchSucceeded (data : list Flight)
| SearchFailed
| FlightClick (click : FlightCard.Click) (flight : Flight)
| SeatsLoaded (data : list Seat)
| SeatsFailed
| SeatClick (seat : Seat)
| BackToFlights
| SeatsConfirm
| PassengerInput (index : nat) (c : PassengerForm.Change)
| PassengersSubmit
| BackToSeats
| PaymentInput (i : PaymentForm.Input)
| PaymentSubmit
| BackToPassengers
| BookingSucceeded (data : Booking)
| BookingFailed
| BookAnother
| PriceUpdated (update : PriceUpdate).

(** The [onSelect] prop of a card is [handleFlightSelect]: the controller's
    state after the calls that a click causes. *)
Definition flightClick (click : FlightCard.Click) (flight : Flight) (s : SearchPage.State)
    : SearchPage.State :=
  foldl (λ s' selected, SearchPage.handleFlightSelect selected s') s
    (FlightCard.handleClick click flight).

(** The outcome of a call of the gateway, as an event. *)
Definition searchOutcome (result : Completion (list Flight)) : Event :=
  match result with Normal data => SearchSucceeded data | Throw _ => SearchFailed end.

Definition seatsOutcome (result : Completion (list Seat)) : Event :=
  match result with Normal data => SeatsLoaded data | Throw _ => SeatsFailed end.

Definition bookingOutcome (result : Completion Booking) : Event :=
  match result with Normal data => BookingSucceeded data | Throw _ => BookingFailed end.

Section next.
Context `{!Collator}.

(** The [onSelectionChange] prop of the seat map is [setSelectedSeats]. *)
Definition seatClick (seat : Seat) (maxSelections : Z) (selected : list Seat)
    (s : SearchPage.State) : App :=
  let eff := SeatMap.handleSeatClick maxSelections selected seat in
  {| page := match SeatMap.onSelectionChange eff with
             | Some reported => SearchPage.setSelectedSeats reported s
             | None => s
             end;
     child := SeatMapState (SeatMap.next_selectedSeats eff) |}.

Definition next (a : App) (e : Event) : option App :=
  let s := page a in
  match e, SearchPage.render s, child a with
  | SearchInput c, SearchPage.RenderSearch _, SearchFormState formData =>
      formData' ← SearchForm.input formData c;
      Some {| page := s; child := SearchFormState formData' |}
  | SearchSubmit, SearchPage.RenderSearch false, SearchFormState formData =>
      if SearchForm.requiredFilled formData
      then Some (remount (SearchPage.handleSearch (SearchForm.handleSubmit formData) s) (child a))
      else None
  | SearchSucceeded data, _, _ =>
      if SearchPage.searchMutation_isPending s
      then Some (remount (SearchPage.searchMutation_onSuccess data s) (child a))
      else None
  | SearchFailed, _, _ =>
      if SearchPage.searchMutation_isPending s
      then Some (remount (SearchPage.searchMutation_onError s) (child a))
      else None
  | FlightClick click flight, SearchPage.RenderFlights _ cards, FlightList =>
      if decide (flight ∈ cards)
      then Some (remount (flightClick click flight s) (child a))
      else None
  | SeatsLoaded data, _, _ =>
      if SearchPage.seatsQuery_enabled s
      then Some (remount (SearchPage.seatsQuery_onData data s) (child a))
      else None
  | SeatsFailed, _, _ =>
      if SearchPage.seatsQuery_enabled s then Some a else None
  | SeatClick seat, SearchPage.RenderSeats _ seats maxSelections _, SeatMapState selected =>
      if decide (seat ∈ SeatMap.clickable seats maxSelections selected)
      then Some (seatClick seat maxSelections selected s)
      else None
  | BackToFlights, SearchPage.RenderSeats _ _ _ _, SeatMapState _ =>
      Some (remount (SearchPage.backToFlights s) (child a))
  | SeatsConfirm, SearchPage.RenderSeats _ _ _ false, SeatMapState _ =>
      Some (remount (SearchPage.handleSeatsConfirm s).1 (child a))
  | PassengerInput index c, SearchPage.RenderPassengers _, PassengerFormState passengers =>
      passengers' ← PassengerForm.input passengers (index, c);
      Some {| page := s; child := PassengerFormState passengers' |}
  | PassengersSubmit, SearchPage.RenderPassengers _, PassengerFormState passengers =>
      match PassengerForm.render passengers with
      | Normal view =>
          if PassengerForm.view_submitDisabled view then None
          else Some (remount (SearchPage.handlePassengersSubmit
                                (PassengerForm.handleSubmit passengers) s) (child a))
      | Throw _ => None
      end
  | BackToSeats, SearchPage.RenderPassengers _, PassengerFormState _ =>
      Some (remount (SearchPage.backToSeats s) (child a))
  | PaymentInput i, SearchPage.RenderPayment _ _ _, PaymentFormState payment =>
      payment' ← PaymentForm.input payment i;
      Some {| page := s; child := PaymentFormState payment' |}
  | PaymentSubmit, SearchPage.RenderPayment _ _ false, PaymentFormState payment =>
      if PaymentForm.requiredFilled payment
      then Some (remount (SearchPage.handlePaymentSubmit
                            (PaymentForm.handleSubmit payment) s) (child a))
      else None
  | BackToPassengers, SearchPage.RenderPayment _ _ false, PaymentFormState _ =>
      Some (remount (SearchPage.backToPassengers s) (child a))
  | BookingSucceeded data, _, _ =>
      if SearchPage.bookingMutation_isPending s
      then Some (remount (SearchPage.bookingMutation_onSuccess data s) (child a))
      else None
  | BookingFailed, _, _ =>
      if SearchPage.bookingMutation_isPending s
      then Some (remount (SearchPage.bookingMutation_onError s) (child a))
      else None
  | BookAnother, SearchPage.RenderConfirmation _ _ _ _ _, Confirmation =>
      Some (remount (SearchPage.bookAnother s) (child a))
  | PriceUpdated update, _, _ =>
      Some (remount (SearchPage.onPriceUpdate update s) (child a))
  | _, _, _ => None
  end.

(** ** The steps of the wizard and the edges between them *)

(** [search → select-flight → select-seats → passenger-details → payment →
    confirmation], one step back from the three middle steps, and from the
    confirmation to the search. *)
Definition edge (from to : SearchPage.BookingStep) : bool :=
  match from, to with
  | SearchPage.StepSearch, SearchPage.StepSelectFlight
  | SearchPage.StepSelectFlight, SearchPage.StepSelectSeats
  | SearchPage.StepSelectSeats, SearchPage.StepPassengerDetails
  | SearchPage.StepSelectSeats, SearchPage.StepSelectFlight
  | SearchPage.StepPassengerDetails, SearchPage.StepPayment
  | SearchPage.StepPassengerDetails, SearchPage.StepSelectSeats
  | SearchPage.StepPayment, SearchPage.StepConfirmation
  | SearchPage.StepPayment, SearchPage.StepPassengerDetails
  | SearchPage.StepConfirmation, SearchPage.StepSearch => true
  | _, _ => false
  end.

End next.

(** ** Worked examples *)

(** The state after a sequence of events, from the initial state (the
    initial state itself when the sequence cannot occur).  The examples
    compare columns by code unit. *)
Definition state_after (trace : list Event) : App := after initialApp next trace.

Definition seat_of (flightId : string) (row : Z) (column : string) : Seat :=
  sample_seat (flightId +:+ "-" +:+ num_to_string row +:+ column) row column (Some 2500).

Definition sample_booking (id : string) : Booking :=
  {| Booking_id := id; Booking_flightId := "SB1"; Booking_passengers := [];
     Booking_seats := []; Booking_totalPrice := 0; Booking_currency := "USD";
     Booking_status := Confirmed; Booking_bookingReference := "REF-" +:+ id;
     Booking_createdAt := "" |}.

(** Filling the search form for [n] passengers. *)
Definition search_inputs (n : Z) : list Event :=
  [SearchInput (SearchForm.ChangeOrigin "JFK");
   SearchInput (SearchForm.ChangeDestination "LAX");
   SearchInput (SearchForm.ChangeDepartureDate "2026-12-24");
   SearchInput (SearchForm.ChangePassengers n)].

(** A search for [n] passengers that finds two flights. *)
Definition search_events (n : Z) : list Event :=
  search_inputs n ++
  [SearchSubmit; SearchSucceeded [sample_flight "SB1" 30000; sample_flight "SB2" 45000]].

(** A response that is not [ok]. *)
Definition not_ok {A} : Completion (Api.Response A) :=
  Normal {| Api.response_ok := false; Api.response_json := Throw TypeError |}.

(** Filling the required fields of passenger [index]. *)
Definition passenger_events (index : nat) : list Event :=
  [PassengerInput index (PassengerForm.ChangeFirstName "Ada");
   PassengerInput index (PassengerForm.ChangeLastName "Lovelace");
   PassengerInput index (PassengerForm.ChangeDateOfBirth "1815-12-10");
   PassengerInput index (PassengerForm.ChangePassportNumber "X123")].

Definition contact_events : list Event :=
  [PassengerInput 0 (PassengerForm.ChangeEmail "ada@example.org");
   PassengerInput 0 (PassengerForm.ChangePhone "555")].

Definition payment_events : list Event :=
  [PaymentInput (PaymentForm.CardNumberInput "4111111111111111");
   PaymentInput (PaymentForm.FieldInput PaymentForm.CardHolder "ADA LOVELACE");
   PaymentInput (PaymentForm.FieldInput PaymentForm.ExpiryDate "12/30");
   PaymentInput (PaymentForm.FieldInput PaymentForm.Cvv "123");
   PaymentInput (PaymentForm.AddressInput PaymentForm.Street "1 Main St");
   PaymentInput (PaymentForm.AddressInput PaymentForm.City "London");
   PaymentInput (PaymentForm.AddressInput PaymentForm.State "LDN");
   PaymentInput (PaymentForm.AddressInput PaymentForm.ZipCode "N1");
   PaymentInput (PaymentForm.AddressInput PaymentForm.Country "UK")].

(** The draft that [payment_events] leave in the payment form. *)
Definition sample_payment : PaymentInfo :=
  {| PaymentInfo_cardNumber := "4111 1111 1111 1111";
     PaymentInfo_cardHolder := "ADA LOVELACE"; PaymentInfo_expiryDate := "12/30";
     PaymentInfo_cvv := "123";
     PaymentInfo_billingAddress :=
       {| BillingAddress_street := "1 Main St"; BillingAddress_city := "London";
          BillingAddress_state := "LDN"; BillingAddress_zipCode := "N1";
          BillingAddress_country := "UK" |} |}.

(** The passenger that [passenger_events 0] and [contact_events] leave in the
    passenger form. *)
Definition sample_passenger : Passenger :=
  {| Passenger_id := "passenger-1"; Passenger_title := Mr; Passenger_firstName := "Ada";
     Passenger_lastName := "Lovelace"; Passenger_dateOfBirth := "1815-12-10";
     Passenger_email := Some "ada@example.org"; Passenger_phone := Some "555";
     Passenger_passportNumber := Some "X123"; Passenger_nationality := Some "" |}.

(** The second passenger, as [passenger_events 1] leave it: the contact
    fields are those of the first passenger only. *)
Definition second_passenger : Passenger :=
  {| Passenger_id := "passenger-2"; Passenger_title := Mr; Passenger_firstName := "Ada";
     Passenger_lastName := "Lovelace"; Passenger_dateOfBirth := "1815-12-10";
     Passenger_email := None; Passenger_phone := None;
     Passenger_passportNumber := Some "X123"; Passenger_nationality := Some "" |}.

(** Two passengers book seats 12A and 12B of the first flight. *)
Definition seats_trace : list Event :=
  search_events 2 ++
  [FlightClick FlightCard.ButtonClick (sample_flight "SB1" 30000);
   SeatsLoaded [seat_of "SB1" 12 "A"; seat_of "SB1" 12 "B"; seat_of "SB1" 12 "C"];
   SeatClick (seat_of "SB1" 12 "A"); SeatClick (seat_of "SB1" 12 "B")].

Definition payment_trace : list Event :=
  seats_trace ++ [SeatsConfirm] ++ passenger_events 0 ++ contact_events ++
  passenger_events 1 ++ [PassengersSubmit] ++ payment_events.

(** The request that [payment_trace] followed by a submit sends. *)
Definition happy_request : BookingRequest :=
  {| request_flightId := "SB1"; request_passengers := [sample_passenger; second_passenger];
     request_seats := [seat_of "SB1" 12 "A"; seat_of "SB1" 12 "B"];
     request_payment := sample_payment |}.

Definition happy_trace : list Event :=
  payment_trace ++ [PaymentSubmit; BookingSucceeded (sample_booking "BK-1")].

(** As [happy_trace], with seat 12B clicked before seat 12A. *)
Definition reversed_trace : list Event :=
  search_events 2 ++
  [FlightClick FlightCard.ButtonClick (sample_flight "SB1" 30000);
   SeatsLoaded [seat_of "SB1" 12 "A"; seat_of "SB1" 12 "B"; seat_of "SB1" 12 "C"];
   SeatClick (seat_of "SB1" 12 "B"); SeatClick (seat_of "SB1" 12 "A"); SeatsConfirm] ++
  passenger_events 0 ++ contact_events ++ passenger_events 1 ++ [PassengersSubmit] ++
  payment_events ++ [PaymentSubmit; BookingSucceeded (sample_booking "BK-2")].

(** Two passengers have searched and picked the first flight; its seats
    are loaded and none is selected yet. *)
Definition seat_map_trace : list Event :=
  search_events 2 ++
  [FlightClick FlightCard.ButtonClick (sample_flight "SB1" 30000);
   SeatsLoaded [seat_of "SB1" 12 "A"; seat_of "SB1" 12 "B"; seat_of "SB1" 12 "C"]].

(** One passenger picks a seat of the first flight and goes back to the
    flight list ... *)
Definition flights_again_trace : list Event :=
  search_events 1 ++
  [FlightClick FlightCard.ButtonClick (sample_flight "SB1" 30000); SeatsLoaded [seat_of "SB1" 12 "A"];
   SeatClick (seat_of "SB1" 12 "A"); SeatsConfirm; BackToSeats; BackToFlights].

(** ... and picks the second flight. *)
Definition changed_flight_trace : list Event :=
  flights_again_trace ++
  [FlightClick FlightCard.ButtonClick (sample_flight "SB2" 45000); SeatsLoaded [seat_of "SB2" 1 "A"]].

(** ... then books without touching the seat map. *)
Definition stale_trace : list Event :=
  changed_flight_trace ++ [SeatsConfirm] ++ passenger_events 0 ++ contact_events ++
  [PassengersSubmit] ++ payment_events ++ [PaymentSubmit].

Definition stale_request : BookingRequest :=
  {| request_flightId := "SB2"; request_passengers := [sample_passenger];
     request_seats := [seat_of "SB1" 12 "A"]; request_payment := sample_payment |}.

(** ** The invariant of the reachable states *)

Definition past_flights (step : BookingStep) : bool :=
  match step with StepSearch | StepSelectFlight => false | _ => true end.

Definition past_seats (step : BookingStep) : bool :=
  match step with StepPassengerDetails | StepPayment | StepConfirmation => true | _ => false end.

Definition past_passengers (step : BookingStep) : bool :=
  match step with StepPayment | StepConfirmation => true | _ => false end.

(** A booking request agrees with the state it was sent from. *)
Definition request_of (s : State) (request : BookingRequest) : Prop :=
  Some (request_flightId request) = Flight_id <$> selectedFlight s ∧
  request_passengers request = passengers s ∧
  request_seats request = selectedSeats s ∧
  PaymentForm.formatted (request_payment request).

Record page_ok (s : State) : Prop := {
  (** a search is for 1 to 8 passengers *)
  ok_params : ∀ params, searchParams s = Some params → SearchForm.bounded params;
  (** past the search step, or with a search in flight, the parameters are stored *)
  ok_searched : currentStep s ≠ StepSearch ∨ is_Some (searchPending s) →
    is_Some (searchParams s);
  (** a search is in flight on the search step only *)
  ok_search_pending : is_Some (searchPending s) → currentStep s = StepSearch;
  (** past the flight list a flight is selected *)
  ok_flight : past_flights (currentStep s) = true → is_Some (selectedFlight s);
  (** past the seat map there is one seat per passenger *)
  ok_seats : past_seats (currentStep s) = true →
    passengerCount s = Some (len (selectedSeats s));
  (** past the passenger form there is one valid passenger record per passenger *)
  ok_passengers : past_passengers (currentStep s) = true →
    passengerCount s = Some (len (passengers s)) ∧
    PassengerForm.isFormValid (passengers s) = Normal true;
  (** a booking is in flight on the payment step only, and is for this state *)
  ok_booking_pending : ∀ request, bookingPending s = Some request →
    currentStep s = StepPayment ∧ request_of s request;
}.

(** The local state of the mounted view, relative to the controller's. *)
Definition child_ok (s : State) (c : Child) : Prop :=
  match c with
  | SearchFormState formData => SearchForm.bounded formData
  | SeatMapState selected =>
      SeatMap.selection_ok (passengerCount s ||? 1) selected ∧
      (selected = [] ∨ selected = selectedSeats s)
  | PassengerFormState drafts => PassengerForm.well_formed (passengerCount s ||? 1) drafts
  | PaymentFormState payment => PaymentForm.formatted payment
  | FlightList | Confirmation | Blank => True
  end.

Record consistent (a : App) : Prop := {
  consistent_page : page_ok (page a);
  consistent_mounted : mounted (page a) (child a) = true;
  consistent_child : child_ok (page a) (child a);
}.

(** ** Lemmas *)

Lemma is_Some_bool_decide {A} (o : option A) :
  bool_decide (is_Some o) = true ↔ is_Some o.
Proof. apply bool_decide_eq_true. Qed.

(** The passenger count that the views receive. *)
Lemma count_bounded (s : State) : page_ok s → 1 ≤ passengerCount s ||? 1 ≤ 8.
Proof.
  intros Hok. unfold passengerCount.
  destruct (searchParams s) as [params|] eqn:Hp; simpl; [|lia].
  apply (ok_params _ Hok) in Hp. unfold SearchForm.bounded in Hp.
  rewrite (proj2 (truthy_Z_spec _)) by lia. done.
Qed.

Lemma count_Some (s : State) (n : Z) : page_ok s → passengerCount s = Some n → 1 ≤ n ≤ 8.
Proof.
  unfold passengerCount. intros Hok Hn.
  destruct (searchParams s) as [params|] eqn:Hp; simplify_eq/=. by apply (ok_params _ Hok).
Qed.

Lemma count_searched (s : State) :
  page_ok s → currentStep s ≠ StepSearch → passengerCount s = Some (passengerCount s ||? 1).
Proof.
  intros Hok Hstep. destruct (ok_searched _ Hok (or_introl Hstep)) as [params Hp].
  unfold passengerCount. rewrite Hp. simpl.
  apply (ok_params _ Hok) in Hp. unfold SearchForm.bounded in Hp.
  by rewrite (proj2 (truthy_Z_spec _)) by lia.
Qed.


(** ** The controller's handlers preserve [page_ok] *)

(** Splits [page_ok] of the new state into its fields, with the fields of
    the old state as hypotheses. *)
Ltac page_ok :=
  intros;
  repeat match goal with
  | H : page_ok _ |- _ => destruct H
  | H : bool_decide (is_Some _) = true |- _ => apply is_Some_bool_decide in H
  end;
  split; simpl in *; intros;
  repeat match goal with
  | H : ∀ request, bookingPending _ = Some request → _, H' : bookingPending _ = Some _ |- _ =>
      destruct (H _ H') as [??]; clear H
  | H : currentStep ?s = _ |- _ => rewrite H in *; clear H
  | H : is_Some None |- _ => by apply is_Some_None in H
  end;
  simplify_eq/=;
  try by (eauto || intuition (eauto || congruence || by exfalso; eapply is_Some_None)).

Lemma page_ok_initial : page_ok initialState.
Proof. split; simpl; intros; simplify_eq; by intuition (eauto || congruence). Qed.

Lemma page_ok_handleSearch params s :
  page_ok s → currentStep s = StepSearch → SearchForm.bounded params →
  page_ok (handleSearch params s).
Proof. page_ok. Qed.

Lemma page_ok_searchMutation_onSuccess data s :
  page_ok s → searchMutation_isPending s = true → page_ok (searchMutation_onSuccess data s).
Proof. unfold searchMutation_isPending. page_ok. Qed.

Lemma page_ok_searchMutation_onError s : page_ok s → page_ok (searchMutation_onError s).
Proof. page_ok. Qed.

Lemma page_ok_handleFlightSelect flight s :
  page_ok s → currentStep s = StepSelectFlight → page_ok (handleFlightSelect flight s).
Proof. page_ok. Qed.

Lemma page_ok_seatsQuery_onData data s : page_ok s → page_ok (seatsQuery_onData data s).
Proof. unfold seatsQuery_onData. destruct (selectedFlight s) eqn:?; page_ok. Qed.

Lemma page_ok_setSelectedSeats seats s :
  page_ok s → currentStep s = StepSelectSeats → page_ok (setSelectedSeats seats s).
Proof. page_ok. Qed.

Lemma page_ok_backToFlights s :
  page_ok s → currentStep s = StepSelectSeats → page_ok (backToFlights s).
Proof. page_ok. Qed.

Lemma page_ok_handleSeatsConfirm s :
  page_ok s → currentStep s = StepSelectSeats → page_ok (handleSeatsConfirm s).1.
Proof.
  unfold handleSeatsConfirm, seatsComplete. case_bool_decide; [|done]. page_ok.
Qed.

Lemma page_ok_handlePassengersSubmit drafts s :
  page_ok s → currentStep s = StepPassengerDetails →
  passengerCount s = Some (len drafts) → PassengerForm.isFormValid drafts = Normal true →
  page_ok (handlePassengersSubmit drafts s).
Proof. page_ok. Qed.

Lemma page_ok_backToSeats s :
  page_ok s → currentStep s = StepPassengerDetails → page_ok (backToSeats s).
Proof. page_ok. Qed.

Lemma page_ok_handlePaymentSubmit payment s :
  page_ok s → currentStep s = StepPayment → PaymentForm.formatted payment →
  page_ok (handlePaymentSubmit payment s).
Proof.
  unfold handlePaymentSubmit. intros. destruct (selectedFlight s) eqn:?; [|done].
  case_match; [|done]. page_ok. unfold request_of. simpl. by rewrite Heqo.
Qed.

Lemma page_ok_backToPassengers s :
  page_ok s → currentStep s = StepPayment → bookingMutation_isPending s = false →
  page_ok (backToPassengers s).
Proof.
  unfold bookingMutation_isPending. intros ?? Hp%bool_decide_eq_false.
  page_ok. destruct Hp. by eexists.
Qed.

Lemma page_ok_bookingMutation_onSuccess data s :
  page_ok s → bookingMutation_isPending s = true → page_ok (bookingMutation_onSuccess data s).
Proof.
  unfold bookingMutation_isPending. intros Hok [request Hr]%is_Some_bool_decide.
  destruct (ok_booking_pending _ Hok _ Hr) as [Hstep _]. page_ok.
Qed.

Lemma page_ok_bookingMutation_onError s : page_ok s → page_ok (bookingMutation_onError s).
Proof. page_ok. Qed.

Lemma page_ok_bookAnother s :
  page_ok s → currentStep s = StepConfirmation → page_ok (bookAnother s).
Proof. page_ok. Qed.

Lemma page_ok_onPriceUpdate update s : page_ok s → page_ok (onPriceUpdate update s).
Proof. page_ok. Qed.

Create HintDb flow.

#[local] Hint Resolve page_ok_handleSearch page_ok_searchMutation_onSuccess
  page_ok_searchMutation_onError page_ok_handleFlightSelect page_ok_seatsQuery_onData
  page_ok_setSelectedSeats page_ok_backToFlights page_ok_handleSeatsConfirm
  page_ok_handlePassengersSubmit page_ok_backToSeats page_ok_handlePaymentSubmit
  page_ok_backToPassengers page_ok_bookingMutation_onSuccess page_ok_bookingMutation_onError
  page_ok_bookAnother page_ok_onPriceUpdate : flow.

(** What [render] tells about the state. *)
Lemma render_inv (s : State) :
  match render s with
  | RenderSearch isLoading =>
      currentStep s = StepSearch ∧ isLoading = searchMutation_isPending s
  | RenderFlights _ cards => currentStep s = StepSelectFlight ∧ cards = flights s
  | RenderSeats _ seats maxSelections continueDisabled =>
      currentStep s = StepSelectSeats ∧ seats = availableSeats s ∧
      maxSelections = passengerCount s ||? 1 ∧ continueDisabled = negb (seatsComplete s)
  | RenderPassengers count =>
      currentStep s = StepPassengerDetails ∧ count = passengerCount s ||? 1
  | RenderPayment totalAmount _ isProcessing =>
      currentStep s = StepPayment ∧ totalAmount = calculateTotal s ∧
      isProcessing = bookingMutation_isPending s
  | RenderConfirmation _ _ _ _ _ => currentStep s = StepConfirmation
  | RenderNothing => past_flights (currentStep s) = true ∧ selectedFlight s = None
  end.
Proof. unfold render. by destruct (currentStep s), (selectedFlight s). Qed.

(** ** Mounting *)

Lemma mounted_mount (s : State) : mounted s (mount s) = true.
Proof. unfold mounted, mount. by destruct (render s). Qed.

Lemma child_ok_mount (s : State) : page_ok s → child_ok s (mount s).
Proof.
  intros Hok. pose proof (render_inv s) as Hr. pose proof (count_bounded s Hok).
  unfold mount. destruct (render s); simpl in Hr |- *; destruct_and?; subst; try done.
  - split; [apply SeatMap.selection_ok_initial; lia|by left].
  - apply PassengerForm.initialPassengers_well_formed.
Qed.

(** Whether a child is mounted depends on the step, on the selected flight
    and on which view the child is. *)
Lemma mounted_ext (s s' : State) (c : Child) :
  currentStep s' = currentStep s → selectedFlight s' = selectedFlight s →
  mounted s' c = mounted s c.
Proof. unfold mounted, render. intros -> ->. by destruct (currentStep s), (selectedFlight s). Qed.

Lemma mounted_same_view (s : State) (c c' : Child) :
  same_view c c' = true → mounted s c' = mounted s c.
Proof. unfold mounted. by destruct (render s), c, c'. Qed.

(** The step on which a view is mounted. *)
Lemma mounted_step (s : State) (c : Child) :
  mounted s c = true →
  match c with
  | SearchFormState _ => currentStep s = StepSearch
  | FlightList => currentStep s = StepSelectFlight
  | SeatMapState _ => currentStep s = StepSelectSeats
  | PassengerFormState _ => currentStep s = StepPassengerDetails
  | PaymentFormState _ => currentStep s = StepPayment
  | Confirmation => currentStep s = StepConfirmation
  | Blank => past_flights (currentStep s) = true ∧ selectedFlight s = None
  end.
Proof.
  unfold mounted. pose proof (render_inv s) as Hr.
  destruct (render s), c; simpl in Hr; by intuition.
Qed.

(** The local state of a view depends on the controller's state through the
    passenger count and the selected seats only. *)
Lemma child_ok_ext (s s' : State) (c : Child) :
  passengerCount s' = passengerCount s → selectedSeats s' = selectedSeats s →
  child_ok s c → child_ok s' c.
Proof. intros Hn Hs. destruct c; simpl; by rewrite ?Hn, ?Hs. Qed.

Lemma remount_consistent (s : State) (c : Child) :
  page_ok s → child_ok s c → consistent (remount s c).
Proof.
  intros Hpage Hc. split; simpl; [done| |];
    destruct (mounted s c) eqn:Hm; auto using mounted_mount, child_ok_mount.
Qed.

(** ** Every event preserves the invariant *)

(** An event that changes the local state of the mounted view only. *)
Lemma local_consistent (s : State) (c c' : Child) :
  consistent {| page := s; child := c |} → same_view c c' = true → child_ok s c' →
  consistent {| page := s; child := c' |}.
Proof.
  intros [Hpage Hm Hc] Hview Hc'. split; simpl in *; [done| |done].
  by rewrite (mounted_same_view s c c').
Qed.

Section invariant.
Context `{!Collator}.

Lemma seatClick_consistent (s : State) (selected : list Seat) (seat : Seat) :
  consistent {| page := s; child := SeatMapState selected |} →
  consistent (seatClick seat (passengerCount s ||? 1) selected s).
Proof.
  intros [Hpage Hm [Hsel Hsync]]. simpl in *.
  pose proof (mounted_step _ _ Hm) as Hstep. simpl in Hstep.
  pose proof (SeatMap.handleSeatClick_preserves_ok _ _ seat Hsel) as Hsel'.
  unfold seatClick.
  destruct (SeatMap.handleSeatClick_cases (passengerCount s ||? 1) selected seat)
    as [(_ & Hn & _ & ->)|[(_ & _ & Hn & _ & ->)|[(_ & _ & _ & Hn & _ & ->)|(_ & _ & _ & Hn & _ & ->)]]].
  all: split; simpl; auto with flow.
  all: try by rewrite (mounted_same_view _ (SeatMapState selected)), ?(mounted_ext s).
  all: by rewrite Hn.
Qed.

(** The passenger form holds one draft per searched passenger. *)
Lemma drafts_count (s : State) (drafts : list Passenger) :
  page_ok s → currentStep s = StepPassengerDetails →
  PassengerForm.well_formed (passengerCount s ||? 1) drafts →
  passengerCount s = Some (len drafts).
Proof.
  intros Hpage Hstep [Hlen _]. rewrite count_searched by (done || congruence).
  pose proof (count_bounded s Hpage). unfold len. f_equal. lia.
Qed.

(** A change of the controller's state that keeps the step and the flight
    keeps the mounted view. *)
Lemma remount_same (s s' : State) (c : Child) :
  mounted s c = true → currentStep s' = currentStep s →
  selectedFlight s' = selectedFlight s → remount s' c = {| page := s'; child := c |}.
Proof. intros Hm Hstep Hflight. unfold remount. by rewrite (mounted_ext s), Hm. Qed.

(** A click on a card selects its flight. *)
Lemma flightClick_eq (click : FlightCard.Click) (flight : Flight) (s : State) :
  flightClick click flight s = handleFlightSelect flight s.
Proof. by destruct click. Qed.

(** An event that leaves the passenger count and the selected seats alone. *)
Lemma remount_keep (s s' : State) (c : Child) :
  child_ok s c → page_ok s' →
  passengerCount s' = passengerCount s → selectedSeats s' = selectedSeats s →
  consistent (remount s' c).
Proof. eauto using remount_consistent, child_ok_ext. Qed.

Lemma step_consistent (a : App) (e : Event) (a' : App) :
  consistent a → next a e = Some a' → consistent a'.
Proof.
  destruct a as [s c]. intros Ha Hnext.
  pose proof (consistent_page _ Ha) as Hpage. pose proof (consistent_child _ Ha) as Hc.
  unfold next in Hnext. simpl in *.
  destruct e; simpl in Hnext;
    try match type of Hnext with
        | context [render s] =>
            pose proof (render_inv s) as Hr;
            destruct (render s) eqn:Hrender; try done; destruct c; try done;
            simpl in Hr; destruct_and?
        end;
    repeat case_match; simplify_option_eq; rewrite ?flightClick_eq; try done.
  all: try by (eapply remount_keep; eauto with flow).
  all: try by (eapply local_consistent; [done..|]; simpl;
    eauto using SearchForm.input_bounded, PassengerForm.input_well_formed,
      PaymentForm.input_formatted).
  - eapply remount_keep; eauto with flow; unfold seatsQuery_onData; by case_match.
  - by apply seatClick_consistent.
  - eapply remount_keep; eauto with flow; unfold handleSeatsConfirm; by case_match.
  - apply remount_consistent; [|done].
    eauto using drafts_count, PassengerForm.submit_enabled with flow.
Qed.

Lemma consistent_inductive : inductive initialApp next consistent.
Proof.
  split; [apply remount_consistent; [apply page_ok_initial|done]|].
  intros a e a' _. apply step_consistent.
Qed.

Lemma reachable_consistent (a : App) : reachable initialApp next a → consistent a.
Proof. apply inductive_invariant, consistent_inductive. Qed.

(** ** The controller's seats *)

(** Only a click on a seat and "Book Another Flight" change the seats that
    the controller holds. *)
Lemma selectedSeats_frame (a : App) (e : Event) (a' : App) :
  next a e = Some a' → (∀ seat, e ≠ SeatClick seat) → e ≠ BookAnother →
  selectedSeats (page a') = selectedSeats (page a).
Proof.
  destruct a as [s c]. intros Hnext Hclick Hanother.
  unfold next in Hnext. simpl in *.
  destruct e; try done; simpl in Hnext; repeat case_match; simplify_option_eq;
    rewrite ?flightClick_eq; try done.
  - unfold seatsQuery_onData. by case_match.
  - by edestruct Hclick.
  - unfold handleSeatsConfirm. by case_match.
  - unfold handlePaymentSubmit. by repeat case_match.
Qed.

(** A click on a free seat of the map that is not selected, while there is
    room: the seat map appends it and reports the new selection. *)
Lemma seatClick_appends (a : App) (selected : list Seat) (seat : Seat) :
  consistent a → child a = SeatMapState selected →
  seat ∈ availableSeats (page a) → Seat_status seat ≠ Occupied →
  Seat_id seat ∉ Seat_id <$> selected → len selected < (passengerCount (page a) ||? 1) →
  next a (SeatClick seat) =
    Some {| page := setSelectedSeats (selected ++ [seat]) (page a);
            child := SeatMapState (selected ++ [seat]) |}.
Proof.
  intros [Hpage Hm _] Hchild Hin Hfree Hnew Hroom. destruct a as [s c]. simpl in *. subst c.
  pose proof (mounted_step _ _ Hm) as Hstep. simpl in Hstep.
  destruct (ok_flight _ Hpage) as [flight Hflight]; [by rewrite Hstep|].
  unfold next, render. simpl. rewrite Hstep, Hflight.
  rewrite decide_True by by apply SeatMap.clickable_spec.
  unfold seatClick.
  by rewrite SeatMap.handleSeatClick_select by (done || by apply SeatMap.isSelected_false).
Qed.

Lemma seatClicks_run (a : App) (selected clicks : list Seat) :
  consistent a → child a = SeatMapState selected →
  NoDup (Seat_id <$> selected ++ clicks) →
  Forall (λ seat, seat ∈ availableSeats (page a) ∧ Seat_status seat ≠ Occupied) clicks →
  len (selected ++ clicks) ≤ (passengerCount (page a) ||? 1) →
  ∃ a', run next a (SeatClick <$> clicks) = Some a' ∧
    child a' = SeatMapState (selected ++ clicks) ∧
    page a' = match clicks with
              | [] => page a
              | _ => setSelectedSeats (selected ++ clicks) (page a)
              end.
Proof.
  revert a selected.
  induction clicks as [|seat clicks IH]; intros a selected Ha Hchild Hnd Hclicks Hroom.
  { exists a. by rewrite app_nil_r. }
  apply Forall_cons in Hclicks as [[Hin Hfree] Hclicks].
  destruct (SeatMap.first_click_fits _ _ _ _ Hnd Hroom) as [Hnew Hlt].
  rewrite (cons_middle seat selected clicks), (assoc_L (++)) in Hnd, Hroom |- *.
  pose proof (seatClick_appends a selected seat Ha Hchild Hin Hfree Hnew Hlt) as Hnext.
  destruct (IH _ (selected ++ [seat]) (step_consistent _ _ _ Ha Hnext)) as (a' & Hrun & Hc & Hp);
    [done..|].
  exists a'. rewrite fmap_cons. cbn [run]. rewrite Hnext. split_and!; [done..|].
  rewrite Hp. destruct clicks; [by rewrite app_nil_r|done].
Qed.

(** ** Theorems *)

(** C1. A booking request in flight is for the selected flight and carries
    one seat and one passenger record per searched passenger, 1 to 8 of
    them; the passenger records passed the form's validation and the card
    number is as [formatCardNumber] leaves it. *)
Theorem booking_request_complete (a : App) (request : BookingRequest) :
  reachable initialApp next a → bookingPending (page a) = Some request →
  ∃ flight n, selectedFlight (page a) = Some flight ∧
    request_flightId request = Flight_id flight ∧
    passengerCount (page a) = Some n ∧ 1 ≤ n ≤ 8 ∧
    len (request_passengers request) = n ∧ len (request_seats request) = n ∧
    PassengerForm.isFormValid (request_passengers request) = Normal true ∧
    PaymentForm.formatted (request_payment request).
Proof.
  intros [Hpage _ _]%reachable_consistent Hr.
  destruct (ok_booking_pending _ Hpage _ Hr) as (Hstep & Hid & -> & -> & Hfmt).
  destruct (selectedFlight (page a)) as [flight|]; simplify_eq/=.
  destruct (ok_passengers _ Hpage) as [Hn Hvalid]; [by rewrite Hstep|].
  pose proof (ok_seats _ Hpage) as Hseats. rewrite Hstep, Hn in Hseats.
  pose proof (count_Some _ _ Hpage Hn). specialize (Hseats eq_refl).
  exists flight, (len (passengers (page a))). split_and!; (done || lia || congruence).
Qed.

(** C2. In every reachable state the controller's draft is well formed
    ([page_ok]): the stored search is for 1 to 8 passengers; from the seat
    map on a flight is selected; past the seat map there is one seat per
    passenger; past the passenger form there is one valid passenger record
    per passenger; a search is in flight on the search step only and a
    booking on the payment step only. *)
Theorem draft_invariant : invariant initialApp next (λ a, page_ok (page a)).
Proof. intros a Ha. by apply reachable_consistent. Qed.

(** A click on a seat leaves the step alone. *)
Lemma seatClick_step seat maxSelections selected (s : State) :
  currentStep (page (seatClick seat maxSelections selected s)) = currentStep s.
Proof. unfold seatClick. simpl. by case_match. Qed.

(** C3. The step changes along the edges of the wizard only: forward by one
    step, back by one step from the seat map, the passenger form and the
    payment form, and from the confirmation to the search. *)
Theorem step_edge (a : App) (e : Event) (a' : App) :
  reachable initialApp next a → next a e = Some a' →
  currentStep (page a') = currentStep (page a) ∨
  edge (currentStep (page a)) (currentStep (page a')) = true.
Proof.
  intros [Hpage _ _]%reachable_consistent Hnext. destruct a as [s c].
  unfold next in Hnext. simpl in *.
  destruct e; simpl in Hnext;
    try match type of Hnext with
        | context [render s] =>
            pose proof (render_inv s) as Hr;
            destruct (render s) eqn:Hrender; try done; destruct c; try done;
            simpl in Hr; destruct_and?
        end;
    repeat case_match; simplify_option_eq;
    rewrite ?flightClick_eq, ?handleSeatsConfirm_step, ?handlePaymentSubmit_step,
      ?seatsQuery_onData_step, ?seatClick_step;
    repeat match goal with
    | H : currentStep _ = _ |- _ => rewrite H
    | H : searchMutation_isPending _ = true |- _ =>
        apply is_Some_bool_decide, (ok_search_pending _ Hpage) in H
    | H : bookingMutation_isPending _ = true |- _ =>
        apply is_Some_bool_decide in H as [? [? _]%(ok_booking_pending _ Hpage)]
    end; first [by (left + right)|by case_match; (left + right)].
Qed.

(** C4. The page never goes blank and no view throws while rendering: the
    mounted view is the one of the current step, and the passenger form
    always has a first passenger to validate. *)
Theorem views_render (a : App) :
  reachable initialApp next a →
  render (page a) ≠ RenderNothing ∧ mounted (page a) (child a) = true ∧
  ∀ drafts, child a = PassengerFormState drafts →
    ∃ view, PassengerForm.render drafts = Normal view.
Proof.
  intros [Hpage Hm Hc]%reachable_consistent. split_and!; [|done|].
  - intros Hr. pose proof (render_inv (page a)) as Hinv. rewrite Hr in Hinv.
    destruct Hinv as [Hflight%(ok_flight _ Hpage) Hnone]. rewrite Hnone in Hflight.
    by apply is_Some_None in Hflight.
  - intros drafts Hd. rewrite Hd in Hc. simpl in Hc.
    eapply PassengerForm.well_formed_render; [|done]. apply count_bounded, Hpage.
Qed.

(** C20. The selection that the seat map shows holds at most as many seats as
    there are passengers, no seat twice and no occupied seat; it is the
    controller's selection, unless the seat map has just been mounted and
    shows none. *)
Theorem seat_map_sync (a : App) (selected : list Seat) :
  reachable initialApp next a → child a = SeatMapState selected →
  SeatMap.selection_ok (passengerCount (page a) ||? 1) selected ∧
  (selected = [] ∨ selected = selectedSeats (page a)).
Proof. intros [_ _ Hc]%reachable_consistent Hs. by rewrite Hs in Hc. Qed.

(** C12. Selecting a flight keeps the seats that the controller holds,
    whichever flight they were chosen for: [handleFlightSelect] sets the
    flight and the step and nothing else.  The seat map is mounted afresh
    and shows no seat selected, while "Continue" is enabled exactly when the
    seats kept are as many as the passengers; it then leads to the
    passenger form for the new flight with the seats of the earlier
    choice, without a click on the seat map. *)
Theorem flight_select_keeps_seats (a : App) (click : FlightCard.Click) (flight : Flight)
    (a' : App) :
  reachable initialApp next a → next a (FlightClick click flight) = Some a' →
  page a' = handleFlightSelect flight (page a) ∧
  selectedSeats (page a') = selectedSeats (page a) ∧
  child a' = SeatMapState [] ∧
  (is_Some (next a' SeatsConfirm) ↔
     passengerCount (page a) = Some (len (selectedSeats (page a)))) ∧
  ∀ a'', next a' SeatsConfirm = Some a'' →
    currentStep (page a'') = StepPassengerDetails ∧
    selectedFlight (page a'') = Some flight ∧
    selectedSeats (page a'') = selectedSeats (page a).
Proof.
  intros [Hpage Hm _]%reachable_consistent Hnext. destruct a as [s c].
  unfold next in Hnext. simpl in *.
  destruct (render s) eqn:Hr, c; try done. case_decide; [|done].
  rewrite flightClick_eq in Hnext. injection Hnext as <-.
  unfold next, remount, mounted, mount, render, handleSeatsConfirm, seatsComplete. simpl.
  split_and!; [done..| |]; case_bool_decide; simpl; try done.
  by intros a'' [= <-].
Qed.

(** C28. The seats are kept in the order in which they are clicked, never
    sorted.  On the seat map, clicks on seats of the map that are free and
    not selected yet can all occur as long as there is room, and they leave
    the seat map and the controller with the old selection followed by the
    clicked seats in the order of the clicks; nothing else changes.  This
    is the order in which the confirmation lists them. *)
Theorem seats_in_click_order (a : App) (selected clicks : list Seat) :
  reachable initialApp next a → child a = SeatMapState selected → clicks ≠ [] →
  NoDup (Seat_id <$> selected ++ clicks) →
  Forall (λ seat, seat ∈ availableSeats (page a) ∧ Seat_status seat ≠ Occupied) clicks →
  len (selected ++ clicks) ≤ (passengerCount (page a) ||? 1) →
  ∃ a', run next a (SeatClick <$> clicks) = Some a' ∧
    child a' = SeatMapState (selected ++ clicks) ∧
    page a' = setSelectedSeats (selected ++ clicks) (page a).
Proof.
  intros Ha%reachable_consistent Hchild Hne Hnd Hclicks Hroom.
  destruct (seatClicks_run a selected clicks) as (a' & Hrun & Hc & Hp); [done..|].
  exists a'. by destruct clicks.
Qed.

(** C26. A price update can arrive in every state; it changes the flight list
    and nothing else: the mounted view keeps its local state and the total
    of the booking in progress stays as it is. *)
Theorem price_update_keeps_view (a : App) (update : PriceUpdate) :
  reachable initialApp next a →
  next a (PriceUpdated update) =
    Some {| page := onPriceUpdate update (page a); child := child a |} ∧
  calculateTotal (onPriceUpdate update (page a)) = calculateTotal (page a).
Proof.
  intros [_ Hm _]%reachable_consistent. split; [|done].
  unfold next. simpl. by rewrite (remount_same (page a)).
Qed.

(** C21. On the payment step, with the form filled and no booking in flight,
    submitting always sends a request, built from the selected flight, the
    stored passengers and seats and the form's payment data: the branch of
    [handlePaymentSubmit] that does nothing is never taken. *)
Theorem payment_submit_sends (a : App) (payment : PaymentInfo) :
  reachable initialApp next a → child a = PaymentFormState payment →
  PaymentForm.requiredFilled payment = true → bookingMutation_isPending (page a) = false →
  ∃ a' flight, next a PaymentSubmit = Some a' ∧ selectedFlight (page a) = Some flight ∧
    child a' = child a ∧
    bookingPending (page a') =
      Some {| request_flightId := Flight_id flight; request_passengers := passengers (page a);
              request_seats := selectedSeats (page a); request_payment := payment |}.
Proof.
  intros [Hpage Hm Hc]%reachable_consistent Hchild Hfilled Hidle.
  destruct a as [s c]. simpl in *. subst c.
  pose proof (mounted_step _ _ Hm) as Hstep. simpl in Hstep.
  destruct (ok_flight _ Hpage) as [flight Hflight]; [by rewrite Hstep|].
  destruct (ok_passengers _ Hpage) as [Hn _]; [by rewrite Hstep|].
  pose proof (ok_seats _ Hpage) as Hseats. rewrite Hstep in Hseats.
  pose proof (count_Some _ _ Hpage Hn). pose proof (count_Some _ _ Hpage (Hseats eq_refl)).
  unfold next, render. simpl. rewrite Hstep, Hflight, Hidle, Hfilled.
  rewrite (handlePaymentSubmit_sends _ _ flight) by (done || lia).
  rewrite (remount_same s) by done. by eexists _, flight.
Qed.

(** C23. A search that succeeds leads from the search step to the flight list,
    and the list shown is the response. *)
Theorem search_success_shows_flights (a : App) (data : list Flight) (a' : App) :
  reachable initialApp next a → next a (SearchSucceeded data) = Some a' →
  currentStep (page a) = StepSearch ∧
  render (page a') =
    RenderFlights (num_to_string (len data) +:+ " flights found") data ∧
  child a' = FlightList.
Proof.
  intros [Hpage Hm _]%reachable_consistent Hnext. destruct a as [s c].
  unfold next in Hnext. simpl in *. case_match eqn:Hp; simplify_eq.
  apply is_Some_bool_decide, (ok_search_pending _ Hpage) in Hp.
  apply mounted_step in Hm as Hc. unfold mounted in Hm.
  unfold remount, mounted, mount, render in *. simpl. rewrite Hp in *.
  by destruct c.
Qed.

(** C24. On the seat map "Continue" is enabled exactly when the controller
    holds one seat per searched passenger; it leads to the passenger form,
    mounted with one blank draft per passenger. *)
Theorem seats_confirm_enabled (a : App) (selected : list Seat) :
  reachable initialApp next a → child a = SeatMapState selected →
  (is_Some (next a SeatsConfirm) ↔
     passengerCount (page a) = Some (len (selectedSeats (page a)))) ∧
  ∀ a', next a SeatsConfirm = Some a' →
    page a' = setCurrentStep StepPassengerDetails (page a) ∧
    child a' = PassengerFormState
                 (PassengerForm.initialPassengers (len (selectedSeats (page a)))).
Proof.
  intros [Hpage Hm Hc]%reachable_consistent Hchild.
  destruct a as [s c]. simpl in *. subst c.
  pose proof (mounted_step _ _ Hm) as Hstep. simpl in Hstep.
  destruct (ok_flight _ Hpage) as [flight Hflight]; [by rewrite Hstep|].
  unfold next, render, handleSeatsConfirm. simpl. rewrite Hstep, Hflight.
  unfold seatsComplete. case_bool_decide as Hn; simpl.
  - split; [done|]. intros a' [= <-]. split; [done|].
    unfold remount, mounted, mount, render. simpl. do 2 f_equal.
    change (passengerCount (setCurrentStep _ s)) with (passengerCount s). rewrite Hn.
    apply js_or_Some_truthy, truthy_Z_spec. pose proof (count_Some _ _ Hpage Hn). lia.
  - split; [|done]. split; [by intros []%is_Some_None|done].
Qed.

(** C25. On the passenger form "Continue to Payment" is enabled exactly when
    every draft has its required fields and the first one its contact
    fields; it stores the drafts in the controller and leads to the payment
    form, mounted blank. *)
Theorem passengers_submit_enabled (a : App) (drafts : list Passenger) :
  reachable initialApp next a → child a = PassengerFormState drafts →
  (is_Some (next a PassengersSubmit) ↔ PassengerForm.isFormValid drafts = Normal true) ∧
  ∀ a', next a PassengersSubmit = Some a' →
    page a' = setCurrentStep StepPayment (setPassengers drafts (page a)) ∧
    child a' = PaymentFormState PaymentForm.initialPayment.
Proof.
  intros [Hpage Hm Hc]%reachable_consistent Hchild.
  destruct a as [s c]. simpl in *. subst c.
  pose proof (mounted_step _ _ Hm) as Hstep. simpl in Hstep.
  destruct (ok_flight _ Hpage) as [flight Hflight]; [by rewrite Hstep|].
  unfold next, render, PassengerForm.render. simpl. rewrite Hstep.
  destruct (PassengerForm.isFormValid drafts) as [[]|e]; simpl.
  - split; [done|]. intros a' [= <-]. split; [done|].
    unfold remount, mounted, mount, render. simpl. by rewrite Hflight.
  - split; [|done]. split; [by intros []%is_Some_None|done].
  - split; [|done]. split; [by intros []%is_Some_None|done].
Qed.

(** C27. "Book Another Flight" is offered on the confirmation only; it leads
    to a blank search form that is not loading, with the flight, the seats,
    the passengers and the flight list cleared, while the last search and the
    booking id stay in the controller. *)
Theorem book_another_restarts (a a' : App) :
  reachable initialApp next a → next a BookAnother = Some a' →
  currentStep (page a) = StepConfirmation ∧
  a' = {| page := bookAnother (page a); child := SearchFormState SearchForm.initialFormData |} ∧
  render (page a') = RenderSearch false ∧
  (selectedFlight (page a'), selectedSeats (page a'), passengers (page a'), flights (page a'))
    = (None, [], [], []) ∧
  (searchParams (page a'), bookingId (page a')) = (searchParams (page a), bookingId (page a)).
Proof.
  intros [Hpage Hm Hc]%reachable_consistent Hnext. destruct a as [s c].
  unfold next in Hnext. simpl in *. pose proof (render_inv s) as Hr.
  destruct (render s), c; try done. simplify_eq.
  assert (searchMutation_isPending (bookAnother s) = false) as Hidle.
  { apply bool_decide_eq_false. intros Hp%(ok_search_pending _ Hpage). congruence. }
  unfold remount, mounted, mount, render. simpl. by rewrite Hidle.
Qed.

(** An outcome of the gateway that is a failure is the failure event. *)
Lemma searchOutcome_failed (result : Completion (list Flight)) :
  completes result = false → searchOutcome result = SearchFailed.
Proof. by destruct result. Qed.

Lemma bookingOutcome_failed (result : Completion Booking) :
  completes result = false → bookingOutcome result = BookingFailed.
Proof. by destruct result. Qed.

(** A search that fails (the request is rejected, the response is not
    [ok] or its body does not parse) leaves the page as it was before the
    submit: the search form with its draft, enabled again, and no message. *)
Theorem failed_search_shows_nothing (a a1 a2 : App)
    (fetched : Completion (Api.Response (list Flight))) :
  reachable initialApp next a → next a SearchSubmit = Some a1 →
  completes (Api.searchFlights fetched) = false →
  next a1 (searchOutcome (Api.searchFlights fetched)) = Some a2 →
  render (page a2) = render (page a) ∧ child a2 = child a ∧
  flights (page a2) = flights (page a).
Proof.
  intros [_ Hm _]%reachable_consistent Hsubmit Hfailed%searchOutcome_failed Hnext.
  rewrite Hfailed in Hnext. destruct a as [s c]. unfold next in Hsubmit. simpl in *.
  pose proof (render_inv s) as Hr.
  destruct (render s) as [[]| | | | | |] eqn:Hrender, c; try done.
  destruct Hr as [Hstep _]. destruct (SearchForm.requiredFilled formData); simplify_eq.
  rewrite (remount_same s) in Hnext by done. unfold next in Hnext. simpl in Hnext.
  rewrite (remount_same s) in Hnext by done. simplify_eq. simpl. split; [|done].
  unfold render in *. simpl. by rewrite Hstep in *.
Qed.

(** C22. A booking that fails leaves the whole application as it was before
    the submit: the payment form with its draft, enabled again, and no
    message. *)
Theorem failed_booking_shows_nothing (a a1 a2 : App)
    (fetched : Completion (Api.Response Booking)) :
  reachable initialApp next a → next a PaymentSubmit = Some a1 →
  completes (Api.createBooking fetched) = false →
  next a1 (bookingOutcome (Api.createBooking fetched)) = Some a2 →
  a2 = a.
Proof.
  intros [_ Hm _]%reachable_consistent Hsubmit Hfailed%bookingOutcome_failed Hnext.
  rewrite Hfailed in Hnext. destruct a as [s c]. unfold next in Hsubmit. simpl in *.
  pose proof (render_inv s) as Hr.
  destruct (render s) as [| | | |? ? []| |] eqn:Hrender, c; try done.
  destruct Hr as (Hstep & _ & Hidle). symmetry in Hidle.
  apply bool_decide_eq_false in Hidle.
  assert (bookingPending s = None) as Hnone by by apply eq_None_not_Some.
  destruct (PaymentForm.requiredFilled payment); simplify_eq.
  rewrite (remount_same s) in Hnext by (done || apply handlePaymentSubmit_step ||
                                        by unfold handlePaymentSubmit; repeat case_match).
  unfold next in Hnext. simpl in Hnext. case_match eqn:Hpending; simplify_eq.
  rewrite handlePaymentSubmit_undone by done. by apply (remount_same s).
Qed.

End invariant.

(** ** Worked examples *)

(** Discharges [reachable] and the equations of a worked example. *)
Ltac example := try apply after_reachable; by vm_compute; eauto.

Lemma booking_request_complete_witness :
  let a := state_after (payment_trace ++ [PaymentSubmit]) in
  ∃ flight n, selectedFlight (page a) = Some flight ∧
    request_flightId happy_request = Flight_id flight ∧
    passengerCount (page a) = Some n ∧ 1 ≤ n ≤ 8 ∧
    len (request_passengers happy_request) = n ∧ len (request_seats happy_request) = n ∧
    PassengerForm.isFormValid (request_passengers happy_request) = Normal true ∧
    PaymentForm.formatted (request_payment happy_request).
Proof. intros a. apply (booking_request_complete a happy_request); example. Defined.

Lemma draft_invariant_witness : page_ok (page (state_after payment_trace)).
Proof. apply (draft_invariant (state_after payment_trace)); example. Defined.

Lemma step_edge_witness :
  let a := state_after seats_trace in
  let a' := state_after (seats_trace ++ [SeatsConfirm]) in
  currentStep (page a') = currentStep (page a) ∨
  edge (currentStep (page a)) (currentStep (page a')) = true.
Proof. intros a a'. apply (step_edge a SeatsConfirm a'); example. Defined.

Lemma views_render_witness :
  let a := state_after (seats_trace ++ [SeatsConfirm]) in
  render (page a) ≠ RenderNothing ∧ mounted (page a) (child a) = true ∧
  ∀ drafts, child a = PassengerFormState drafts →
    ∃ view, PassengerForm.render drafts = Normal view.
Proof. intros a. apply (views_render a); example. Defined.

Lemma seat_map_sync_witness :
  let a := state_after seats_trace in
  let selected := [seat_of "SB1" 12 "A"; seat_of "SB1" 12 "B"] in
  SeatMap.selection_ok (passengerCount (page a) ||? 1) selected ∧
  (selected = [] ∨ selected = selectedSeats (page a)).
Proof. intros a selected. apply (seat_map_sync a selected); example. Defined.

Lemma price_update_keeps_view_witness :
  let a := state_after seats_trace in
  let update := {| PriceUpdate_flightId := "SB2"; PriceUpdate_newPrice := 47000;
                   PriceUpdate_timestamp := "" |} in
  next a (PriceUpdated update) =
    Some {| page := onPriceUpdate update (page a); child := child a |} ∧
  calculateTotal (onPriceUpdate update (page a)) = calculateTotal (page a).
Proof. intros a update. apply (price_update_keeps_view a update); example. Defined.

Lemma payment_submit_sends_witness :
  let a := state_after payment_trace in
  ∃ a' flight, next a PaymentSubmit = Some a' ∧ selectedFlight (page a) = Some flight ∧
    child a' = child a ∧
    bookingPending (page a') =
      Some {| request_flightId := Flight_id flight; request_passengers := passengers (page a);
              request_seats := selectedSeats (page a); request_payment := sample_payment |}.
Proof. intros a. apply (payment_submit_sends a sample_payment); example. Defined.

Lemma passengers_submit_enabled_witness :
  let a := state_after (seats_trace ++ [SeatsConfirm] ++ passenger_events 0 ++ contact_events) in
  let drafts := [sample_passenger; PassengerForm.initialPassenger 1] in
  (is_Some (next a PassengersSubmit) ↔ PassengerForm.isFormValid drafts = Normal true) ∧
  ∀ a', next a PassengersSubmit = Some a' →
    page a' = setCurrentStep StepPayment (setPassengers drafts (page a)) ∧
    child a' = PaymentFormState PaymentForm.initialPayment.
Proof. intros a drafts. apply (passengers_submit_enabled a drafts); example. Defined.

Lemma seats_confirm_enabled_witness :
  let a := state_after seats_trace in
  (is_Some (next a SeatsConfirm) ↔
     passengerCount (page a) = Some (len (selectedSeats (page a)))) ∧
  ∀ a', next a SeatsConfirm = Some a' →
    page a' = setCurrentStep StepPassengerDetails (page a) ∧
    child a' = PassengerFormState
                 (PassengerForm.initialPassengers (len (selectedSeats (page a)))).
Proof.
  intros a. apply (seats_confirm_enabled a [seat_of "SB1" 12 "A"; seat_of "SB1" 12 "B"]);
    example.
Defined.

Lemma book_another_restarts_witness :
  let a := state_after happy_trace in
  let a' := state_after (happy_trace ++ [BookAnother]) in
  currentStep (page a) = StepConfirmation ∧
  a' = {| page := bookAnother (page a); child := SearchFormState SearchForm.initialFormData |} ∧
  render (page a') = RenderSearch false ∧
  (selectedFlight (page a'), selectedSeats (page a'), passengers (page a'), flights (page a'))
    = (None, [], [], []) ∧
  (searchParams (page a'), bookingId (page a')) = (searchParams (page a), bookingId (page a)).
Proof. intros a a'. apply (book_another_restarts a a'); example. Defined.

Lemma flight_select_keeps_seats_witness :
  let a := state_after flights_again_trace in
  let flight := sample_flight "SB2" 45000 in
  let a' := state_after (flights_again_trace ++ [FlightClick FlightCard.CardClick flight]) in
  page a' = handleFlightSelect flight (page a) ∧
  selectedSeats (page a') = selectedSeats (page a) ∧
  child a' = SeatMapState [] ∧
  (is_Some (next a' SeatsConfirm) ↔
     passengerCount (page a) = Some (len (selectedSeats (page a)))) ∧
  ∀ a'', next a' SeatsConfirm = Some a'' →
    currentStep (page a'') = StepPassengerDetails ∧
    selectedFlight (page a'') = Some flight ∧
    selectedSeats (page a'') = selectedSeats (page a).
Proof.
  intros a flight a'. apply (flight_select_keeps_seats a FlightCard.CardClick flight a'); example.
Defined.

Lemma seats_in_click_order_witness :
  let a := state_after seat_map_trace in
  let clicks := [seat_of "SB1" 12 "B"; seat_of "SB1" 12 "A"] in
  ∃ a', run next a (SeatClick <$> clicks) = Some a' ∧
    child a' = SeatMapState ([] ++ clicks) ∧
    page a' = setSelectedSeats ([] ++ clicks) (page a).
Proof.
  intros a clicks. apply (seats_in_click_order a [] clicks); try example.
  - apply NoDup_cons. split; [|apply NoDup_singleton]. by intros [=]%list_elem_of_singleton.
  - repeat constructor; by vm_compute; repeat constructor.
Defined.

(** Two passengers search, pick the first flight and seats 12A and 12B,
    fill both forms and pay: the confirmation shows the booking id, the
    flight, the route, two passengers and both seats. *)
Example happy_path :
  render (page (state_after happy_trace)) =
    RenderConfirmation "BK-1" "SkyBook Air SB1" "JFK → LAX" "2" "12A, 12B" ∧
  child (state_after happy_trace) = Confirmation.
Proof. by vm_compute. Qed.

(** With 12B clicked before 12A the confirmation shows "12B, 12A". *)
Example reversed_clicks_run :
  render (page (state_after reversed_trace)) =
    RenderConfirmation "BK-2" "SkyBook Air SB1" "JFK → LAX" "2" "12B, 12A".
Proof. by vm_compute. Qed.

Lemma search_success_shows_flights_witness :
  let a := state_after (search_inputs 2 ++ [SearchSubmit]) in
  let data := [sample_flight "SB1" 30000; sample_flight "SB2" 45000] in
  let a' := state_after (search_events 2) in
  currentStep (page a) = StepSearch ∧
  render (page a') =
    RenderFlights (num_to_string (len data) +:+ " flights found") data ∧
  child a' = FlightList.
Proof. intros a data a'. apply (search_success_shows_flights a data a'); example. Defined.

Lemma failed_search_shows_nothing_witness :
  let a := state_after (search_inputs 2) in
  let a2 := state_after (search_inputs 2 ++ [SearchSubmit; SearchFailed]) in
  render (page a2) = render (page a) ∧ child a2 = child a ∧
  flights (page a2) = flights (page a).
Proof.
  intros a a2.
  apply (failed_search_shows_nothing a (state_after (search_inputs 2 ++ [SearchSubmit])) a2
           not_ok); example.
Defined.

Lemma failed_booking_shows_nothing_witness :
  state_after (payment_trace ++ [PaymentSubmit; BookingFailed]) = state_after payment_trace.
Proof.
  apply (failed_booking_shows_nothing (state_after payment_trace)
           (state_after (payment_trace ++ [PaymentSubmit])) _ not_ok); example.
Defined.

(** While the booking request is in flight the two buttons of the payment
    form are disabled and its inputs are not: the draft can still be edited,
    and the request keeps what was submitted. *)
Example payment_editable_while_processing :
  let a := state_after (payment_trace ++ [PaymentSubmit]) in
  let edit := PaymentInput (PaymentForm.FieldInput PaymentForm.Cvv "999") in
  next a PaymentSubmit = None ∧ next a BackToPassengers = None ∧
  ∃ a', next a edit = Some a' ∧ page a' = page a ∧
    PaymentInfo_cvv <$> (request_payment <$> bookingPending (page a')) = Some "123".
Proof. split_and!; [example..|]. eexists. split_and!; example. Qed.

(** A run in which the seats chosen for one flight survive the choice of
    another.  After going back to the flight list and picking the second
    flight, the seat map shows no seat selected while "Continue" is enabled;
    booking from there sends a request for the second flight with the seat
    of the first one, which is none of the seats listed for the second. *)
Example stale_seats_run :
  let a := state_after changed_flight_trace in
  let b := state_after stale_trace in
  reachable initialApp next a ∧ reachable initialApp next b ∧
  child a = SeatMapState [] ∧ selectedSeats (page a) = [seat_of "SB1" 12 "A"] ∧
  is_Some (next a SeatsConfirm) ∧
  bookingPending (page b) = Some stale_request ∧
  seatsData (page b) !! request_flightId stale_request = Some [seat_of "SB2" 1 "A"].
Proof. split_and!; example. Qed.

End Flow.
