(* ===== verification/PriceUpdates.v ===== *)
(** * The price feed: [hooks/usePriceUpdates.ts]

    The hook keeps two refs, [ws] (the current WebSocket) and
    [reconnectTimeout] (the id of the last timer set), a memoised function
    [connect] that depends on the [onUpdate] callback, and an effect that
    calls [connect] and whose cleanup clears the timer and closes the socket.

    The state of the model is the two refs together with what the hook has
    created in the browser: the sockets with their [readyState] and the
    pending timers.  A socket and a timer remember the render whose [connect]
    created them, because their handlers are closures of that render: they
    call that render's [onUpdate] and schedule that render's [connect].

    The browser's events (open, message, error, close, a timer firing) and the
    component's life cycle (mount, a render with a new [onUpdate], unmount)
    are the events of the transition system.  [JSON.parse] is a parameter. *)

From S2P Require Import Prelude Types.

Module PriceUpdates.

(** ** State *)

(** [WebSocket.readyState] *)
Inductive ReadyState : Type := Connecting | Open | Closing | Closed.

#[global] Instance ReadyState_eq_dec : EqDecision ReadyState.
Proof. solve_decision. Defined.

Record Socket : Type := {
  socket_readyState : ReadyState;
  (** the render whose [connect] created the socket and attached its handlers *)
  socket_owner : nat;
}.

#[global] Instance Socket_eq_dec : EqDecision Socket.
Proof. solve_decision. Defined.

Record State : Type := {
  (** the sockets created so far; the id of a socket is its index *)
  sockets : list Socket;
  (** the pending timers, with the render whose [connect] each will call *)
  timers : gmap nat nat;
  (** the id that the next [setTimeout] returns; ids start at 1 *)
  nextTimer : nat;
  (** [ws.current] *)
  ws : option nat;
  (** [reconnectTimeout.current] *)
  reconnectTimeout : option nat;
  (** the number of the render whose effect is active, if the component is mounted *)
  mounted : option nat;
  (** the renders so far *)
  renders : nat;
  (** the calls of [onUpdate] so far, latest first: the render whose callback
      was called, and the update *)
  delivered : list (nat * Parsed PriceUpdate);
}.

(** Before the first render. *)
Definition initialState : State :=
  {| sockets := []; timers := ∅; nextTimer := 1; ws := None; reconnectTimeout := None;
     mounted := None; renders := 0; delivered := [] |}.

(** ** The hook *)

(** [reconnectTimeout.current = setTimeout(connect, 3000)] *)
Definition scheduleReconnect (owner : nat) (s : State) : State :=
  {| sockets := sockets s; timers := <[nextTimer s := owner]> (timers s);
     nextTimer := S (nextTimer s); ws := ws s; reconnectTimeout := Some (nextTimer s);
     mounted := mounted s; renders := renders s; delivered := delivered s |}.

(** [connect]: [ws.current = new WebSocket(WS_URL)] and the four handlers;
    when the constructor throws, the [catch] schedules a reconnect. *)
Definition connect (constructed : bool) (owner : nat) (s : State) : State :=
  if constructed then
    {| sockets := sockets s ++ [{| socket_readyState := Connecting; socket_owner := owner |}];
       timers := timers s; nextTimer := nextTimer s; ws := Some (length (sockets s));
       reconnectTimeout := reconnectTimeout s; mounted := mounted s; renders := renders s;
       delivered := delivered s |}
  else scheduleReconnect owner s.

(** [socket.close()]: starts the closing handshake of a socket that is
    connecting or open; the close event follows later. *)
Definition close (socket : Socket) : Socket :=
  {| socket_readyState :=
       match socket_readyState socket with
       | Connecting | Open => Closing
       | Closing => Closing
       | Closed => Closed
       end;
     socket_owner := socket_owner socket |}.

Definition setSockets (v : list Socket) (s : State) : State :=
  {| sockets := v; timers := timers s; nextTimer := nextTimer s; ws := ws s;
     reconnectTimeout := reconnectTimeout s; mounted := mounted s; renders := renders s;
     delivered := delivered s |}.

Definition setTimers (v : gmap nat nat) (s : State) : State :=
  {| sockets := sockets s; timers := v; nextTimer := nextTimer s; ws := ws s;
     reconnectTimeout := reconnectTimeout s; mounted := mounted s; renders := renders s;
     delivered := delivered s |}.

Definition setMounted (v : option nat) (n : nat) (s : State) : State :=
  {| sockets := sockets s; timers := timers s; nextTimer := nextTimer s; ws := ws s;
     reconnectTimeout := reconnectTimeout s; mounted := v; renders := n;
     delivered := delivered s |}.

(** The cleanup of the effect:
    [if (reconnectTimeout.current) clearTimeout(reconnectTimeout.current);
     if (ws.current) ws.current.close()].
    Neither ref is reset. *)
Definition cleanup (s : State) : State :=
  let s1 :=
    match reconnectTimeout s with
    | Some t => setTimers (delete t (timers s)) s
    | None => s
    end in
  match ws s1 with
  | Some id => setSockets (alter close id (sockets s1)) s1
  | None => s1
  end.

(** A new instance of the component: the refs are fresh, the sockets and
    timers of the browser stay. *)
Definition freshRefs (s : State) : State :=
  {| sockets := sockets s; timers := timers s; nextTimer := nextTimer s; ws := None;
     reconnectTimeout := None; mounted := mounted s; renders := renders s;
     delivered := delivered s |}.

(** The effect of a render: [connect()] of that render. *)
Definition effect (constructed : bool) (s : State) : State :=
  let n := S (renders s) in
  connect constructed n (setMounted (Some n) n s).

Section handlers.
(** [JSON.parse] followed by the cast to [PriceUpdate]; [None] when it throws. *)
Context (parse : string → option (Parsed PriceUpdate)).

(** [ws.current.onmessage]: a message that does not parse is logged and
    dropped. *)
Definition onmessage (owner : nat) (data : string) (s : State) : State :=
  match parse data with
  | Some update =>
      {| sockets := sockets s; timers := timers s; nextTimer := nextTimer s; ws := ws s;
         reconnectTimeout := reconnectTimeout s; mounted := mounted s; renders := renders s;
         delivered := (owner, update) :: delivered s |}
  | None => s
  end.

(** [ws.current.onclose]: [reconnectTimeout.current = setTimeout(connect, 3000)] *)
Definition onclose (owner : nat) (s : State) : State := scheduleReconnect owner s.

(** ** Events *)

Inductive Event : Type :=
(** the first render of an instance of the component: the effect runs *)
| Mount (constructed : bool)
(** a render with a new [onUpdate]: [connect] changes, the cleanup of the
    previous effect runs and then the new effect *)
| Rerender (constructed : bool)
(** the component is unmounted: the cleanup runs *)
| Unmount
(** the events of a socket *)
| SocketOpened (id : nat)
| SocketMessage (id : nat) (data : string)
| SocketError (id : nat)
| SocketClosed (id : nat)
(** a timer set by [setTimeout] fires: [connect] of the render that set it *)
| TimerFired (t : nat) (constructed : bool).

Definition setReadyState (v : ReadyState) (socket : Socket) : Socket :=
  {| socket_readyState := v; socket_owner := socket_owner socket |}.

Definition next (s : State) (e : Event) : option State :=
  match e with
  | Mount constructed =>
      if decide (mounted s = None) then Some (effect constructed (freshRefs s)) else None
  | Rerender constructed =>
      if decide (is_Some (mounted s)) then Some (effect constructed (cleanup s)) else None
  | Unmount =>
      if decide (is_Some (mounted s))
      then Some (setMounted None (renders s) (cleanup s)) else None
  | SocketOpened id =>
      socket ← sockets s !! id;
      if decide (socket_readyState socket = Connecting)
      then Some (setSockets (<[id := setReadyState Open socket]> (sockets s)) s)
      else None
  | SocketMessage id data =>
      socket ← sockets s !! id;
      if decide (socket_readyState socket = Open)
      then Some (onmessage (socket_owner socket) data s)
      else None
  | SocketError id =>
      socket ← sockets s !! id;
      if decide (socket_readyState socket = Closed) then None else Some s
  | SocketClosed id =>
      socket ← sockets s !! id;
      if decide (socket_readyState socket = Closed) then None
      else Some (onclose (socket_owner socket)
                   (setSockets (<[id := setReadyState Closed socket]> (sockets s)) s))
  | TimerFired t constructed =>
      owner ← timers s !! t;
      Some (connect constructed owner (setTimers (delete t (timers s)) s))
  end.

(** The events of the browser: everything but the component's life cycle. *)
Definition is_browser (e : Event) : bool :=
  match e with
  | Mount _ | Rerender _ | Unmount => false
  | _ => true
  end.

(** The feed while the component stays mounted with the same [onUpdate]. *)
Definition next_browser (s : State) (e : Event) : option State :=
  if is_browser e then next s e else None.

End handlers.

(** ** What the feed holds *)

(** The sockets that can still raise an event. *)
Definition live_sockets (s : State) : list Socket :=
  filter (λ socket, socket_readyState socket ≠ Closed) (sockets s).

(** The subscriptions: sockets that are not closed, and reconnects that are
    scheduled. *)
Definition subscriptions (s : State) : nat :=
  (length (live_sockets s) + size (timers s))%nat.

Definition open_sockets (s : State) : nat :=
  length (filter (λ socket, socket_readyState socket = Open) (sockets s)).

(** ** Specification predicates *)

(** The ids of the pending timers are below the next id. *)
Definition well_formed (s : State) : Prop :=
  ∀ t, is_Some (timers s !! t) → (t < nextTimer s)%nat.

(** The reconnect that [reconnectTimeout.current] names is no longer pending. *)
Definition timer_idle (s : State) : Prop :=
  ∀ t, reconnectTimeout s = Some t → timers s !! t = None.

(** [ws.current] is a socket that is connecting or open. *)
Definition connected (s : State) : Prop :=
  ∃ id socket, ws s = Some id ∧ sockets s !! id = Some socket ∧
    (socket_readyState socket = Connecting ∨ socket_readyState socket = Open).

(** ** Worked examples *)

(** A parser for the examples: the empty message does not parse, the
    messages [null] and [0] are what they say, and any other message is an
    update for the flight it names. *)
Definition sample_parse (data : string) : option (Parsed PriceUpdate) :=
  if decide (data = "") then None
  else if decide (data = "null") then Some ParsedNull
  else if decide (data = "0") then Some ParsedOther
  else Some (ParsedAs {| PriceUpdate_flightId := data; PriceUpdate_newPrice := 31000;
                         PriceUpdate_timestamp := "" |}).

Definition state_after (trace : list Event) : State :=
  after initialState (next sample_parse) trace.

(** Mounted, connected. *)
Definition connected_trace : list Event := [Mount true; SocketOpened 0].

(** Mounted, disconnected, waiting for the reconnect. *)
Definition waiting_trace : list Event := [Mount true; SocketOpened 0; SocketClosed 0].

(** Unmounted while connected; the socket closes, the reconnect fires, and
    the new socket receives a message. *)
Definition unmounted_trace : list Event :=
  connected_trace ++
  [Unmount; SocketClosed 0; TimerFired 1 true; SocketOpened 1; SocketMessage 1 "SB1"].

(** Rendered again while connected; both the new socket and the reconnect of
    the old one receive the same message. *)
Definition rerendered_trace : list Event :=
  connected_trace ++
  [Rerender true; SocketOpened 1; SocketClosed 0; TimerFired 1 true; SocketOpened 2;
   SocketMessage 1 "SB1"; SocketMessage 2 "SB1"].

(** ** Lemmas *)

Section feed.
Context (parse : string → option (Parsed PriceUpdate)).

Lemma subscriptions_scheduleReconnect owner s :
  well_formed s → subscriptions (scheduleReconnect owner s) = S (subscriptions s).
Proof.
  intros Hwf. unfold subscriptions, live_sockets. simpl.
  rewrite map_size_insert_None; [lia|].
  apply eq_None_not_Some. intros Ht%Hwf. lia.
Qed.

Lemma well_formed_scheduleReconnect owner s :
  well_formed s → well_formed (scheduleReconnect owner s).
Proof.
  intros Hwf t. simpl. rewrite lookup_insert_is_Some'. intros [->|Ht%Hwf]; lia.
Qed.

Lemma subscriptions_connect constructed owner s :
  well_formed s → subscriptions (connect constructed owner s) = S (subscriptions s).
Proof.
  intros Hwf. destruct constructed; [|by apply subscriptions_scheduleReconnect].
  unfold subscriptions, live_sockets. simpl.
  rewrite filter_app, length_app. simpl. lia.
Qed.

Lemma well_formed_connect constructed owner s :
  well_formed s → well_formed (connect constructed owner s).
Proof. destruct constructed; [done|apply well_formed_scheduleReconnect]. Qed.

Lemma well_formed_delete t s : well_formed s → well_formed (setTimers (delete t (timers s)) s).
Proof. intros Hwf t'. simpl. rewrite lookup_delete_is_Some. intros [_ ?]. by apply Hwf. Qed.

Lemma subscriptions_delete t s :
  is_Some (timers s !! t) →
  S (subscriptions (setTimers (delete t (timers s)) s)) = subscriptions s.
Proof.
  intros Ht. unfold subscriptions, live_sockets. simpl.
  rewrite map_size_delete_Some by done. apply map_size_ne_0_lookup_2 in Ht. lia.
Qed.

(** A socket that changes its state without closing. *)
Lemma subscriptions_insert_live s id socket socket' :
  sockets s !! id = Some socket →
  socket_readyState socket ≠ Closed → socket_readyState socket' ≠ Closed →
  subscriptions (setSockets (<[id := socket']> (sockets s)) s) = subscriptions s.
Proof.
  intros Hid Hs Hs'. unfold subscriptions, live_sockets. simpl.
  pose proof (length_filter_insert (λ x, socket_readyState x ≠ Closed) _ _ _ socket' Hid) as H.
  rewrite !decide_True in H by done. lia.
Qed.

(** A socket that closes. *)
Lemma subscriptions_insert_closed s id socket :
  sockets s !! id = Some socket → socket_readyState socket ≠ Closed →
  S (subscriptions (setSockets (<[id := setReadyState Closed socket]> (sockets s)) s))
  = subscriptions s.
Proof.
  intros Hid Hs. unfold subscriptions, live_sockets. simpl.
  pose proof (length_filter_insert (λ x, socket_readyState x ≠ Closed) _ _ _
                (setReadyState Closed socket) Hid) as H.
  rewrite decide_True, decide_False in H by (done || by intros []). lia.
Qed.

Lemma close_live socket :
  socket_readyState (close socket) ≠ Closed ↔ socket_readyState socket ≠ Closed.
Proof. by destruct socket as [[] ?]. Qed.

(** The cleanup removes the reconnect it knows of, if that is pending, and
    no socket. *)
Lemma subscriptions_cleanup s :
  subscriptions (cleanup s) =
    (subscriptions s -
     match reconnectTimeout s with
     | Some t => if decide (is_Some (timers s !! t)) then 1 else 0
     | None => 0
     end)%nat.
Proof.
  unfold cleanup. set (s1 := match reconnectTimeout s with Some _ => _ | None => _ end).
  assert (subscriptions (match ws s1 with
                         | Some id => setSockets (alter close id (sockets s1)) s1
                         | None => s1 end) = subscriptions s1) as ->.
  { destruct (ws s1); [|done]. unfold subscriptions, live_sockets. simpl.
    by rewrite length_filter_alter by apply close_live. }
  subst s1. destruct (reconnectTimeout s) as [t|]; [|lia].
  case_decide as Ht; [rewrite <-(subscriptions_delete t s) by done; lia|].
  unfold subscriptions, live_sockets. simpl.
  rewrite map_size_delete_None; [lia|]. by apply eq_None_not_Some.
Qed.

Lemma well_formed_cleanup s : well_formed s → well_formed (cleanup s).
Proof.
  intros Hwf. unfold cleanup.
  destruct (reconnectTimeout s) as [t|]; simpl; destruct (ws s); simpl;
    auto using well_formed_delete.
  all: by apply (well_formed_delete t s).
Qed.

Lemma well_formed_effect constructed s : well_formed s → well_formed (effect constructed s).
Proof. intros Hwf. by apply well_formed_connect. Qed.

Lemma subscriptions_effect constructed s :
  well_formed s → subscriptions (effect constructed s) = S (subscriptions s).
Proof. intros Hwf. unfold effect. by rewrite subscriptions_connect. Qed.

(** The effect run again: the cleanup and the new effect together add a
    subscription, unless the cleanup cleared a reconnect that was pending. *)
Lemma subscriptions_rerender constructed s :
  well_formed s → timer_idle s →
  subscriptions (effect constructed (cleanup s)) = S (subscriptions s).
Proof.
  intros Hwf Hidle.
  rewrite subscriptions_effect, subscriptions_cleanup by by apply well_formed_cleanup.
  destruct (reconnectTimeout s) as [t|] eqn:Ht; [|lia].
  rewrite decide_False; [lia|]. rewrite (Hidle t Ht). by intros [].
Qed.

Lemma subscriptions_rerender_le constructed s :
  well_formed s → (subscriptions s ≤ subscriptions (effect constructed (cleanup s)))%nat.
Proof.
  intros Hwf.
  rewrite subscriptions_effect, subscriptions_cleanup by by apply well_formed_cleanup.
  destruct (reconnectTimeout s); [case_decide|]; lia.
Qed.

Lemma next_well_formed s e s' : well_formed s → next parse s e = Some s' → well_formed s'.
Proof.
  intros Hwf Hnext.
  destruct e; simpl in Hnext; repeat (case_match || case_decide); simplify_option_eq.
  - by apply well_formed_effect.
  - by apply well_formed_effect, well_formed_cleanup.
  - by apply (well_formed_cleanup s).
  - done.
  - unfold onmessage. by case_match.
  - done.
  - by apply well_formed_scheduleReconnect.
  - by apply well_formed_connect, (well_formed_delete t s).
Qed.

Lemma browser_subscriptions s e s' :
  well_formed s → next_browser parse s e = Some s' → subscriptions s' = subscriptions s.
Proof.
  intros Hwf Hnext. unfold next_browser in Hnext.
  destruct e; simpl in Hnext; simplify_option_eq.
  - eapply subscriptions_insert_live; [done|congruence|done].
  - unfold onmessage. by case_match.
  - done.
  - unfold onclose. rewrite subscriptions_scheduleReconnect by done.
    by eapply subscriptions_insert_closed.
  - rewrite subscriptions_connect by by apply (well_formed_delete t s).
    apply subscriptions_delete. by eexists.
Qed.


(** As long as the component is not unmounted no subscription is lost for
    good: an event leaves at least as many as there were. *)
Lemma next_subscriptions_le s e s' :
  well_formed s → e ≠ Unmount → next parse s e = Some s' →
  (subscriptions s ≤ subscriptions s')%nat.
Proof.
  intros Hwf He Hnext. destruct (is_browser e) eqn:Hb.
  { rewrite (browser_subscriptions s e s'); [done..|]. unfold next_browser. by rewrite Hb. }
  destruct e; try done; simpl in Hnext; case_decide; simplify_eq.
  - rewrite subscriptions_effect by done. change (subscriptions (freshRefs s)) with (subscriptions s). lia.
  - by apply subscriptions_rerender_le.
Qed.

Lemma browser_mounted s e s' : next_browser parse s e = Some s' → mounted s' = mounted s.
Proof.
  unfold next_browser. intros Hnext.
  destruct e; simpl in Hnext; simplify_option_eq; try done.
  - unfold onmessage. by case_match.
  - by destruct constructed.
Qed.

(** Only the unmount ends the effect. *)
Lemma next_mounted s e s' :
  e ≠ Unmount → next parse s e = Some s' → is_Some (mounted s) → is_Some (mounted s').
Proof.
  intros He Hnext Hm. destruct (is_browser e) eqn:Hb.
  { rewrite (browser_mounted s e s'); [done|]. unfold next_browser. by rewrite Hb. }
  destruct e; try done; simpl in Hnext; case_decide; simplify_eq;
    by destruct constructed; eexists.
Qed.

(** The browser's events keep the number of subscriptions: a socket that
    closes leaves a reconnect, a reconnect that fires leaves a socket or
    another reconnect. *)
Lemma browser_inductive (s0 : State) :
  well_formed s0 →
  inductive s0 (next_browser parse) (λ s,
    well_formed s ∧ subscriptions s = subscriptions s0 ∧ mounted s = mounted s0).
Proof.
  intros Hwf. split; [done|]. intros s e s' _ (Hs & <- & <-) Hstep. split_and!.
  - unfold step, next_browser in Hstep. case_match; [|done]. by eapply next_well_formed.
  - by eapply browser_subscriptions.
  - by eapply browser_mounted.
Qed.

Lemma well_formed_initial : well_formed initialState.
Proof. by intros t [? ?]. Qed.

Lemma reachable_well_formed (s : State) :
  reachable initialState (next parse) s → well_formed s.
Proof.
  apply inductive_invariant. split; [apply well_formed_initial|].
  intros s1 e s2 _. apply next_well_formed.
Qed.

(** A socket that is not closed is a subscription. *)
Lemma subscriptions_pos s id socket :
  sockets s !! id = Some socket → socket_readyState socket ≠ Closed →
  (1 ≤ subscriptions s)%nat.
Proof.
  intros Hid Hlive. unfold subscriptions, live_sockets.
  assert (socket ∈ filter (λ x, socket_readyState x ≠ Closed) (sockets s)) as Hin.
  { apply list_elem_of_filter. split; [done|]. by eapply list_elem_of_lookup_2. }
  destruct (filter _ (sockets s)); [by apply elem_of_nil in Hin|simpl; lia].
Qed.

(** Without a subscription nothing can happen. *)
Lemma quiescent s e : subscriptions s = 0%nat → next_browser parse s e = None.
Proof.
  intros Hzero.
  assert (∀ id socket, sockets s !! id = Some socket → socket_readyState socket = Closed) as Hc.
  { intros id socket Hid.
    destruct (decide (socket_readyState socket = Closed)) as [|Hlive]; [done|].
    pose proof (subscriptions_pos s id socket Hid Hlive). lia. }
  assert (timers s = ∅) as Htimers by (apply map_size_empty_inv; unfold subscriptions in Hzero; lia).
  unfold next_browser. destruct e; simpl; try done.
  1-4: destruct (sockets s !! id) as [socket|] eqn:Hid; simpl; [|done];
       rewrite (Hc _ _ Hid); by repeat case_decide.
  by rewrite Htimers, lookup_empty.
Qed.

(** The effect run again while no reconnect is scheduled: the new socket is
    the current one, and still no reconnect is scheduled. *)
Lemma rerender_connected (s : State) :
  timers s = ∅ →
  let s' := effect true (cleanup s) in
  timers s' = ∅ ∧ ws s' = Some (length (sockets s)) ∧
  sockets s' !! length (sockets s) =
    Some {| socket_readyState := Connecting; socket_owner := S (renders s) |} ∧
  is_Some (mounted s').
Proof.
  intros Htimers. unfold effect, cleanup.
  destruct (reconnectTimeout s); simpl; destruct (ws s); simpl;
    rewrite Htimers, ?delete_empty, ?length_alter;
    (split_and!; [done..| |by eexists]).
  all: by rewrite lookup_app_r, ?length_alter, Nat.sub_diag by by rewrite ?length_alter.
Qed.

(** C10. Mounted once and rendered with one [onUpdate], the hook holds exactly
    one subscription at every moment: a socket that is connecting, open or
    closing, or a reconnect that is scheduled. *)
Theorem one_subscription (constructed : bool) (s0 : State) :
  next parse initialState (Mount constructed) = Some s0 →
  invariant s0 (next_browser parse) (λ s, subscriptions s = 1%nat ∧ is_Some (mounted s)).
Proof.
  intros [= <-] s (_ & -> & ->)%(inductive_invariant _ _ _ (browser_inductive _
    (well_formed_effect _ _ well_formed_initial))).
  split; [|by destruct constructed; eexists].
  by rewrite subscriptions_effect by apply well_formed_initial.
Qed.

(** C15. Unmounting while the socket is connecting or open does not end the
    subscription: the cleanup closes the socket, whose [onclose] schedules a
    reconnect that nothing clears.  From then on the unmounted hook holds its
    subscriptions forever. *)
Theorem unmount_keeps_subscription (s : State) :
  well_formed s → is_Some (mounted s) → timer_idle s → connected s →
  ∃ s', next parse s Unmount = Some s' ∧
    invariant s' (next_browser parse) (λ s'',
      mounted s'' = None ∧ subscriptions s'' = subscriptions s ∧ (1 ≤ subscriptions s'')%nat).
Proof.
  intros Hwf Hm Hidle (id & socket & Hws & Hid & Hlive). simpl. rewrite decide_True by done.
  eexists. split; [done|].
  assert (subscriptions (setMounted None (renders s) (cleanup s)) = subscriptions s) as Hsub.
  { change (subscriptions (cleanup s) = subscriptions s). rewrite subscriptions_cleanup.
    destruct (reconnectTimeout s) as [t|] eqn:Ht; [|lia].
    rewrite decide_False; [lia|]. rewrite (Hidle t Ht). by intros []. }
  intros s'' (_ & -> & ->)%(inductive_invariant _ _ _
    (browser_inductive (setMounted None (renders s) (cleanup s)) (well_formed_cleanup _ Hwf))).
  split_and!; [done..|]. rewrite Hsub.
  eapply subscriptions_pos; [done|]. by destruct Hlive as [->| ->].
Qed.

(** C16. A render with a new [onUpdate] adds a subscription: the socket that
    the cleanup closes comes back through its [onclose], next to the socket
    of the new effect. *)
Theorem rerender_adds_subscription (s : State) (constructed : bool) :
  well_formed s → is_Some (mounted s) → timer_idle s →
  ∃ s', next parse s (Rerender constructed) = Some s' ∧
    invariant s' (next_browser parse) (λ s'', subscriptions s'' = S (subscriptions s)).
Proof.
  intros Hwf Hm Hidle. simpl. rewrite decide_True by done. eexists. split; [done|].
  intros s'' (_ & -> & _)%(inductive_invariant _ _ _ (browser_inductive _
    (well_formed_effect _ _ (well_formed_cleanup _ Hwf)))).
  by apply subscriptions_rerender.
Qed.

(** After the cleanup no reconnect that the hook knows of is pending. *)
Lemma timer_idle_cleanup (s : State) : timer_idle (cleanup s).
Proof.
  intros t. unfold cleanup.
  destruct (reconnectTimeout s) as [t'|] eqn:Ht'; simpl; destruct (ws s); simpl;
    rewrite ?Ht'; try done; intros [= <-]; apply lookup_delete_eq.
Qed.

(** Rendering again and again, with no reconnect pending. *)
Lemma rerenders_reachable (n : nat) :
  ∃ s, reachable initialState (next parse) s ∧ is_Some (mounted s) ∧ timer_idle s ∧
    subscriptions s = S n.
Proof.
  induction n as [|n (s & Hs & Hm & Hidle & Hn)].
  - exists (effect true (freshRefs initialState)). split_and!; [|by eexists|done..].
    by apply (reachable_step _ _ initialState (Mount true)); [constructor|].
  - exists (effect true (cleanup s)). split_and!.
    + apply (reachable_step _ _ s (Rerender true)); [done|].
      unfold step. simpl. by rewrite decide_True.
    + by eexists.
    + apply (timer_idle_cleanup s).
    + rewrite subscriptions_rerender, Hn by (done || by eapply reachable_well_formed). done.
Qed.

(** The number of subscriptions that the hook can hold is unbounded: every
    number is reached by rendering often enough. *)
Theorem subscriptions_unbounded (n : nat) :
  ∃ s, reachable initialState (next parse) s ∧ (n < subscriptions s)%nat.
Proof. destruct (rerenders_reachable n) as (s & Hs & _ & _ & Hn). exists s. split; [done|lia]. Qed.

(** Unmounting while a reconnect is scheduled ends the subscription:
    the cleanup clears the timer, and nothing happens afterwards. *)
Theorem unmount_while_waiting_releases (s : State) (t : nat) :
  is_Some (mounted s) → subscriptions s = 1%nat →
  reconnectTimeout s = Some t → is_Some (timers s !! t) →
  ∃ s', next parse s Unmount = Some s' ∧ subscriptions s' = 0%nat ∧
    ∀ e, next_browser parse s' e = None.
Proof.
  intros Hm Hone Ht Hpending. simpl. rewrite decide_True by done. eexists. split; [done|].
  assert (subscriptions (setMounted None (renders s) (cleanup s)) = 0%nat) as Hsub.
  { change (subscriptions (cleanup s) = 0%nat).
    rewrite subscriptions_cleanup, Ht, decide_True by done. lia. }
  split; [done|]. intros e. by apply quiescent.
Qed.

(** C30. A message that does not parse is dropped: the state is unchanged and
    the socket stays open. *)
Theorem malformed_dropped (s : State) (id : nat) (data : string) (socket : Socket) :
  sockets s !! id = Some socket → socket_readyState socket = Open → parse data = None →
  next parse s (SocketMessage id data) = Some s.
Proof.
  intros Hid Hopen Hparse. simpl. rewrite Hid. simpl. rewrite decide_True by done.
  unfold onmessage. by rewrite Hparse.
Qed.

End feed.

(** ** Worked examples *)

(** Discharges the hypotheses of a worked example. *)
Ltac example :=
  try (eapply reachable_well_formed, after_reachable);
  try (intros ? [=]); by vm_compute; eauto.

Lemma one_subscription_witness :
  subscriptions (state_after waiting_trace) = 1%nat ∧
  is_Some (mounted (state_after waiting_trace)).
Proof.
  apply (one_subscription sample_parse true (state_after [Mount true])); [done|].
  by eapply (run_reachable _ _ _ _ [SocketOpened 0; SocketClosed 0]); [constructor|].
Defined.

Lemma unmount_keeps_subscription_witness :
  ∃ s', next sample_parse (state_after connected_trace) Unmount = Some s' ∧
    invariant s' (next_browser sample_parse) (λ s'',
      mounted s'' = None ∧ subscriptions s'' = subscriptions (state_after connected_trace) ∧
      (1 ≤ subscriptions s'')%nat).
Proof.
  apply (unmount_keeps_subscription sample_parse (state_after connected_trace)); try example.
  exists 0%nat. eexists. by vm_compute; eauto.
Defined.

Lemma rerender_adds_subscription_witness :
  ∃ s', next sample_parse (state_after connected_trace) (Rerender true) = Some s' ∧
    invariant s' (next_browser sample_parse) (λ s'',
      subscriptions s'' = S (subscriptions (state_after connected_trace))).
Proof.
  apply (rerender_adds_subscription sample_parse (state_after connected_trace) true); example.
Defined.

Lemma unmount_while_waiting_releases_witness :
  ∃ s', next sample_parse (state_after waiting_trace) Unmount = Some s' ∧
    subscriptions s' = 0%nat ∧ ∀ e, next_browser sample_parse s' e = None.
Proof.
  apply (unmount_while_waiting_releases sample_parse (state_after waiting_trace) 1); example.
Defined.

Lemma malformed_dropped_witness :
  next sample_parse (state_after connected_trace) (SocketMessage 0 "")
  = Some (state_after connected_trace).
Proof.
  by apply (malformed_dropped sample_parse _ 0 ""
              {| socket_readyState := Open; socket_owner := 1 |}).
Defined.

(** After an unmount while connected the feed goes on: the closed socket
    is replaced, and [onUpdate] of the unmounted component is called for a
    message that arrives on the new socket. *)
Example delivery_after_unmount :
  let s := state_after unmounted_trace in
  mounted s = None ∧ open_sockets s = 1%nat ∧
  delivered s = [(1%nat, ParsedAs {| PriceUpdate_flightId := "SB1";
                                     PriceUpdate_newPrice := 31000;
                                     PriceUpdate_timestamp := "" |})].
Proof. by vm_compute. Qed.

(** After one render with a new [onUpdate] two sockets are open, and a
    message that the server sends to every connection is delivered twice:
    once to the callback of the new render, once to the callback of the old
    one. *)
Example rerender_duplicates_delivery :
  let s := state_after rerendered_trace in
  let update := ParsedAs {| PriceUpdate_flightId := "SB1"; PriceUpdate_newPrice := 31000;
                            PriceUpdate_timestamp := "" |} in
  open_sockets s = 2%nat ∧ subscriptions s = 2%nat ∧
  delivered s = [(1%nat, update); (2%nat, update)].
Proof. by vm_compute. Qed.

End PriceUpdates.
