(* ===== verification/Connection.v ===== *)
(** * The connection of the price feed: specification and refinement

    The price feed is meant to be one connection that is disconnected,
    connecting or open, that reconnects after every failure and that hands
    every message that parses to the application.  [Connection] is that
    machine.  [Feed] relates the hook of [hooks/usePriceUpdates.ts]
    ([PriceUpdates]) to it: the phase of the connection is read off the
    socket that [ws.current] names, every event of the browser stands for one
    step of the connection, and the updates received are the arguments of the
    calls of [onUpdate].

    The hook implements the connection as long as the component is mounted
    once and rendered with one [onUpdate]: each of its runs is a run of the
    connection, and each step of the connection is one that the hook can
    make.  After a render with a new [onUpdate] this is no longer so
    ([rerender_breaks_connection]). *)

From S2P Require Import Prelude Types PriceUpdates.

(** ** The specification *)

Module Connection.

Inductive Phase : Type := Disconnected | Connecting | Open.

Record State : Type := {
  phase : Phase;
  (** the updates handed to the application, latest first *)
  received : list (Parsed PriceUpdate);
}.

(** Not connected, nothing received. *)
Definition initialState : State := {| phase := Disconnected; received := [] |}.

Inductive Label : Type :=
(** an attempt to connect, on mount or after the delay; [constructed] tells
    whether the connection could be created *)
| Retry (constructed : bool)
(** the handshake succeeds *)
| Handshake
(** a message arrives *)
| Receive (data : string)
(** the connection fails or is closed by the server *)
| Lost.

Definition setPhase (v : Phase) (c : State) : State :=
  {| phase := v; received := received c |}.

Section next.
Context (parse : string → option (Parsed PriceUpdate)).

(** A message that parses is handed on; one that does not is dropped.
    Neither affects the connection. *)
Definition receive (data : string) (c : State) : State :=
  match parse data with
  | Some update => {| phase := phase c; received := update :: received c |}
  | None => c
  end.

Definition next (c : State) (l : Label) : option State :=
  match l, phase c with
  | Retry constructed, Disconnected =>
      Some (setPhase (if constructed then Connecting else Disconnected) c)
  | Handshake, Connecting => Some (setPhase Open c)
  | Receive data, Open => Some (receive data c)
  | Lost, (Connecting | Open) => Some (setPhase Disconnected c)
  | _, _ => None
  end.
End next.

End Connection.

(** ** The hook as an implementation of the connection *)

Module Feed.
Import PriceUpdates.

(** The socket that [ws.current] names. *)
Definition current (s : State) : option Socket := id ← ws s; sockets s !! id.

(** The phase of the connection: the [readyState] of the current socket. *)
Definition phase_of (s : State) : Connection.Phase :=
  match socket_readyState <$> current s with
  | Some Connecting => Connection.Connecting
  | Some Open => Connection.Open
  | _ => Connection.Disconnected
  end.

Definition abstraction (s : State) : Connection.State :=
  {| Connection.phase := phase_of s; Connection.received := snd <$> delivered s |}.

(** The step of the connection that an event of the browser stands for.  An
    error event is not seen: [onerror] only logs, and the close event that
    follows is what the hook reacts to. *)
Definition label (e : Event) : option Connection.Label :=
  match e with
  | SocketOpened _ => Some Connection.Handshake
  | SocketMessage _ data => Some (Connection.Receive data)
  | SocketClosed _ => Some Connection.Lost
  | TimerFired _ constructed => Some (Connection.Retry constructed)
  | SocketError _ | Mount _ | Rerender _ | Unmount => None
  end.

(** The hook holds a single connection: the only socket that is not closed
    is the current one, which is connecting or open, and a reconnect is
    pending exactly when that socket is closed or missing, and then only
    one. *)
Record single (s : State) : Prop := {
  single_live : ∀ id socket, sockets s !! id = Some socket →
    socket_readyState socket ≠ Closed →
    ws s = Some id ∧ socket_readyState socket ≠ Closing;
  single_timer :
    match phase_of s with
    | Connection.Disconnected => ∃ t owner, timers s = {[t := owner]}
    | _ => timers s = ∅
    end;
}.

(** Mounted, rendered again while connected; the socket of the first render
    closes and its reconnect fires. *)
Definition reconnected_twice_trace : list Event :=
  connected_trace ++ [Rerender true; SocketOpened 1; SocketClosed 0; TimerFired 1 true].

(** ** The current socket *)

Lemma single_current s id socket :
  single s → sockets s !! id = Some socket → socket_readyState socket ≠ Closed →
  ws s = Some id ∧ current s = Some socket.
Proof.
  intros Hs Hid Hlive. destruct (single_live s Hs id socket Hid Hlive) as [Hws _].
  split; [done|]. unfold current. by rewrite Hws.
Qed.

(** A socket that is not closed determines the phase, and no reconnect is
    pending beside it. *)
Lemma phase_of_live s id socket :
  single s → sockets s !! id = Some socket → socket_readyState socket ≠ Closed →
  timers s = ∅ ∧
  (socket_readyState socket = Connecting ∧ phase_of s = Connection.Connecting ∨
   socket_readyState socket = Open ∧ phase_of s = Connection.Open).
Proof.
  intros Hs Hid Hlive. destruct (single_current s id socket Hs Hid Hlive) as [_ Hc].
  destruct (single_live s Hs id socket Hid Hlive) as [_ Hclosing].
  pose proof (single_timer s Hs) as Ht. unfold phase_of in *. rewrite Hc in *. simpl in *.
  destruct (socket_readyState socket); try done; split; auto.
Qed.

(** The socket behind a phase other than [Disconnected]. *)
Lemma phase_of_connected s :
  phase_of s ≠ Connection.Disconnected →
  ∃ id socket, sockets s !! id = Some socket ∧
    (socket_readyState socket = Connecting ∧ phase_of s = Connection.Connecting ∨
     socket_readyState socket = Open ∧ phase_of s = Connection.Open).
Proof.
  unfold phase_of, current. destruct (ws s) as [id|]; simpl; [|done].
  destruct (sockets s !! id) as [socket|] eqn:Hid; simpl; [|done]. intros Hp.
  exists id, socket. split; [done|]. destruct (socket_readyState socket); auto; done.
Qed.

Lemma phase_of_connect owner s : phase_of (connect true owner s) = Connection.Connecting.
Proof. unfold phase_of, current. simpl. by rewrite lookup_app_r, Nat.sub_diag. Qed.

(** The current socket changes its state. *)
Lemma live_insert s id socket socket' :
  single s → sockets s !! id = Some socket → socket_readyState socket ≠ Closed →
  socket_readyState socket' ≠ Closing →
  ∀ id' socket'', <[id := socket']> (sockets s) !! id' = Some socket'' →
    socket_readyState socket'' ≠ Closed →
    ws s = Some id' ∧ socket_readyState socket'' ≠ Closing.
Proof.
  intros Hs Hid Hlive Hst id' socket'' Hid' Hlive'.
  destruct (single_live s Hs id socket Hid Hlive) as [Hws _].
  destruct (decide (id = id')) as [<-|Hne].
  - rewrite list_lookup_insert_eq in Hid' by by eapply lookup_lt_Some. by simplify_eq.
  - rewrite list_lookup_insert_ne in Hid' by done. by apply (single_live s Hs).
Qed.

Lemma current_insert s id socket socket' :
  ws s = Some id → sockets s !! id = Some socket →
  current (setSockets (<[id := socket']> (sockets s)) s) = Some socket'.
Proof.
  intros Hws Hid. unfold current. simpl. rewrite Hws. simpl.
  apply list_lookup_insert_eq. by eapply lookup_lt_Some.
Qed.

(** ** The events of the browser, one by one *)

Section simulation.
Context (parse : string → option (Parsed PriceUpdate)).

Lemma opened_single s id socket :
  single s → sockets s !! id = Some socket → socket_readyState socket = Connecting →
  let s' := setSockets (<[id := setReadyState Open socket]> (sockets s)) s in
  single s' ∧ phase_of s = Connection.Connecting ∧ phase_of s' = Connection.Open.
Proof.
  intros Hs Hid Hst s'.
  assert (socket_readyState socket ≠ Closed) as Hlive by congruence.
  destruct (single_current s id socket Hs Hid Hlive) as [Hws _].
  destruct (phase_of_live s id socket Hs Hid Hlive) as [Ht [[_ Hp]|[? _]]]; [|congruence].
  assert (phase_of s' = Connection.Open) as Hp'.
  { unfold phase_of. subst s'. by erewrite current_insert. }
  split_and!; [|done..]. split; [by apply (live_insert s id socket)|]. by rewrite Hp'.
Qed.

Lemma message_single s id socket data :
  single s → sockets s !! id = Some socket → socket_readyState socket = Open →
  let s' := onmessage parse (socket_owner socket) data s in
  single s' ∧ phase_of s = Connection.Open ∧
  abstraction s' = Connection.receive parse data (abstraction s).
Proof.
  intros Hs Hid Hst s'.
  destruct (phase_of_live s id socket Hs Hid) as [_ [[? _]|[_ Hp]]]; [congruence..|].
  subst s'. unfold onmessage, Connection.receive. by destruct (parse data), Hs.
Qed.

Lemma closed_single s id socket :
  single s → sockets s !! id = Some socket → socket_readyState socket ≠ Closed →
  let s' := onclose (socket_owner socket)
              (setSockets (<[id := setReadyState Closed socket]> (sockets s)) s) in
  single s' ∧ phase_of s ≠ Connection.Disconnected ∧ phase_of s' = Connection.Disconnected.
Proof.
  intros Hs Hid Hlive s'.
  destruct (single_current s id socket Hs Hid Hlive) as [Hws _].
  destruct (phase_of_live s id socket Hs Hid Hlive) as [Ht Hp].
  assert (phase_of s' = Connection.Disconnected) as Hp'.
  { unfold phase_of, current. simpl. rewrite Hws. simpl.
    by rewrite list_lookup_insert_eq by by eapply lookup_lt_Some. }
  split_and!; [|by destruct Hp as [[_ ->]|[_ ->]]|done]. split.
  - by eapply (live_insert s id socket).
  - rewrite Hp'. simpl. rewrite Ht, insert_empty. eauto.
Qed.

(** While a reconnect is pending every socket is closed. *)
Lemma disconnected_closed s id socket :
  single s → phase_of s = Connection.Disconnected → sockets s !! id = Some socket →
  socket_readyState socket = Closed.
Proof.
  intros Hs Hp Hid. destruct (decide (socket_readyState socket = Closed)) as [|Hlive]; [done|].
  destruct (phase_of_live s id socket Hs Hid Hlive) as [_ [[_ ?]|[_ ?]]]; congruence.
Qed.

Lemma fired_single s t owner constructed :
  single s → timers s !! t = Some owner →
  let s' := connect constructed owner (setTimers (delete t (timers s)) s) in
  single s' ∧ phase_of s = Connection.Disconnected ∧
  phase_of s' = if constructed then Connection.Connecting else Connection.Disconnected.
Proof.
  intros Hs Ht s'. pose proof (single_timer s Hs) as Htimers.
  destruct (phase_of s) eqn:Hp; [|by rewrite Htimers in Ht..].
  destruct Htimers as (t' & owner' & Htimers). rewrite Htimers in Ht.
  apply lookup_singleton_Some in Ht as [-> ->].
  pose proof (disconnected_closed s) as Hclosed.
  subst s'. destruct constructed.
  - split_and!; [|done|apply phase_of_connect]. split.
    + simpl. intros id socket [[_ Hid]|[-> <-]]%lookup_snoc_Some Hlive; [|done].
      by rewrite (Hclosed id socket) in Hlive.
    + rewrite phase_of_connect. simpl. by rewrite Htimers, delete_singleton_eq.
  - split_and!; [|done..]. split.
    + simpl. intros id socket Hid Hlive. by rewrite (Hclosed id socket) in Hlive.
    + change (phase_of (connect false owner (setTimers (delete t (timers s)) s)))
        with (phase_of s).
      rewrite Hp. simpl. rewrite Htimers, delete_singleton_eq, insert_empty. eauto.
Qed.

(** ** Simulation *)

(** A browser event keeps the hook a single connection, and the connection
    makes the step that the event stands for. *)
Lemma browser_single s e s' :
  single s → next_browser parse s e = Some s' →
  single s' ∧ matched (Connection.next parse) abstraction label s e s'.
Proof.
  intros Hs Hnext. unfold next_browser in Hnext. unfold matched, Connection.next.
  destruct e as [| | |id|id data|id|id|t constructed]; try done; simpl in Hnext |- *.
  1-4: destruct (sockets s !! id) as [socket|] eqn:Hid; [|done]; simpl in Hnext;
       case_decide as Hst; simplify_eq.
  - destruct (opened_single s id socket Hs Hid Hst) as (Hs' & Hp & Hp').
    split; [done|]. unfold abstraction. by rewrite Hp, Hp'.
  - destruct (message_single s id socket data Hs Hid Hst) as (Hs' & Hp & Habs).
    split; [done|]. by rewrite Hp, Habs.
  - done.
  - destruct (closed_single s id socket Hs Hid Hst) as (Hs' & Hp & Hp').
    split; [done|]. unfold abstraction. rewrite Hp'. by destruct (phase_of s).
  - destruct (timers s !! t) as [owner|] eqn:Ht; [|done]. simplify_eq/=.
    destruct (fired_single s t owner constructed Hs Ht) as (Hs' & Hp & Hp').
    split; [done|]. unfold abstraction. rewrite Hp, Hp'. by destruct constructed.
Qed.

(** Every step of the connection is a step that the hook can make. *)
Lemma connection_enabled s l c :
  single s → Connection.next parse (abstraction s) l = Some c →
  ∃ e, label e = Some l ∧ is_Some (next_browser parse s e).
Proof.
  intros Hs Hstep. unfold Connection.next in Hstep. simpl in Hstep.
  pose proof (single_timer s Hs) as Ht. pose proof (phase_of_connected s) as Hc.
  destruct l, (phase_of s) eqn:Hp; try done;
    try (destruct Hc as (id & socket & Hid & [[Hst ?]|[Hst ?]]); [done| |]; simplify_eq).
  - destruct Ht as (t & owner & Ht). exists (TimerFired t constructed).
    unfold next_browser. simpl. by rewrite Ht, lookup_singleton_eq.
  - exists (SocketOpened id). unfold next_browser. simpl. rewrite Hid. simpl.
    by rewrite decide_True.
  - exists (SocketMessage id data). unfold next_browser. simpl. rewrite Hid. simpl.
    by rewrite decide_True.
  - exists (SocketClosed id). unfold next_browser. simpl. rewrite Hid. simpl.
    by rewrite decide_False by congruence.
  - exists (SocketClosed id). unfold next_browser. simpl. rewrite Hid. simpl.
    by rewrite decide_False by congruence.
Qed.

(** After the first effect the hook holds a single connection. *)
Lemma mount_single constructed : single (effect constructed (freshRefs initialState)).
Proof.
  destruct constructed; split; simpl.
  - by intros [|[|id]] socket [= <-] Hlive.
  - done.
  - by intros [|id] socket [=].
  - unfold phase_of, current. simpl. rewrite insert_empty. eauto.
Qed.

Lemma single_inductive s0 : single s0 → inductive s0 (next_browser parse) single.
Proof. intros Hs0. split; [done|]. intros s e s' _ Hs Hnext. by eapply browser_single. Qed.

Lemma mounted_single constructed s :
  reachable (effect constructed (freshRefs initialState)) (next_browser parse) s → single s.
Proof. apply inductive_invariant, single_inductive, mount_single. Qed.

Lemma hook_simulation constructed :
  simulation (next_browser parse) (Connection.next parse) abstraction label
    (effect constructed (freshRefs initialState)).
Proof. intros s e s' Hs%mounted_single Hnext. by eapply browser_single. Qed.

(** ** Theorems *)

(** C18. Mounted once and rendered with one [onUpdate], the hook implements
    the connection of the specification.  The mount is the first attempt to
    connect.  From then on every run of the hook under the events of the
    browser is, event by event, a run of the connection, with the updates
    handed to [onUpdate] as the updates received; an error event is no step
    of the connection.  Conversely every step that the connection can make
    is the step of an event that the hook can take, with the same result. *)
Theorem hook_refines_connection (constructed : bool) (s0 : State) :
  next parse initialState (Mount constructed) = Some s0 →
  Connection.next parse Connection.initialState (Connection.Retry constructed)
    = Some (abstraction s0) ∧
  refines (next_browser parse) (Connection.next parse) abstraction label s0 ∧
  ∀ s l c, reachable s0 (next_browser parse) s →
    Connection.next parse (abstraction s) l = Some c →
    ∃ e s', label e = Some l ∧ next_browser parse s e = Some s' ∧ abstraction s' = c.
Proof.
  intros [= <-]. split_and!; [by destruct constructed|apply simulation_refines, hook_simulation|].
  intros s l c Hs Hstep. pose proof (mounted_single _ _ Hs) as Hsingle.
  destruct (connection_enabled s l c Hsingle Hstep) as (e & Hl & s' & Hnext).
  exists e, s'. split_and!; [done..|].
  destruct (browser_single s e s' Hsingle Hnext) as [_ Hm]. unfold matched in Hm.
  rewrite Hl in Hm. congruence.
Qed.

End simulation.

(** ** Worked examples *)

Lemma hook_refines_connection_witness :
  let s0 := state_after [Mount true] in
  Connection.next sample_parse Connection.initialState (Connection.Retry true)
    = Some (abstraction s0) ∧
  refines (next_browser sample_parse) (Connection.next sample_parse) abstraction label s0 ∧
  ∀ s l c, reachable s0 (next_browser sample_parse) s →
    Connection.next sample_parse (abstraction s) l = Some c →
    ∃ e s', label e = Some l ∧ next_browser sample_parse s e = Some s' ∧ abstraction s' = c.
Proof. intros s0. by apply (hook_refines_connection sample_parse true s0). Defined.

(** The connection is opened, lost and opened again, and then receives a
    message: the run of the hook and the run of the connection that it
    stands for. *)
Example reconnect_run :
  let trace := [SocketOpened 0; SocketError 0; SocketClosed 0; TimerFired 1 true;
                SocketOpened 1; SocketMessage 1 "SB1"] in
  omap label trace =
    [Connection.Handshake; Connection.Lost; Connection.Retry true; Connection.Handshake;
     Connection.Receive "SB1"] ∧
  abstraction (state_after (Mount true :: trace)) =
    {| Connection.phase := Connection.Open;
       Connection.received := [ParsedAs {| PriceUpdate_flightId := "SB1";
                                           PriceUpdate_newPrice := 31000;
                                           PriceUpdate_timestamp := "" |}] |}.
Proof. by vm_compute. Qed.

(** After a render with a new [onUpdate] the hook is no single connection:
    the current socket is connecting while an older socket is open and
    receives a message, a step that the connection cannot make while it is
    connecting. *)
Example rerender_breaks_connection :
  let s := state_after reconnected_twice_trace in
  phase_of s = Connection.Connecting ∧
  is_Some (next_browser sample_parse s (SocketMessage 1 "SB1")) ∧
  Connection.next sample_parse (abstraction s) (Connection.Receive "SB1") = None.
Proof. intros s. split_and!; [done|by eexists|done]. Qed.

End Feed.
