(* ===== verification/Application.v ===== *)
(** * The page with its price feed

    [SearchPage] calls [usePriceUpdates] with an arrow function that is
    created anew in every render ([pages/SearchPage.tsx], line 25).  This
    file puts the two transition systems together: the wizard of [Flow] and
    the connection of [PriceUpdates].

    - A message on an open socket that parses is handed to [onUpdate],
      which calls [setFlights] with an updater.  For a price update that is
      the event [Flow.PriceUpdated] of the wizard; for [null] the updater
      throws when there is a flight to look at; for any other value it
      keeps the list.  [setFlights] gets a new array each time, so a render
      of [SearchPage] is scheduled ([renderScheduled]).
    - A render of [SearchPage] passes a new [onUpdate] to the hook: the
      event [PriceUpdates.Rerender] of the connection.  A render can occur
      at any time, because every event of the user that changes the
      controller's state causes one as well.
    - An event of the user is an event of the wizard; the sockets and the
      timers are those of the connection.  [SearchPage] is never unmounted.
    - When the updater throws, the render of [SearchPage] fails ([failed])
      and the model ends.

    The theorems show that both parts keep their own invariants in the
    composition, that the feed never loses its last subscription, that
    every delivered message costs a connection, and that the message [null]
    makes the render fail. *)

From S2P Require Import Prelude Types SearchPage Flow PriceUpdates.

Module Application.

(** ** State *)

Record State : Type := {
  (** the wizard: the controller's state and the mounted view *)
  app : Flow.App;
  (** the hook: its refs, sockets and timers *)
  feed : PriceUpdates.State;
  (** [setFlights] has been called by [onUpdate] and [SearchPage] has not
      rendered since *)
  renderScheduled : bool;
  (** the error that the updater of [setFlights] has thrown, if it threw:
      the render of [SearchPage] fails with it *)
  failed : option JsError;
}.

(** Before the first render of [SearchPage]. *)
Definition initialState : State :=
  {| app := Flow.initialApp; feed := PriceUpdates.initialState; renderScheduled := false;
     failed := None |}.

Definition setApp (v : Flow.App) (s : State) : State :=
  {| app := v; feed := feed s; renderScheduled := renderScheduled s; failed := failed s |}.

Definition setFeed (v : PriceUpdates.State) (s : State) : State :=
  {| app := app s; feed := v; renderScheduled := renderScheduled s; failed := failed s |}.

Definition setRenderScheduled (v : bool) (s : State) : State :=
  {| app := app s; feed := feed s; renderScheduled := v; failed := failed s |}.

Definition setFailed (v : option JsError) (s : State) : State :=
  {| app := app s; feed := feed s; renderScheduled := renderScheduled s; failed := v |}.

(** ** Events *)

Inductive Event : Type :=
(** the first render of [SearchPage]: the effect of the hook runs *)
| Mounted (constructed : bool)
(** an event of the wizard that the user or a response causes *)
| User (e : Flow.Event)
(** a message arrives on a socket *)
| Message (id : nat) (data : string)
(** a socket opens, fails or closes, or a reconnect timer fires *)
| Browser (e : PriceUpdates.Event)
(** [SearchPage] renders again: the hook gets a new [onUpdate] *)
| Render (constructed : bool).

(** The events of the wizard that do not come from the feed. *)
Definition is_user (e : Flow.Event) : bool :=
  match e with
  | Flow.PriceUpdated _ => false
  | _ => true
  end.

(** The events of the connection that neither deliver a message nor belong
    to the life cycle of the component. *)
Definition is_connection (e : PriceUpdates.Event) : bool :=
  match e with
  | PriceUpdates.SocketOpened _ | PriceUpdates.SocketError _
  | PriceUpdates.SocketClosed _ | PriceUpdates.TimerFired _ _ => true
  | _ => false
  end.

Section next.
Context `{!Collator}.
(** [JSON.parse] followed by the cast to [PriceUpdate]. *)
Context (parse : string → option (Parsed PriceUpdate)).

(** The callback passed to [usePriceUpdates]: [setFlights(prev => ...)].
    An update is the wizard's event [Flow.PriceUpdated]; for any other value
    the updater either keeps the content of the list or throws. *)
Definition onUpdate (parsed : Parsed PriceUpdate) (s : State) : option State :=
  match parsed with
  | ParsedAs update =>
      app' ← Flow.next (app s) (Flow.PriceUpdated update);
      Some (setRenderScheduled true (setApp app' s))
  | _ =>
      match SearchPage.priceUpdater parsed (SearchPage.flights (Flow.page (app s))) with
      | Normal _ => Some (setRenderScheduled true s)
      | Throw e => Some (setFailed (Some e) s)
      end
  end.

(** The events of the running application. *)
Definition running (s : State) (e : Event) : option State :=
  match e with
  | Mounted constructed =>
      feed' ← PriceUpdates.next parse (feed s) (PriceUpdates.Mount constructed);
      Some (setFeed feed' s)
  | User e =>
      if is_user e && bool_decide (is_Some (PriceUpdates.mounted (feed s))) then
        app' ← Flow.next (app s) e;
        Some (setApp app' s)
      else None
  | Message id data =>
      feed' ← PriceUpdates.next parse (feed s) (PriceUpdates.SocketMessage id data);
      match parse data with
      | Some parsed => onUpdate parsed (setFeed feed' s)
      | None => Some (setFeed feed' s)
      end
  | Browser e =>
      if is_connection e then
        feed' ← PriceUpdates.next parse (feed s) e;
        Some (setFeed feed' s)
      else None
  | Render constructed =>
      feed' ← PriceUpdates.next parse (feed s) (PriceUpdates.Rerender constructed);
      Some (setRenderScheduled false (setFeed feed' s))
  end.

(** Nothing is modelled after a render of [SearchPage] has failed: what
    becomes of the page then is up to React. *)
Definition next (s : State) (e : Event) : option State :=
  match failed s with
  | Some _ => None
  | None => running s e
  end.

End next.

(** ** Specification predicates *)

(** The hook has run its effect and holds at least one subscription. *)
Definition subscribed (s : State) : Prop :=
  is_Some (PriceUpdates.mounted (feed s)) ∧ (1 ≤ PriceUpdates.subscriptions (feed s))%nat.




(** ** Worked examples *)

Definition state_after (trace : list Event) : State :=
  after initialState (next PriceUpdates.sample_parse) trace.

(** The page is mounted, the socket opens, and a search for one passenger
    finds two flights. *)
Definition listed_trace : list Event :=
  [Mounted true; Browser (PriceUpdates.SocketOpened 0)] ++ (User <$> Flow.search_events 1).

(** The update that [PriceUpdates.sample_parse] reads from the message
    ["SB1"]. *)
Definition sample_update : PriceUpdate :=
  {| PriceUpdate_flightId := "SB1"; PriceUpdate_newPrice := 31000;
     PriceUpdate_timestamp := "" |}.

(** A price update for flight SB1 arrives. *)
Definition delivered_trace : list Event := listed_trace ++ [Message 0 "SB1"].

(** The state after [onUpdate] has been called with the update. *)
Definition updated_once : State :=
  default initialState (onUpdate (ParsedAs sample_update) (state_after listed_trace)).

(** The message [null] arrives instead. *)
Definition null_trace : list Event := listed_trace ++ [Message 0 "null"].

(** The page renders. *)
Definition updated_trace : list Event := delivered_trace ++ [Render true].

(** The socket of the first render closes and reconnects; both sockets are
    open when the next update arrives, and both deliver it. *)
Definition doubled_trace : list Event :=
  updated_trace ++
  [Browser (PriceUpdates.SocketOpened 1); Browser (PriceUpdates.SocketClosed 0);
   Browser (PriceUpdates.TimerFired 1 true); Browser (PriceUpdates.SocketOpened 2);
   Message 1 "SB2"; Message 2 "SB2"; Render true].

(** ** Lemmas *)

Section application.
Context `{!Collator} (parse : string → option (Parsed PriceUpdate)).

(** Both parts of a reachable state are reachable states of their own
    transition systems. *)
Definition components_reachable (s : State) : Prop :=
  reachable Flow.initialApp Flow.next (app s) ∧
  reachable PriceUpdates.initialState (PriceUpdates.next parse) (feed s).

Lemma next_running (s : State) (e : Event) (s' : State) :
  next parse s e = Some s' ↔ failed s = None ∧ running parse s e = Some s'.
Proof. unfold next. destruct (failed s); [by split; [|intros [? ?]]|by split; [|intros [_ ?]]]. Qed.

(** [onUpdate] leaves the hook alone, and is a step of the wizard or none. *)
Lemma onUpdate_app (parsed : Parsed PriceUpdate) (s s' : State) :
  onUpdate parsed s = Some s' →
  feed s' = feed s ∧ (app s' = app s ∨ ∃ e, Flow.next (app s) e = Some (app s')).
Proof.
  unfold onUpdate. intros Hs'. destruct parsed as [|update|].
  - destruct (SearchPage.priceUpdater _ _); simplify_eq/=; (split; [done|by left]).
  - destruct (Flow.next _ _) eqn:Happ; [|done]. injection Hs' as <-.
    split; [done|]. right. by exists (Flow.PriceUpdated update).
  - destruct (SearchPage.priceUpdater _ _); simplify_eq/=; (split; [done|by left]).
Qed.

(** What a step of the application is for the wizard: a step, or nothing. *)
Lemma step_app (s : State) (e : Event) (s' : State) :
  next parse s e = Some s' →
  app s' = app s ∨ ∃ e', Flow.next (app s) e' = Some (app s').
Proof.
  intros [_ Hnext]%next_running. destruct e; cbn [running] in Hnext.
  - left. by simplify_option_eq.
  - right. exists e. destruct (_ && _); by simplify_option_eq.
  - destruct (PriceUpdates.next parse (feed s) _) as [feed'|]; [|done].
    cbn [mbind option_bind] in Hnext. destruct (parse data).
    + by apply onUpdate_app in Hnext as [_ ?].
    + left. by simplify_eq.
  - left. destruct (is_connection e); by simplify_option_eq.
  - left. by simplify_option_eq.
Qed.

(** What a step of the application is for the hook: a step that is not an
    unmount, or nothing. *)
Lemma step_feed (s : State) (e : Event) (s' : State) :
  next parse s e = Some s' →
  feed s' = feed s ∨
  ∃ e', e' ≠ PriceUpdates.Unmount ∧ PriceUpdates.next parse (feed s) e' = Some (feed s').
Proof.
  intros [_ Hnext]%next_running. destruct e; cbn [running] in Hnext.
  - right. exists (PriceUpdates.Mount constructed).
    destruct (PriceUpdates.next parse (feed s) _); by simplify_option_eq.
  - left. destruct (_ && _); by simplify_option_eq.
  - right. exists (PriceUpdates.SocketMessage id data).
    destruct (PriceUpdates.next parse (feed s) _) as [feed'|]; [|done].
    cbn [mbind option_bind] in Hnext. split; [done|]. f_equal. destruct (parse data).
    + by apply onUpdate_app in Hnext as [-> _].
    + by simplify_eq.
  - right. exists e. destruct (PriceUpdates.next parse (feed s) e);
      destruct e; by simplify_option_eq.
  - right. exists (PriceUpdates.Rerender constructed).
    destruct (PriceUpdates.next parse (feed s) _); by simplify_option_eq.
Qed.

Lemma components_inductive : inductive initialState (next parse) components_reachable.
Proof.
  split; [split; constructor|]. intros s e s' _ [Happ Hfeed] Hnext. split.
  - destruct (step_app _ _ _ Hnext) as [->|[e' He']]; [done|]. by eapply reachable_step.
  - destruct (step_feed _ _ _ Hnext) as [->|(e' & _ & He')]; [done|]. by eapply reachable_step.
Qed.

Lemma reachable_components (s : State) :
  reachable initialState (next parse) s → components_reachable s.
Proof. apply inductive_invariant, components_inductive. Qed.

(** No step loses a subscription for good, and no step unmounts the hook. *)
Lemma step_subscribed (s : State) (e : Event) (s' : State) :
  PriceUpdates.well_formed (feed s) → next parse s e = Some s' →
  (PriceUpdates.subscriptions (feed s) ≤ PriceUpdates.subscriptions (feed s'))%nat ∧
  (is_Some (PriceUpdates.mounted (feed s)) → is_Some (PriceUpdates.mounted (feed s'))).
Proof.
  intros Hwf Hnext. destruct (step_feed _ _ _ Hnext) as [->|(e' & He' & Hfeed)]; [done|].
  split; [by eapply PriceUpdates.next_subscriptions_le|by eapply PriceUpdates.next_mounted].
Qed.

Lemma subscribed_inductive :
  inductive initialState (next parse) (λ s, s = initialState ∨ subscribed s).
Proof.
  split; [by left|]. intros s e s' Hs Hinv Hnext. right.
  pose proof (reachable_components s Hs) as [_ Hwf%PriceUpdates.reachable_well_formed].
  destruct (step_subscribed s e s' Hwf Hnext) as [Hle Hm].
  destruct Hinv as [->|[Hmounted Hsub]]; [|split; [auto|lia]].
  destruct e as [c|e|id data|e|c]; try (by destruct e); try done.
  injection Hnext as <-. split; [by destruct c; eexists|].
  change (1 ≤ PriceUpdates.subscriptions
                (PriceUpdates.effect c (PriceUpdates.freshRefs PriceUpdates.initialState)))%nat.
  rewrite PriceUpdates.subscriptions_effect by done. lia.
Qed.

(** A message that parses, on an open socket. *)
Lemma next_message (s : State) (id : nat) (socket : PriceUpdates.Socket) (data : string)
    (parsed : Parsed PriceUpdate) :
  failed s = None →
  PriceUpdates.sockets (feed s) !! id = Some socket →
  PriceUpdates.socket_readyState socket = PriceUpdates.Open →
  parse data = Some parsed →
  next parse s (Message id data) =
    onUpdate parsed
      (setFeed (PriceUpdates.onmessage parse (PriceUpdates.socket_owner socket) data (feed s))
         s).
Proof.
  intros Hfailed Hid Hopen Hparse. unfold next. rewrite Hfailed.
  cbn [running PriceUpdates.next]. rewrite Hid. simpl.
  by rewrite decide_True, Hparse by done.
Qed.

(** Where the updater does not throw, [onUpdate] stores its result and
    schedules a render. *)
Lemma onUpdate_flights (parsed : Parsed PriceUpdate) (s : State) (flights' : list Flight) :
  SearchPage.priceUpdater parsed (SearchPage.flights (Flow.page (app s))) = Normal flights' →
  ∃ s', onUpdate parsed s = Some s' ∧ feed s' = feed s ∧ failed s' = failed s ∧
    renderScheduled s' = true ∧ SearchPage.flights (Flow.page (app s')) = flights'.
Proof.
  unfold onUpdate. destruct parsed as [|update|]; simpl.
  - destruct (SearchPage.flights _) eqn:Hflights; intros [= <-]. by eexists.
  - intros [= <-]. by eexists.
  - intros [= <-]. by eexists.
Qed.

(** A delivery changes nothing of the connection but its record of calls. *)
Lemma onmessage_feed (owner : nat) (data : string) (f : PriceUpdates.State) :
  PriceUpdates.subscriptions (PriceUpdates.onmessage parse owner data f)
    = PriceUpdates.subscriptions f ∧
  PriceUpdates.mounted (PriceUpdates.onmessage parse owner data f) = PriceUpdates.mounted f ∧
  PriceUpdates.timers (PriceUpdates.onmessage parse owner data f) = PriceUpdates.timers f ∧
  PriceUpdates.sockets (PriceUpdates.onmessage parse owner data f) = PriceUpdates.sockets f ∧
  (PriceUpdates.well_formed f →
   PriceUpdates.well_formed (PriceUpdates.onmessage parse owner data f)) ∧
  (PriceUpdates.timer_idle f →
   PriceUpdates.timer_idle (PriceUpdates.onmessage parse owner data f)).
Proof. unfold PriceUpdates.onmessage. by destruct (parse data). Qed.

(** The wizard after the same update twice. *)
Lemma remount_twice (update : PriceUpdate) (s : SearchPage.State) (c : Flow.Child) :
  let a := Flow.remount (SearchPage.onPriceUpdate update s) c in
  Flow.remount (SearchPage.onPriceUpdate update (Flow.page a)) (Flow.child a) = a.
Proof.
  simpl. rewrite SearchPage.onPriceUpdate_idempotent. unfold Flow.remount. f_equal.
  destruct (Flow.mounted _ c) eqn:Hc; [by rewrite Hc|by case_match].
Qed.

(** A render of the mounted page. *)
Lemma next_render (s : State) (constructed : bool) :
  failed s = None → is_Some (PriceUpdates.mounted (feed s)) →
  next parse s (Render constructed) =
    Some {| app := app s;
            feed := PriceUpdates.effect constructed (PriceUpdates.cleanup (feed s));
            renderScheduled := false; failed := None |}.
Proof.
  intros Hfailed Hm. unfold next. rewrite Hfailed. cbn [running PriceUpdates.next].
  rewrite decide_True by done. unfold setRenderScheduled, setFeed. simpl. by rewrite Hfailed.
Qed.


(** A delivery and the render it causes, with no reconnect pending. *)
Lemma delivery_render (s : State) (id : nat) (socket : PriceUpdates.Socket) (data : string)
    (parsed : Parsed PriceUpdate) (flights' : list Flight) (constructed : bool) :
  failed s = None → is_Some (PriceUpdates.mounted (feed s)) →
  PriceUpdates.well_formed (feed s) → PriceUpdates.timer_idle (feed s) →
  PriceUpdates.sockets (feed s) !! id = Some socket →
  PriceUpdates.socket_readyState socket = PriceUpdates.Open →
  parse data = Some parsed →
  SearchPage.priceUpdater parsed (SearchPage.flights (Flow.page (app s))) = Normal flights' →
  ∃ s1,
    next parse s (Message id data) = Some s1 ∧
    SearchPage.flights (Flow.page (app s1)) = flights' ∧ renderScheduled s1 = true ∧
    PriceUpdates.sockets (feed s1) = PriceUpdates.sockets (feed s) ∧
    PriceUpdates.timers (feed s1) = PriceUpdates.timers (feed s) ∧
    next parse s1 (Render constructed) =
      Some {| app := app s1;
              feed := PriceUpdates.effect constructed (PriceUpdates.cleanup (feed s1));
              renderScheduled := false; failed := None |} ∧
    PriceUpdates.subscriptions
      (PriceUpdates.effect constructed (PriceUpdates.cleanup (feed s1)))
      = S (PriceUpdates.subscriptions (feed s)).
Proof.
  intros Hfailed Hm Hwf Hidle Hid Hopen Hparse Hupdater.
  destruct (onmessage_feed (PriceUpdates.socket_owner socket) data (feed s))
    as (Hsub & Hmounted & Htimers & Hsockets & Hwf' & Hidle').
  rewrite (next_message s id socket data parsed) by done.
  destruct (onUpdate_flights parsed
              (setFeed (PriceUpdates.onmessage parse (PriceUpdates.socket_owner socket) data
                          (feed s)) s) flights' Hupdater)
    as (s1 & -> & Hfeed & Hfailed1 & Hscheduled & Hflights).
  cbn [feed failed setFeed] in Hfeed, Hfailed1. rewrite Hfailed in Hfailed1.
  exists s1. rewrite Hfeed. split_and!; [done..| |].
  - rewrite next_render by (done || by rewrite Hfeed, Hmounted). by rewrite Hfeed.
  - rewrite PriceUpdates.subscriptions_rerender by auto. by rewrite Hsub.
Qed.



(** ** Theorems *)

(** The state of each part is a reachable state of its own transition
    system, so the invariants of [Flow] and of [PriceUpdates] hold in the
    application. *)
Lemma components_consistent (s : State) :
  reachable initialState (next parse) s →
  reachable Flow.initialApp Flow.next (app s) ∧
  reachable PriceUpdates.initialState (PriceUpdates.next parse) (feed s) ∧
  Flow.consistent (app s) ∧ PriceUpdates.well_formed (feed s).
Proof.
  intros [Happ Hfeed]%reachable_components. split_and!; [done..| |].
  - by apply Flow.reachable_consistent.
  - by eapply PriceUpdates.reachable_well_formed.
Qed.

(** C19. Once [SearchPage] has rendered, the feed is never without a
    subscription: there is a socket that is not closed or a reconnect that
    is scheduled, whatever the user, the sockets and the timers do. *)
Theorem always_subscribed : invariant initialState (next parse) (λ s, s = initialState ∨ subscribed s).
Proof. apply inductive_invariant, subscribed_inductive. Qed.

(** C13. A message that is delivered and whose updater does not throw (a
    price update, or any other value but [null]) gives the flight list the
    updater's result and schedules a render of [SearchPage]; that render
    gives the hook a new [onUpdate], and with no reconnect pending the hook
    then holds one subscription more than before the message. *)
Theorem delivery_adds_subscription (s : State) (id : nat) (socket : PriceUpdates.Socket)
    (data : string) (parsed : Parsed PriceUpdate) (flights' : list Flight)
    (constructed : bool) :
  reachable initialState (next parse) s → failed s = None →
  PriceUpdates.sockets (feed s) !! id = Some socket →
  PriceUpdates.socket_readyState socket = PriceUpdates.Open →
  parse data = Some parsed →
  SearchPage.priceUpdater parsed (SearchPage.flights (Flow.page (app s))) = Normal flights' →
  PriceUpdates.timer_idle (feed s) →
  ∃ s1 s2,
    next parse s (Message id data) = Some s1 ∧
    SearchPage.flights (Flow.page (app s1)) = flights' ∧
    renderScheduled s1 = true ∧
    next parse s1 (Render constructed) = Some s2 ∧
    PriceUpdates.subscriptions (feed s2) = S (PriceUpdates.subscriptions (feed s)).
Proof.
  intros Hs Hfailed Hid Hopen Hparse Hupdater Hidle.
  pose proof (reachable_components s Hs) as [_ Hwf%PriceUpdates.reachable_well_formed].
  destruct (inductive_invariant _ _ _ subscribed_inductive s Hs) as [->|[Hm _]]; [done|].
  destruct (delivery_render s id socket data parsed flights' constructed)
    as (s1 & Hs1 & Hflights & Hscheduled & _ & _ & Hs2 & Hsub); [done..|].
  by eexists s1, _.
Qed.


(** C14. The message [null] is valid JSON and passes the [try] of
    [onmessage]; with at least one flight in the list the updater then reads
    [flightId] of [null], the render of [SearchPage] fails with a
    [TypeError], and the model ends there. *)
Theorem null_message_fails (s : State) (id : nat) (socket : PriceUpdates.Socket)
    (data : string) :
  failed s = None →
  PriceUpdates.sockets (feed s) !! id = Some socket →
  PriceUpdates.socket_readyState socket = PriceUpdates.Open →
  parse data = Some ParsedNull →
  SearchPage.flights (Flow.page (app s)) ≠ [] →
  ∃ s', next parse s (Message id data) = Some s' ∧ failed s' = Some TypeError ∧
    app s' = app s ∧ ∀ e, next parse s' e = None.
Proof.
  intros Hfailed Hid Hopen Hparse Hflights.
  rewrite (next_message s id socket data ParsedNull) by done.
  unfold onUpdate. cbn [SearchPage.priceUpdater app setFeed].
  destruct (SearchPage.flights _); [done|]. by eexists.
Qed.

(** An update that is delivered by two sockets leaves the page as it is
    after the first delivery. *)
Theorem second_delivery_keeps_page (s s1 : State) (update : PriceUpdate) :
  onUpdate (ParsedAs update) s = Some s1 → onUpdate (ParsedAs update) s1 = Some s1.
Proof.
  intros [= <-]. unfold onUpdate, setRenderScheduled, setApp.
  cbn [app feed renderScheduled failed Flow.next mbind option_bind]. do 2 f_equal.
  apply (remount_twice update).
Qed.

End application.

(** ** Worked runs *)

Ltac example := try apply after_reachable; by vm_compute; eauto.

Lemma delivery_adds_subscription_witness :
  ∃ s1 s2,
    next PriceUpdates.sample_parse (state_after listed_trace) (Message 0 "SB1") = Some s1 ∧
    SearchPage.flights (Flow.page (app s1)) =
      SearchPage.applyPriceUpdate sample_update
        (SearchPage.flights (Flow.page (app (state_after listed_trace)))) ∧
    renderScheduled s1 = true ∧
    next PriceUpdates.sample_parse s1 (Render true) = Some s2 ∧
    PriceUpdates.subscriptions (feed s2)
      = S (PriceUpdates.subscriptions (feed (state_after listed_trace))).
Proof.
  apply (delivery_adds_subscription PriceUpdates.sample_parse (state_after listed_trace) 0
           {| PriceUpdates.socket_readyState := PriceUpdates.Open;
              PriceUpdates.socket_owner := 1 |} "SB1" (ParsedAs sample_update)); example.
Defined.


Lemma always_subscribed_witness :
  state_after doubled_trace = initialState ∨ subscribed (state_after doubled_trace).
Proof. apply (always_subscribed PriceUpdates.sample_parse). example. Defined.

Lemma null_message_fails_witness :
  ∃ s', next PriceUpdates.sample_parse (state_after listed_trace) (Message 0 "null") = Some s' ∧
    failed s' = Some TypeError ∧ app s' = app (state_after listed_trace) ∧
    ∀ e, next PriceUpdates.sample_parse s' e = None.
Proof.
  apply (null_message_fails PriceUpdates.sample_parse (state_after listed_trace) 0
           {| PriceUpdates.socket_readyState := PriceUpdates.Open;
              PriceUpdates.socket_owner := 1 |}); example.
Defined.

Lemma second_delivery_keeps_page_witness :
  onUpdate (ParsedAs sample_update) (state_after listed_trace) = Some updated_once ∧
  onUpdate (ParsedAs sample_update) updated_once = Some updated_once.
Proof.
  split; [example|]. apply (second_delivery_keeps_page (state_after listed_trace)). example.
Defined.

(** One update, delivered once: the price of flight SB1 changes, the page
    renders, and the hook holds two connections: the socket of the second
    render, and the socket of the first render, which is closing and will
    reconnect. *)
Example update_run :
  let s := state_after updated_trace in
  Flight_price <$> SearchPage.flights (Flow.page (app s)) = [31000; 45000] ∧
  PriceUpdates.subscriptions (feed s) = 2%nat ∧ renderScheduled s = false.
Proof. by vm_compute. Qed.

(** The next update is delivered twice, by the socket of the second render
    and by the reconnected socket of the first; the prices are as after one
    delivery, and after the render the hook holds three connections. *)
Example doubled_run :
  let s := state_after doubled_trace in
  Flight_price <$> SearchPage.flights (Flow.page (app s)) = [31000; 31000] ∧
  fst <$> PriceUpdates.delivered (feed s) = [1%nat; 2%nat; 1%nat] ∧
  PriceUpdates.subscriptions (feed s) = 3%nat.
Proof. by vm_compute. Qed.

(** Before any search the message [null] does no harm: the flight list is
    empty, the updater returns, and the page renders like after any other
    message. *)
Example null_message_before_search :
  let s := state_after [Mounted true; Browser (PriceUpdates.SocketOpened 0); Message 0 "null"] in
  failed s = None ∧ renderScheduled s = true ∧ app s = Flow.initialApp.
Proof. by vm_compute. Qed.

End Application.
